(** * Mass-balance diagnostics: preprocessing, metrics, zones and actions

    A shallow embedding of [preprocessing.py], [calculation_functions.py],
    [recommendation_logic.py] and of the three column assignments of
    [app.py] that call the zone rules.

    Conventions of the embedding.
    - A Python float is either a rational number ([Fin q]) or [NaN]; rounding
      and infinities are left out, and a decimal constant of the source stands
      for the rational it spells (0.8 is 4/5, 2.5 is 5/2).  Every comparison
      with [NaN] is false, as in IEEE arithmetic.
    - A Python value is [VNone], a float or a string; an operation applied to
      a value of the wrong kind raises [TypeError], as the interpreter does.
    - Raised exceptions are values of [exn]; code that may raise lives in the
      [result] monad.
    - A column label is a string of code points below 256 (the dashboard
      decodes uploads as Latin-1), one [ascii] per code point.
    - A data frame is its list of labels and its list of rows, each row
      carrying its index label and its cells in column order; a cell a row
      lacks reads as missing.  Reading one column by its label takes the
      first column that carries it; where pandas hands back a frame instead
      of a column because the label is repeated, [to_numeric] raises
      [TypeError] and a selection by a list of labels returns every column
      carrying them.  Statements that promise a returned table assume that the
      normalised labels are pairwise distinct.
    - The pandas calls of the source ([rename], [to_numeric], [dropna],
      [reset_index], [sum], [apply], series arithmetic, column assignment)
      are modelled by what they do on such frames when at least one row is
      left; the text-to-number parser of [to_numeric] is a parameter. *)

From Stdlib Require Import List String Ascii Bool Arith PeanoNat.
From Stdlib Require Import QArith Qabs Lqa Lia.
Import ListNotations.

Close Scope Q_scope.

(* ------------------------------------------------------------------ *)
(** ** Floats, values, exceptions *)

Inductive pyfloat : Type :=
| Fin (q : Q)
| NaN.

Inductive value : Type :=
| VNone
| VFloat (x : pyfloat)
| VStr (s : string).

(** [ValueError msg names] stands for the message [msg] followed by the set
    [names] that the source formats into it. *)
Inductive exn : Type :=
| TypeError
| ZeroDivisionError
| KeyError (label : string)
| ValueError (msg : string) (names : list string).

Inductive result (A : Type) : Type :=
| Ok (a : A)
| Raise (e : exn).

Arguments Ok {A} a.
Arguments Raise {A} e.

Definition bind {A B : Type} (c : result A) (k : A -> result B) : result B :=
  match c with
  | Ok a => k a
  | Raise e => Raise e
  end.

Notation "x <- c ;; k" := (bind c (fun x => k))
  (at level 61, c at next level, right associativity).

Fixpoint mapM {A B : Type} (f : A -> result B) (l : list A) : result (list B) :=
  match l with
  | [] => Ok []
  | a :: l' => b <- f a ;; bs <- mapM f l' ;; Ok (b :: bs)
  end.

Module Float.

Local Open Scope Q_scope.

Definition add (x y : pyfloat) : pyfloat :=
  match x, y with
  | Fin a, Fin b => Fin (a + b)
  | _, _ => NaN
  end.

Definition sub (x y : pyfloat) : pyfloat :=
  match x, y with
  | Fin a, Fin b => Fin (a - b)
  | _, _ => NaN
  end.

Definition abs (x : pyfloat) : pyfloat :=
  match x with
  | Fin a => Fin (Qabs a)
  | NaN => NaN
  end.

(** [x / y] on Python floats: a zero divisor raises. *)
Definition div (x y : pyfloat) : result pyfloat :=
  match y with
  | Fin b =>
      if Qeq_bool b 0 then Raise ZeroDivisionError
      else match x with
           | Fin a => Ok (Fin (a / b))
           | NaN => Ok NaN
           end
  | NaN => Ok NaN
  end.

Definition le (x y : pyfloat) : bool :=
  match x, y with
  | Fin a, Fin b => Qle_bool a b
  | _, _ => false
  end.

Definition lt (x y : pyfloat) : bool :=
  match x, y with
  | Fin a, Fin b => negb (Qle_bool b a)
  | _, _ => false
  end.

Definition gt (x y : pyfloat) : bool := lt y x.

Definition eqb (x y : pyfloat) : bool :=
  match x, y with
  | Fin a, Fin b => Qeq_bool a b
  | _, _ => false
  end.

Definition isnan (x : pyfloat) : bool :=
  match x with
  | NaN => true
  | Fin _ => false
  end.


End Float.

(** The operand of an arithmetic operation or of an ordering comparison with
    a float. *)
Definition as_float (v : value) : result pyfloat :=
  match v with
  | VFloat x => Ok x
  | VNone | VStr _ => Raise TypeError
  end.

(** [pd.isna] on a cell. *)
Definition isna (v : value) : bool :=
  match v with
  | VNone => true
  | VFloat x => Float.isnan x
  | VStr _ => false
  end.

(* ------------------------------------------------------------------ *)
(** ** String methods used by the source *)

Module Str.

Local Open Scope string_scope.

(** [str.isspace] on one code point below 256. *)
Definition is_space (c : ascii) : bool :=
  let n := nat_of_ascii c in
  (((9 <=? n) && (n <=? 13)) || ((28 <=? n) && (n <=? 32))
   || (n =? 133) || (n =? 160))%nat.

Fixpoint lstrip (s : string) : string :=
  match s with
  | EmptyString => EmptyString
  | String c t => if is_space c then lstrip t else s
  end.

Fixpoint rstrip (s : string) : string :=
  match s with
  | EmptyString => EmptyString
  | String c t =>
      match rstrip t with
      | EmptyString => if is_space c then EmptyString else String c EmptyString
      | t' => String c t'
      end
  end.

(** [s.strip()] *)
Definition strip (s : string) : string := rstrip (lstrip s).

Definition lower_char (c : ascii) : ascii :=
  let n := nat_of_ascii c in
  if (((65 <=? n) && (n <=? 90)) || ((192 <=? n) && (n <=? 214))
      || ((216 <=? n) && (n <=? 222)))%nat
  then ascii_of_nat (n + 32) else c.

(** [s.lower()] *)
Fixpoint lower (s : string) : string :=
  match s with
  | EmptyString => EmptyString
  | String c t => String (lower_char c) (lower t)
  end.

(** [s.replace(" ", "_")] *)
Fixpoint replace_space (s : string) : string :=
  match s with
  | EmptyString => EmptyString
  | String c t =>
      String (if Ascii.eqb c " "%char then "_"%char else c) (replace_space t)
  end.

(** [s.startswith(p)] *)
Fixpoint startswith (s p : string) : bool :=
  match p with
  | EmptyString => true
  | String a p' =>
      match s with
      | EmptyString => false
      | String b s' => Ascii.eqb a b && startswith s' p'
      end
  end.

(** [sub in s] *)
Fixpoint contains (sub s : string) : bool :=
  startswith s sub ||
  match s with
  | EmptyString => false
  | String _ t => contains sub t
  end.

(** [sep.join(parts)] *)
Fixpoint join (sep : string) (parts : list string) : string :=
  match parts with
  | [] => EmptyString
  | [p] => p
  | p :: rest => p ++ sep ++ join sep rest
  end.

(** [x in l] for a list of strings. *)
Definition mem (x : string) (l : list string) : bool :=
  existsb (String.eqb x) l.

End Str.

(* ------------------------------------------------------------------ *)
(** ** Data frames *)

Definition row : Type := (nat * list value)%type.

Record DataFrame : Type := mkDF {
  columns : list string;
  rows : list row
}.

(** Position of the first column labelled [c]. *)
Fixpoint col_pos (c : string) (cols : list string) : option nat :=
  match cols with
  | [] => None
  | c' :: rest =>
      if String.eqb c c' then Some 0
      else option_map S (col_pos c rest)
  end.

(** The number of columns labelled [c]. *)
Definition label_count (c : string) (cols : list string) : nat :=
  List.length (filter (String.eqb c) cols).

(** The positions of all columns labelled [c], in column order. *)
Fixpoint all_pos (c : string) (cols : list string) : list nat :=
  match cols with
  | [] => []
  | c' :: rest =>
      let ps := map S (all_pos c rest) in
      if String.eqb c c' then O :: ps else ps
  end.

(** A cell that a short row lacks reads as missing. *)
Definition cell (i : nat) (r : list value) : value := nth i r (VFloat NaN).

Fixpoint set_cell (i : nat) (v : value) (r : list value) : list value :=
  match i, r with
  | O, [] => [v]
  | O, _ :: t => v :: t
  | S i', [] => VFloat NaN :: set_cell i' v []
  | S i', x :: t => x :: set_cell i' v t
  end.

(** [r[c]] for the cells [r] of a row of a frame with labels [cols]. *)
Definition row_get (cols : list string) (r : list value) (c : string)
  : result value :=
  match col_pos c cols with
  | Some i => Ok (cell i r)
  | None => Raise (KeyError c)
  end.

(** [df[c]] as the list of the column's cells, in row order, for a label one
    column carries.  For a repeated label pandas returns a frame; the two
    places of the source where that changes the outcome, [to_numeric] and
    the selection of the result table, are [coerce_columns] and
    [df_select]. *)
Definition df_get (df : DataFrame) (c : string) : result (list value) :=
  match col_pos c (columns df) with
  | Some i => Ok (map (fun r => cell i (snd r)) (rows df))
  | None => Raise (KeyError c)
  end.

(** Cells of a series laid against the rows of a frame; a row the series
    does not reach receives a missing value, as index alignment does. *)
Fixpoint assign_cells (i : nat) (rs : list row) (vs : list value) : list row :=
  match rs with
  | [] => []
  | r :: rs' =>
      match vs with
      | [] => (fst r, set_cell i (VFloat NaN) (snd r)) :: assign_cells i rs' []
      | v :: vs' => (fst r, set_cell i v (snd r)) :: assign_cells i rs' vs'
      end
  end.

(** [df[c] = vs]: overwrite the column in place when the label exists,
    append a new last column otherwise. *)
Definition df_set (df : DataFrame) (c : string) (vs : list value) : DataFrame :=
  match col_pos c (columns df) with
  | Some i => mkDF (columns df) (assign_cells i (rows df) vs)
  | None =>
      mkDF (columns df ++ [c])
           (assign_cells (List.length (columns df)) (rows df) vs)
  end.

(** A Python [dict] with string keys: the most recent binding of a key is
    the first one found. *)
Definition dict : Type := list (string * string).

Fixpoint dict_get (k : string) (d : dict) : option string :=
  match d with
  | [] => None
  | (k', v) :: d' => if String.eqb k k' then Some v else dict_get k d'
  end.

Definition dict_set (k v : string) (d : dict) : dict := (k, v) :: d.

(** [df.rename(columns=col_map)] *)
Definition rename (col_map : dict) (df : DataFrame) : DataFrame :=
  mkDF (map (fun c => match dict_get c col_map with
                      | Some c' => c'
                      | None => c
                      end) (columns df))
       (rows df).

(* ------------------------------------------------------------------ *)
(** ** preprocessing.py: column normalisation and degradant detection *)

Local Open Scope string_scope.

Definition COLUMN_ALIASES : list (string * list string) :=
  [ ("api_name", ["api name"; "api_name"; "api"]);
    ("api_code", ["api code"; "api_code"]);
    ("stress_type", ["stress type"; "stress_typ"; "stress_type"; "stress"]);
    ("time_months", ["time"; "time_mon"; "time_months"; "months"; "time_month"]);
    ("api_assay", ["api assay"; "api_assay"; "api_assay_percent";
                   "api assay percent"; "assay"; "assay_percent"]) ].

(** The inner [for std, aliases in COLUMN_ALIASES.items()] loop with its
    [break]: the first standard name whose alias list holds [clean]. *)
Fixpoint match_alias (clean : string) (table : list (string * list string))
  : option string :=
  match table with
  | [] => None
  | (std, aliases) :: rest =>
      if Str.mem clean aliases then Some std else match_alias clean rest
  end.

(** One pass of the outer loop of [normalize_columns]. *)
Definition normalize_step (col_map : dict) (col : string) : dict :=
  let clean := Str.lower (Str.strip col) in
  let col_map :=
    match match_alias clean COLUMN_ALIASES with
    | Some std => dict_set col std col_map
    | None => col_map
    end in
  if Str.contains "degradant" clean
  then dict_set col (Str.replace_space clean) col_map
  else col_map.

Definition normalize_columns (df : DataFrame) : DataFrame :=
  let col_map := fold_left normalize_step (columns df) [] in
  rename col_map df.

Definition detect_degradant_columns (df : DataFrame) : list string :=
  filter (fun c => Str.startswith c "degradant_") (columns df).

(* ------------------------------------------------------------------ *)
(** ** preprocessing.py: validation *)

(** The three checks of the loop body of [validate_and_clean], in source
    order.  The chained comparison reads [row["api_assay"]] once; by the time
    the sum is formed both operands have been compared with a float. *)
Definition row_issues (cols : list string) (r : list value)
  : result (list string) :=
  v <- row_get cols r "api_assay" ;;
  a <- as_float v ;;
  let out_of_range :=
    if negb (Float.le (Fin 0) a && Float.le a (Fin 100))
    then ["API assay out of range"] else [] in
  v <- row_get cols r "total_degradants" ;;
  t <- as_float v ;;
  let negative :=
    if Float.lt t (Fin 0) then ["Negative degradants"] else [] in
  v1 <- row_get cols r "api_assay" ;;
  v2 <- row_get cols r "total_degradants" ;;
  a' <- as_float v1 ;;
  t' <- as_float v2 ;;
  let mass_loss :=
    if Float.lt (Float.add a' t') (Fin 90)
    then ["Suspicious mass loss"] else [] in
  Ok (out_of_range ++ negative ++ mass_loss)%list.

(** The [for idx, row in df.iterrows()] loop: one record per row whose list
    of issues is not empty. *)
Fixpoint collect_issues (cols : list string) (rs : list row)
  : result (list (nat * string)) :=
  match rs with
  | [] => Ok []
  | r :: rs' =>
      ri <- row_issues cols (snd r) ;;
      rest <- collect_issues cols rs' ;;
      Ok (match ri with
          | [] => rest
          | _ :: _ => (fst r, Str.join ", " ri) :: rest
          end)
  end.

Definition validate_and_clean (df : DataFrame)
  : result (DataFrame * list (nat * string)) :=
  issues <- collect_issues (columns df) (rows df) ;;
  Ok (df, issues).

(* ------------------------------------------------------------------ *)
(** ** pandas operations used by the pipeline *)

(** An operand of element-wise series arithmetic: pandas masks [None]. *)
Definition series_operand (v : value) : result pyfloat :=
  match v with
  | VFloat x => Ok x
  | VNone => Ok NaN
  | VStr _ => Raise TypeError
  end.

(** [s1 + s2] *)
Definition series_add (s1 s2 : list value) : result (list value) :=
  mapM (fun p => x <- series_operand (fst p) ;;
                 y <- series_operand (snd p) ;;
                 Ok (VFloat (Float.add x y)))
       (combine s1 s2).

(** [s - c] for a numeric constant [c] *)
Definition series_sub_scalar (s : list value) (c : Q) : result (list value) :=
  mapM (fun v => x <- series_operand v ;; Ok (VFloat (Float.sub x (Fin c)))) s.

(** [s / c] for a non-zero numeric constant [c] *)
Definition series_div_scalar (s : list value) (c : Q) : result (list value) :=
  mapM (fun v => x <- series_operand v ;;
                 Ok (VFloat (match x with
                             | Fin a => Fin (a / c)
                             | NaN => NaN
                             end))) s.

(** [df.dropna(how="all")] *)
Definition dropna_all (df : DataFrame) : DataFrame :=
  mkDF (columns df)
       (filter (fun r => negb (forallb isna (snd r))) (rows df)).

(** [df.reset_index(drop=True)] *)
Definition reset_index (df : DataFrame) : DataFrame :=
  mkDF (columns df)
       (combine (seq 0 (List.length (rows df))) (map snd (rows df))).

(** The row-wise sum of [df[cs].sum(axis=1)]: missing cells are skipped, so
    the sum of no numbers is 0. *)
Fixpoint sum_skipna (vs : list value) : result Q :=
  match vs with
  | [] => Ok 0%Q
  | v :: vs' =>
      x <- series_operand v ;;
      s <- sum_skipna vs' ;;
      Ok (match x with
          | Fin q => (q + s)%Q
          | NaN => s
          end)
  end.

Definition label_pos (cols : list string) (c : string) : result nat :=
  match col_pos c cols with
  | Some i => Ok i
  | None => Raise (KeyError c)
  end.

(** [df[cs].sum(axis=1)] *)
Definition df_sum_axis1 (df : DataFrame) (cs : list string)
  : result (list value) :=
  ps <- mapM (label_pos (columns df)) cs ;;
  mapM (fun r => s <- sum_skipna (map (fun i => cell i (snd r)) ps) ;;
                 Ok (VFloat (Fin s)))
       (rows df).

(** The series pandas builds from the per-row results of
    [df.apply(f, axis=1)]: when at least one result is a float the series is
    a float series and [None] is stored as NaN; when no result is a float
    the results are kept as they are. *)
Definition is_float (v : value) : bool :=
  match v with
  | VFloat _ => true
  | _ => false
  end.

Definition none_to_nan (v : value) : value :=
  match v with
  | VNone => VFloat NaN
  | _ => v
  end.

Definition series_of_results (vs : list value) : list value :=
  if existsb is_float vs then map none_to_nan vs else vs.

(** [df.apply(f, axis=1)] *)
Definition df_apply_rows (df : DataFrame)
  (f : list string -> list value -> result value) : result (list value) :=
  vs <- mapM (fun r => f (columns df) (snd r)) (rows df) ;;
  Ok (series_of_results vs).

(* ------------------------------------------------------------------ *)
(** ** preprocessing.py: the pipeline *)

Definition required : list string := ["api_assay"; "stress_type"; "time_months"].

(** [required - set(df.columns)], listed in the order of [required]. *)
Definition missing_required (df : DataFrame) : list string :=
  filter (fun c => negb (Str.mem c (columns df))) required.

(** The lambda of the [RMB] assignment. *)
Definition rmb_of_row (cols : list string) (r : list value) : result value :=
  v <- row_get cols r "api_assay" ;;
  a <- as_float v ;;
  if Float.gt (Float.sub (Fin 100) a) (Fin 0)
  then
    v1 <- row_get cols r "total_degradants" ;;
    t <- as_float v1 ;;
    v2 <- row_get cols r "api_assay" ;;
    a' <- as_float v2 ;;
    q <- Float.div t (Float.sub (Fin 100) a') ;;
    Ok (VFloat q)
  else Ok VNone.

Definition COMBINED_UNCERTAINTY : Q := 5 # 2.

Section Pipeline.

(** The number parser of [pd.to_numeric]: the float a text spells, NaN
    for a text that spells none ([errors="coerce"]). *)
Variable parse_number : string -> pyfloat.

Definition to_numeric_cell (v : value) : value :=
  match v with
  | VFloat x => VFloat x
  | VNone => VFloat NaN
  | VStr s => VFloat (parse_number s)
  end.

(** [pd.to_numeric(s, errors="coerce")] *)
Definition to_numeric (s : list value) : list value := map to_numeric_cell s.

(** The [for col in numeric_cols] loop.  When two columns carry [col],
    [df[col]] is a frame and [pd.to_numeric] rejects it. *)
Fixpoint coerce_columns (df : DataFrame) (cols : list string)
  : result DataFrame :=
  match cols with
  | [] => Ok df
  | c :: rest =>
      if (1 <? label_count c (columns df))%nat then Raise TypeError
      else
        s <- df_get df c ;;
        coerce_columns (df_set df c (to_numeric s)) rest
  end.

Definition preprocess_input (df_raw : DataFrame)
  : result (DataFrame * list (nat * string)) :=
  let df := normalize_columns df_raw in
  let missing := missing_required df in
  match missing with
  | _ :: _ => Raise (ValueError "Missing required columns: " missing)
  | [] =>
  let degradant_cols := detect_degradant_columns df in
  match degradant_cols with
  | [] => Raise (ValueError "No degradant columns detected" [])
  | _ :: _ =>
  let numeric_cols := "api_assay" :: "time_months" :: degradant_cols in
  df <- coerce_columns df numeric_cols ;;
  let df := reset_index (dropna_all df) in
  s <- df_sum_axis1 df degradant_cols ;;
  let df := df_set df "total_degradants" s in
  s1 <- df_get df "api_assay" ;;
  s2 <- df_get df "total_degradants" ;;
  s <- series_add s1 s2 ;;
  let df := df_set df "AMB" s in
  s1 <- df_get df "AMB" ;;
  s <- series_sub_scalar s1 100 ;;
  let df := df_set df "AMBD" s in
  s <- df_apply_rows df rmb_of_row ;;
  let df := df_set df "RMB" s in
  s1 <- df_get df "RMB" ;;
  s <- series_sub_scalar s1 1 ;;
  let df := df_set df "RMBD" s in
  s1 <- df_get df "AMB" ;;
  s2 <- series_sub_scalar s1 100 ;;
  s <- series_div_scalar s2 COMBINED_UNCERTAINTY ;;
  let df := df_set df "Z_MB" s in
  validate_and_clean df
  end
  end.

End Pipeline.

(* ------------------------------------------------------------------ *)
(** ** calculation_functions.py *)

Definition calculate_amb (api_assay total_degradants : pyfloat) : pyfloat :=
  Float.add api_assay total_degradants.

Definition calculate_ambd (amb : pyfloat) : pyfloat :=
  Float.abs (Float.sub amb (Fin 100)).

Definition calculate_rmb (api_assay total_degradants : pyfloat)
  : result pyfloat :=
  let api_loss := Float.sub (Fin 100) api_assay in
  if Float.le api_loss (Fin 0) then Ok NaN
  else Float.div total_degradants api_loss.


Definition calculate_z_mb (amb uncertainty : pyfloat) : result pyfloat :=
  if Float.eqb uncertainty (Fin 0) then Ok NaN
  else Float.div (Float.sub amb (Fin 100)) uncertainty.

(* ------------------------------------------------------------------ *)
(** ** recommendation_logic.py *)

(** [abs(v)] *)
Definition py_abs (v : value) : result pyfloat :=
  x <- as_float v ;; Ok (Float.abs x).

Definition interpret_z_mb (z_mb : value) : result (string * string) :=
  match z_mb with
  | VNone => Ok ("Invalid Z_MB", "Check uncertainty inputs")
  | _ =>
      m <- py_abs z_mb ;;
      if Float.le m (Fin 2)
      then Ok ("Within analytical variability", "Acceptable")
      else
        z <- as_float z_mb ;;
        if Float.lt z (Fin (-2))
        then Ok ("Statistically significant mass loss", "Investigate imbalance")
        else Ok ("Statistically significant over-recovery",
                 "Check response factors")
  end.

(** [x < c], [x > c] and [lo <= x <= hi] against float constants. *)
Definition py_lt (v : value) (c : Q) : result bool :=
  x <- as_float v ;; Ok (Float.lt x (Fin c)).

Definition py_gt (v : value) (c : Q) : result bool :=
  x <- as_float v ;; Ok (Float.gt x (Fin c)).

Definition py_between (lo : Q) (v : value) (hi : Q) : result bool :=
  x <- as_float v ;; Ok (Float.le (Fin lo) x && Float.le x (Fin hi)).

(** [a and b]: the right operand is evaluated only when the left is true. *)
Definition py_and (a : result bool) (b : result bool) : result bool :=
  x <- a ;; if x then b else Ok false.

(** The zone labels, held as UTF-8 text. *)
Definition ZONE_1 : string := "Zone 1 – Analytical variability".
Definition ZONE_2 : string := "Zone 2 – Missing or undetected degradants".
Definition ZONE_3_PHYSICAL : string := "Zone 3 – Physical loss mechanisms".
Definition ZONE_4 : string := "Zone 4 – Overestimation / RF mismatch".
Definition ZONE_3_DEFAULT : string :=
  "Zone 3 – Method or degradation pathway issue".

Definition diagnostic_zone (amb rmb z_mb : value) : result string :=
  m <- py_abs z_mb ;;
  if Float.le m (Fin 2) then Ok ZONE_1 else
  c2 <- py_and (py_lt amb 98) (py_lt rmb (4 # 5)) ;;
  if c2 then Ok ZONE_2 else
  c3 <- py_and (py_lt amb 98) (py_between (4 # 5) rmb (6 # 5)) ;;
  if c3 then Ok ZONE_3_PHYSICAL else
  c4 <- py_and (py_gt amb 102) (py_gt rmb (6 # 5)) ;;
  if c4 then Ok ZONE_4 else
  Ok ZONE_3_DEFAULT.

Definition recommended_action (zone : string) : string :=
  if Str.contains "Zone 1" zone then "No investigation required"
  else if Str.contains "Zone 2" zone
  then "Search for additional degradants / volatility studies"
  else if Str.contains "Zone 3" zone
  then "Investigate physical loss or degradation pathways"
  else if Str.contains "Zone 4" zone
  then "Review response factors and integration parameters"
  else "Expert review required".

(* ------------------------------------------------------------------ *)
(** ** app.py: the interpretation columns *)

(** [clean_df.apply(lambda r: diagnostic_zone(r["AMB"], r["RMB"], r["Z_MB"]),
    axis=1)], one label per row. *)
Definition zone_of_row (cols : list string) (r : list value) : result string :=
  amb <- row_get cols r "AMB" ;;
  rmb <- row_get cols r "RMB" ;;
  z_mb <- row_get cols r "Z_MB" ;;
  diagnostic_zone amb rmb z_mb.

Definition diagnostic_zones (clean_df : DataFrame) : result (list string) :=
  mapM (fun r => zone_of_row (columns clean_df) (snd r)) (rows clean_df).

(** [clean_df["Diagnostic Zone"].apply(recommended_action)] *)
Definition recommended_actions (zones : list string) : list string :=
  map recommended_action zones.

(** [clean_df["Z_MB"].apply(lambda z: interpret_z_mb(z)[0])] *)
Definition z_mb_interpretations (clean_df : DataFrame) : result (list value) :=
  s <- df_get clean_df "Z_MB" ;;
  mapM (fun z => p <- interpret_z_mb z ;; Ok (VStr (fst p))) s.

(** [recommended_action] applied to one cell of the zone column; the
    membership test needs a string. *)
Definition action_of_cell (v : value) : result value :=
  match v with
  | VStr zone => Ok (VStr (recommended_action zone))
  | VNone | VFloat _ => Raise TypeError
  end.

(** The three assignments of the interpretation block, in source order. *)
Definition interpretation_columns (clean_df : DataFrame) : result DataFrame :=
  s <- z_mb_interpretations clean_df ;;
  let df := df_set clean_df "Z_MB Interpretation" s in
  zones <- diagnostic_zones df ;;
  let df := df_set df "Diagnostic Zone" (map VStr zones) in
  s <- df_get df "Diagnostic Zone" ;;
  actions <- mapM action_of_cell s ;;
  Ok (df_set df "Recommended Action" actions).

Definition RESULT_COLUMNS : list string :=
  ["api_name"; "api_code"; "stress_type"; "time_months"; "api_assay";
   "total_degradants"; "AMB"; "AMBD"; "RMB"; "RMBD"; "Z_MB";
   "Z_MB Interpretation"; "Diagnostic Zone"; "Recommended Action"].

Definition DISPLAY_NAMES : dict :=
  [ ("api_name", "API Name");
    ("api_code", "API Code");
    ("stress_type", "Stress Type");
    ("time_months", "Time (Months)");
    ("api_assay", "API Assay (%)");
    ("total_degradants", "Total Degradants (%)") ].

(** The columns one label selects: every column carrying it. *)
Definition select_label (cols : list string) (c : string)
  : result (list (string * nat)) :=
  match all_pos c cols with
  | [] => Raise (KeyError c)
  | i :: ps => Ok (map (fun j => (c, j)) (i :: ps))
  end.

(** [df[cols]] for a list of labels: the columns carrying these labels, in
    the order of the list.  An absent label raises [KeyError]; pandas names
    every absent label in the message, the embedding carries the first
    one. *)
Definition df_select (df : DataFrame) (cols : list string) : result DataFrame :=
  sel <- mapM (select_label (columns df)) cols ;;
  let picked := List.concat sel in
  Ok (mkDF (map fst picked)
           (map (fun r => (fst r, map (fun p => cell (snd p) (snd r)) picked))
                (rows df))).

(** [result_df = clean_df[[...]].rename(columns={...})] *)
Definition result_table (clean_df : DataFrame) : result DataFrame :=
  df <- df_select clean_df RESULT_COLUMNS ;;
  Ok (rename DISPLAY_NAMES df).

(** The colour of one bar of the Z_MB chart. *)
Definition bar_color (z : value) : result string :=
  m <- py_abs z ;;
  if Float.le m (Fin 2) then Ok "#4CAF50"
  else
    m' <- py_abs z ;;
    if Float.le m' (Fin 3) then Ok "#FFC107" else Ok "#F44336".

(** [(result_df["Z_MB"].abs() <= 2).sum()] *)
Definition count_within (s : list value) : result nat :=
  bs <- mapM (fun v => x <- series_operand v ;;
                       Ok (Float.le (Float.abs x) (Fin 2))) s ;;
  Ok (List.length (filter (fun b : bool => b) bs)).

(** [false_positive_rate]: the count over [len(result_df)], times 100; the
    count is a numpy integer, so a zero length gives NaN. *)
Definition false_positive_rate (result_df : DataFrame) : result pyfloat :=
  s <- df_get result_df "Z_MB" ;;
  k <- count_within s ;;
  match List.length (rows result_df) with
  | O => Ok NaN
  | S n => Ok (Fin ((inject_Z (Z.of_nat k) / inject_Z (Z.of_nat (S n))) * 100)%Q)
  end.

(* ------------------------------------------------------------------ *)
(** ** Vocabulary of the statements *)

(** The labels and the position that [df[c] = ...] writes. *)
Definition set_label (cols : list string) (c : string) : list string :=
  match col_pos c cols with
  | Some _ => cols
  | None => cols ++ [c]
  end.

Definition set_pos (cols : list string) (c : string) : nat :=
  match col_pos c cols with
  | Some i => i
  | None => List.length cols
  end.

Definition upd (cols : list string) (c : string) (v : value) (r : list value)
  : list value :=
  set_cell (set_pos cols c) v r.

(** The zone number a label starts with, read from its leading "Zone N". *)
Definition spec_zone_number (label : string) : option nat :=
  if Str.startswith label "Zone 1" then Some 1%nat
  else if Str.startswith label "Zone 2" then Some 2%nat
  else if Str.startswith label "Zone 3" then Some 3%nat
  else if Str.startswith label "Zone 4" then Some 4%nat
  else None.

(** The action table of the specification: one fixed string per zone
    number. *)
Definition spec_action (n : nat) : string :=
  match n with
  | 1 => "No investigation required"
  | 2 => "Search for additional degradants / volatility studies"
  | 3 => "Investigate physical loss or degradation pathways"
  | 4 => "Review response factors and integration parameters"
  | _ => "Expert review required"
  end%nat.

(** The binding [normalize_columns] records for a label, if any. *)
Definition renamed (col : string) : option string :=
  let clean := Str.lower (Str.strip col) in
  if Str.contains "degradant" clean then Some (Str.replace_space clean)
  else match_alias clean COLUMN_ALIASES.

Definition canonical_name (col : string) : string :=
  match renamed col with
  | Some c => c
  | None => col
  end.

(** The three checks of the row validator. *)
Definition assay_out_of_range (a : pyfloat) : bool :=
  negb (Float.le (Fin 0) a && Float.le a (Fin 100)).

Definition negative_degradants (t : pyfloat) : bool :=
  Float.lt t (Fin 0).

Definition suspicious_mass_loss (a t : pyfloat) : bool :=
  Float.lt (Float.add a t) (Fin 90).

Definition failed_checks (a t : pyfloat) : list string :=
  ((if assay_out_of_range a then ["API assay out of range"] else [])
   ++ (if negative_degradants t then ["Negative degradants"] else [])
   ++ (if suspicious_mass_loss a t then ["Suspicious mass loss"] else []))%list.

(** A row that carries a float in both columns the validator reads. *)
Definition numeric_row (cols : list string) (r : list value) (a t : pyfloat)
  : Prop :=
  row_get cols r "api_assay" = Ok (VFloat a) /\
  row_get cols r "total_degradants" = Ok (VFloat t).

(** The sum of the numbers among a list of cells. *)
Fixpoint total_of (vs : list value) : Q :=
  match vs with
  | [] => 0%Q
  | VFloat (Fin q) :: vs' => (q + total_of vs')%Q
  | _ :: vs' => total_of vs'
  end.

(** The float an arithmetic operand stands for. *)
Definition operand (v : value) : pyfloat :=
  match v with
  | VFloat x => x
  | _ => NaN
  end.

(** What the [RMB] lambda returns on an assay [a] and a total [t]. *)
Definition rmb_formula (a : pyfloat) (t : Q) : value :=
  match a with
  | Fin q =>
      if negb (Qle_bool (100 - q) 0) then VFloat (Fin (t / (100 - q))%Q)
      else VNone
  | NaN => VNone
  end.

Definition quotient (x : pyfloat) (c : Q) : pyfloat :=
  match x with
  | Fin a => Fin (a / c)%Q
  | NaN => NaN
  end.

(** The cells of one row of the table [preprocess_input] returns, for a
    frame with labels [cols] and degradant columns [degr]. *)
Definition row_metrics (cols degr : list string) (r : list value) : Prop :=
  exists (a : pyfloat) (ds : list value) (rmb : value),
    row_get cols r "api_assay" = Ok (VFloat a) /\
    mapM (row_get cols r) degr = Ok ds /\
    Forall (fun v => is_float v = true) ds /\
    row_get cols r "total_degradants" = Ok (VFloat (Fin (total_of ds))) /\
    row_get cols r "AMB" = Ok (VFloat (Float.add a (Fin (total_of ds)))) /\
    row_get cols r "AMBD"
    = Ok (VFloat (Float.sub (Float.add a (Fin (total_of ds))) (Fin 100))) /\
    row_get cols r "RMB" = Ok rmb /\
    (rmb = rmb_formula a (total_of ds)
     \/ rmb = none_to_nan (rmb_formula a (total_of ds))) /\
    row_get cols r "RMBD" = Ok (VFloat (Float.sub (operand rmb) (Fin 1))) /\
    row_get cols r "Z_MB"
    = Ok (VFloat (quotient
                    (Float.sub (Float.add a (Fin (total_of ds))) (Fin 100))
                    COMBINED_UNCERTAINTY)).

(** A cell that series arithmetic accepts. *)
Definition numeric (v : value) : Prop :=
  match v with
  | VStr _ => False
  | _ => True
  end.

(** The cells of a row once the first [k] derived columns are assigned, in
    the order [total_degradants], [AMB], [AMBD], [RMB], [RMBD], [Z_MB]. *)
Definition stage (k : nat) (cols degr : list string) (r : list value) : Prop :=
  exists (a : pyfloat) (ds : list value) (rmb : value),
    row_get cols r "api_assay" = Ok (VFloat a) /\
    mapM (row_get cols r) degr = Ok ds /\
    Forall (fun v => is_float v = true) ds /\
    ((1 <= k)%nat ->
     row_get cols r "total_degradants" = Ok (VFloat (Fin (total_of ds)))) /\
    ((2 <= k)%nat ->
     row_get cols r "AMB" = Ok (VFloat (Float.add a (Fin (total_of ds))))) /\
    ((3 <= k)%nat ->
     row_get cols r "AMBD"
     = Ok (VFloat (Float.sub (Float.add a (Fin (total_of ds))) (Fin 100)))) /\
    ((4 <= k)%nat ->
     row_get cols r "RMB" = Ok rmb /\
     (rmb = rmb_formula a (total_of ds)
      \/ rmb = none_to_nan (rmb_formula a (total_of ds)))) /\
    ((5 <= k)%nat ->
     row_get cols r "RMBD" = Ok (VFloat (Float.sub (operand rmb) (Fin 1)))) /\
    ((6 <= k)%nat ->
     row_get cols r "Z_MB"
     = Ok (VFloat (quotient
                     (Float.sub (Float.add a (Fin (total_of ds))) (Fin 100))
                     COMBINED_UNCERTAINTY))).

(** The columns the pipeline assigns, in assignment order. *)
Definition DERIVED_COLUMNS : list string :=
  ["total_degradants"; "AMB"; "AMBD"; "RMB"; "RMBD"; "Z_MB"].

(** [lower(strip(col))], the form [normalize_columns] looks at. *)
Definition clean (col : string) : string := Str.lower (Str.strip col).

(** A character map applied along a string. *)
Fixpoint smap (f : ascii -> ascii) (s : string) : string :=
  match s with
  | EmptyString => EmptyString
  | String c t => String (f c) (smap f t)
  end.

Definition underscore (c : ascii) : ascii :=
  if Ascii.eqb c " "%char then "_"%char else c.

(** A string without any whitespace. *)
Fixpoint no_space (p : string) : Prop :=
  match p with
  | EmptyString => True
  | String a p' => Str.is_space a = false /\ no_space p'
  end.

(** A string that starts with no whitespace. *)
Definition head_ok (s : string) : Prop :=
  match s with
  | EmptyString => True
  | String c _ => Str.is_space c = false
  end.

(** Pairwise distinct labels, as a test. *)
Fixpoint distinct (l : list string) : bool :=
  match l with
  | [] => true
  | c :: rest => negb (Str.mem c rest) && distinct rest
  end.

(** The labels the coercion loop reads are each carried by one column
    only. *)
Definition numeric_labels_unique (df : DataFrame) : Prop :=
  forall c,
    In c ("api_assay" :: "time_months" :: detect_degradant_columns df) ->
    label_count c (columns df) <= 1.

(* ------------------------------------------------------------------ *)
(** ** Sample tables *)

(** A number parser that recognises no text at all. *)
Definition no_number (s : string) : pyfloat := NaN.

(** The single row api_assay = 105, degradant_A = 3. *)
Definition lone_row_table : DataFrame :=
  mkDF ["Assay"; "Stress"; "Time"; "Degradant_A"]
       [ (0%nat, [VFloat (Fin 105); VStr "heat"; VFloat (Fin 1);
                  VFloat (Fin 3)]) ].

(** Rows with assay 99, 90, 95, 105 and -5, an empty row, a degradant cell
    holding text, and a column named "Unknown Degradant". *)
Definition mixed_table : DataFrame :=
  mkDF [" API Assay "; "Stress"; "Time"; "Degradant A"; "Unknown Degradant";
        "API"]
       [ (0%nat, [VFloat (Fin 99); VStr "heat"; VFloat (Fin 1);
                  VFloat (Fin 1); VFloat (Fin 7); VStr "x"]);
         (1%nat, [VFloat (Fin 90); VStr "heat"; VFloat (Fin 1);
                  VFloat (Fin 2); VFloat (Fin 7); VStr "x"]);
         (2%nat, [VFloat NaN; VFloat NaN; VNone; VFloat NaN; VNone;
                  VFloat NaN]);
         (3%nat, [VFloat (Fin 95); VStr "heat"; VFloat (Fin 1);
                  VFloat (Fin 4); VFloat (Fin 7); VStr "x"]);
         (4%nat, [VFloat (Fin 105); VStr "heat"; VFloat (Fin 1);
                  VFloat (Fin 3); VFloat (Fin 7); VStr "x"]);
         (5%nat, [VFloat (Fin (-5)); VStr "heat"; VFloat (Fin 1);
                  VStr "n/a"; VFloat (Fin 7); VStr "x"]) ].

(** A table without any column that names a degradant. *)
Definition no_degradant_table : DataFrame :=
  mkDF ["assay"; "stress"; "months"]
       [ (0%nat, [VFloat (Fin 99); VStr "heat"; VFloat (Fin 1)]) ].

(** A coerced table ready for validation: one clean row and one row that
    fails the three checks. *)
Definition validation_table : DataFrame :=
  mkDF ["api_assay"; "total_degradants"]
       [ (0%nat, [VFloat (Fin 99); VFloat (Fin 1)]);
         (1%nat, [VFloat (Fin (-5)); VFloat (Fin (-1))]) ].

(** A table whose second row lacks the assay and whose first column is not
    one the pipeline knows. *)
Definition gaps_table : DataFrame :=
  mkDF ["Batch"; "Assay"; "Stress Type"; "Months"; "Degradant 1";
        "degradant_2"]
       [ (0%nat, [VStr "b1"; VFloat (Fin 96); VStr "acid"; VFloat (Fin 3);
                  VFloat (Fin 1); VFloat (Fin 2)]);
         (1%nat, [VStr "b2"; VStr "pending"; VStr "acid"; VFloat (Fin 6);
                  VFloat (Fin (-1)); VNone]) ].

(** A table with the two identification columns of the dashboard. *)
Definition full_table : DataFrame :=
  mkDF ["API Name"; "API Code"; "Assay"; "Stress"; "Time"; "Degradant A"]
       [ (0%nat, [VStr "x"; VStr "c1"; VFloat (Fin 99); VStr "heat";
                  VFloat (Fin 1); VFloat (Fin 1)]);
         (1%nat, [VStr "x"; VStr "c1"; VFloat (Fin 90); VStr "heat";
                  VFloat (Fin 3); VFloat (Fin 2)]) ].

(** Two headers that both resolve to [time_months]. *)
Definition repeated_time_table : DataFrame :=
  mkDF ["Assay"; "Stress"; "Time"; "Months"; "Degradant_A"]
       [ (0%nat, [VFloat (Fin 99); VStr "heat"; VFloat (Fin 1);
                  VFloat (Fin 1); VFloat (Fin 1)]) ].

(** Two headers that both resolve to [api_name]. *)
Definition repeated_api_table : DataFrame :=
  mkDF ["API"; "API Name"; "API Code"; "Assay"; "Stress"; "Time";
        "Degradant A"]
       [ (0%nat, [VStr "x"; VStr "x"; VStr "c1"; VFloat (Fin 99); VStr "heat";
                  VFloat (Fin 1); VFloat (Fin 1)]) ].

(* ================================================================== *)
(** * Properties *)

(* ------------------------------------------------------------------ *)
(** ** The result monad *)

Lemma mapM_pointwise {A B : Type} (f : A -> result B) (g : A -> B) (l : list A) :
  Forall (fun a => f a = Ok (g a)) l -> mapM f l = Ok (map g l).
Proof.
  induction 1 as [|a l Ha _ IH]; simpl.
  - reflexivity.
  - rewrite Ha; simpl. rewrite IH; reflexivity.
Qed.

Lemma mapM_map {A B C : Type} (f : B -> result C) (h : A -> B) (l : list A) :
  mapM f (map h l) = mapM (fun a => f (h a)) l.
Proof.
  induction l as [|a l IH]; simpl; [reflexivity|].
  rewrite IH; reflexivity.
Qed.

Lemma combine_map_same {A B C : Type} (f : A -> B) (g : A -> C) (l : list A) :
  combine (map f l) (map g l) = map (fun a => (f a, g a)) l.
Proof.
  induction l as [|a l IH]; simpl; [reflexivity|].
  rewrite IH; reflexivity.
Qed.

(* ------------------------------------------------------------------ *)
(** ** Labels, positions and cells *)

Lemma mem_true_iff (x : string) (l : list string) :
  Str.mem x l = true <-> In x l.
Proof.
  unfold Str.mem. rewrite existsb_exists. split.
  - intros [y [Hy Heq]]. apply String.eqb_eq in Heq. subst y. exact Hy.
  - intros H. exists x. split; [exact H | apply String.eqb_refl].
Qed.

Lemma col_pos_some_in (c : string) (cols : list string) (i : nat) :
  col_pos c cols = Some i -> nth_error cols i = Some c.
Proof.
  revert i. induction cols as [|c' cols IH]; simpl; intros i H.
  - discriminate H.
  - destruct (String.eqb c c') eqn:E.
    + apply String.eqb_eq in E. injection H as <-. subst c'. reflexivity.
    + destruct (col_pos c cols) as [j|]; simpl in H; [|discriminate H].
      injection H as <-. simpl. apply IH. reflexivity.
Qed.

Lemma col_pos_in (c : string) (cols : list string) :
  In c cols -> exists i, col_pos c cols = Some i.
Proof.
  induction cols as [|c' cols IH]; simpl; intros H.
  - destruct H.
  - destruct (String.eqb c c') eqn:E.
    + exists 0%nat. reflexivity.
    + destruct H as [H|H].
      * subst c'. rewrite String.eqb_refl in E. discriminate E.
      * destruct (IH H) as [i Hi]. rewrite Hi. exists (S i). reflexivity.
Qed.

Lemma col_pos_none_not_in (c : string) (cols : list string) :
  col_pos c cols = None -> ~ In c cols.
Proof.
  intros H Hin. destruct (col_pos_in _ _ Hin) as [i Hi]. congruence.
Qed.

Lemma col_pos_inj (c c' : string) (cols : list string) (i : nat) :
  col_pos c cols = Some i -> col_pos c' cols = Some i -> c = c'.
Proof.
  intros H H'. apply col_pos_some_in in H. apply col_pos_some_in in H'.
  congruence.
Qed.

Lemma col_pos_lt (c : string) (cols : list string) (i : nat) :
  col_pos c cols = Some i -> (i < List.length cols)%nat.
Proof.
  intros H. apply col_pos_some_in in H.
  apply nth_error_Some. congruence.
Qed.

Lemma col_pos_app_old (c c' : string) (cols : list string) (i : nat) :
  col_pos c cols = Some i -> col_pos c (cols ++ [c']) = Some i.
Proof.
  revert i. induction cols as [|d cols IH]; simpl; intros i H.
  - discriminate H.
  - destruct (String.eqb c d); [exact H|].
    destruct (col_pos c cols) as [j|]; simpl in H; [|discriminate H].
    rewrite (IH j eq_refl). exact H.
Qed.

Lemma col_pos_app_new (c : string) (cols : list string) :
  col_pos c cols = None -> col_pos c (cols ++ [c]) = Some (List.length cols).
Proof.
  induction cols as [|d cols IH]; simpl; intros H.
  - rewrite String.eqb_refl. reflexivity.
  - destruct (String.eqb c d); [discriminate H|].
    destruct (col_pos c cols) as [j|]; simpl in H; [discriminate H|].
    rewrite (IH eq_refl). reflexivity.
Qed.

Lemma col_pos_app_none (c c' : string) (cols : list string) :
  c <> c' -> col_pos c cols = None -> col_pos c (cols ++ [c']) = None.
Proof.
  intros Hne. induction cols as [|d cols IH]; simpl; intros H.
  - destruct (String.eqb c c') eqn:E; [|reflexivity].
    apply String.eqb_eq in E. contradiction.
  - destruct (String.eqb c d); [discriminate H|].
    destruct (col_pos c cols) as [j|]; simpl in H; [discriminate H|].
    rewrite (IH eq_refl). reflexivity.
Qed.

Lemma cell_set_cell_same (i : nat) (v : value) (r : list value) :
  cell i (set_cell i v r) = v.
Proof.
  unfold cell. revert r. induction i as [|i IH]; intros [|x r]; simpl; auto.
Qed.

Lemma cell_set_cell_other (i j : nat) (v : value) (r : list value) :
  i <> j -> cell j (set_cell i v r) = cell j r.
Proof.
  unfold cell. revert j r.
  induction i as [|i IH]; intros [|j] [|x r] Hne; simpl; try congruence;
    try reflexivity.
  - destruct j; reflexivity.
  - rewrite IH by congruence. destruct j; reflexivity.
  - apply IH. congruence.
Qed.

Lemma col_pos_set_label_same (cols : list string) (c : string) :
  col_pos c (set_label cols c) = Some (set_pos cols c).
Proof.
  unfold set_label, set_pos. destruct (col_pos c cols) as [i|] eqn:E.
  - exact E.
  - apply col_pos_app_new. exact E.
Qed.

Lemma col_pos_set_label_other (cols : list string) (c c' : string) :
  c' <> c -> col_pos c' (set_label cols c) = col_pos c' cols.
Proof.
  intros Hne. unfold set_label. destruct (col_pos c cols) as [i|] eqn:E.
  - reflexivity.
  - destruct (col_pos c' cols) as [j|] eqn:E'.
    + apply col_pos_app_old. exact E'.
    + apply col_pos_app_none; assumption.
Qed.

Lemma set_pos_fresh (cols : list string) (c c' : string) (j : nat) :
  c' <> c -> col_pos c' cols = Some j -> set_pos cols c <> j.
Proof.
  intros Hne Hj. unfold set_pos. destruct (col_pos c cols) as [i|] eqn:E.
  - intros ->. apply Hne. eapply col_pos_inj; eassumption.
  - apply col_pos_lt in Hj. lia.
Qed.

Lemma row_get_upd_same (cols : list string) (c : string) (v : value)
  (r : list value) :
  row_get (set_label cols c) (upd cols c v r) c = Ok v.
Proof.
  unfold row_get, upd. rewrite col_pos_set_label_same.
  rewrite cell_set_cell_same. reflexivity.
Qed.

Lemma row_get_upd_other (cols : list string) (c c' : string) (v : value)
  (r : list value) :
  c' <> c ->
  row_get (set_label cols c) (upd cols c v r) c' = row_get cols r c'.
Proof.
  intros Hne. unfold row_get. rewrite col_pos_set_label_other by exact Hne.
  destruct (col_pos c' cols) as [j|] eqn:E; [|reflexivity].
  unfold upd. rewrite cell_set_cell_other; [reflexivity|].
  eapply set_pos_fresh; eassumption.
Qed.

Lemma assign_cells_map (i : nat) (g : row -> value) (rs : list row) :
  assign_cells i rs (map g rs)
  = map (fun r => (fst r, set_cell i (g r) (snd r))) rs.
Proof.
  induction rs as [|r rs IH]; simpl; [reflexivity|].
  rewrite IH. reflexivity.
Qed.

Lemma df_set_rowwise (df : DataFrame) (c : string) (g : list value -> value) :
  df_set df c (map (fun r => g (snd r)) (rows df))
  = mkDF (set_label (columns df) c)
         (map (fun r => (fst r, upd (columns df) c (g (snd r)) (snd r)))
              (rows df)).
Proof.
  unfold df_set, set_label, upd, set_pos.
  destruct (col_pos c (columns df)); rewrite assign_cells_map; reflexivity.
Qed.

Lemma df_get_rowwise (df : DataFrame) (c : string) (i : nat) :
  col_pos c (columns df) = Some i ->
  df_get df c = Ok (map (fun r => cell i (snd r)) (rows df)).
Proof.
  intros H. unfold df_get. rewrite H. reflexivity.
Qed.

(* ------------------------------------------------------------------ *)
(** ** Comparisons of floats *)

Lemma float_lt_fin (a b : Q) : Float.lt (Fin a) (Fin b) = true <-> (a < b)%Q.
Proof.
  simpl. rewrite negb_true_iff. split.
  - intros H. apply Qnot_le_lt. intros Hle.
    apply Qle_bool_iff in Hle. congruence.
  - intros H. destruct (Qle_bool b a) eqn:E; [|reflexivity].
    apply Qle_bool_iff in E. exfalso. apply (Qlt_not_le _ _ H). exact E.
Qed.

(* ------------------------------------------------------------------ *)
(** ** recommendation_logic.py *)

Ltac step_result H :=
  match type of H with
  | bind ?c _ = Ok _ =>
      let E := fresh "E" in
      destruct c eqn:E; simpl in H; [|discriminate H]
  | (if ?b then _ else _) = Ok _ =>
      let E := fresh "E" in
      destruct b eqn:E
  end.

(** Every label the classifier returns is one of its five literals. *)
Lemma diagnostic_zone_labels (amb rmb z_mb : value) (label : string) :
  diagnostic_zone amb rmb z_mb = Ok label ->
  In label [ZONE_1; ZONE_2; ZONE_3_PHYSICAL; ZONE_4; ZONE_3_DEFAULT].
Proof.
  unfold diagnostic_zone. intros H.
  step_result H. step_result H.
  { injection H as <-. simpl; auto. }
  step_result H. step_result H.
  { injection H as <-. simpl; auto. }
  step_result H. step_result H.
  { injection H as <-. simpl; auto. }
  step_result H. step_result H.
  { injection H as <-. simpl; auto 6. }
  injection H as <-. simpl; auto 6.
Qed.

(** C2. Whenever |Z_MB| <= 2 the zone classifier answers Zone 1
    ("Analytical variability"), whatever AMB and RMB are: the first rule of
    the decision list is tried before any rule that reads AMB or RMB. *)
Theorem diagnostic_zone_rule1_first (amb rmb : value) (z : Q) :
  (Qabs z <= 2)%Q ->
  diagnostic_zone amb rmb (VFloat (Fin z)) = Ok ZONE_1.
Proof.
  intros Hz. unfold diagnostic_zone. simpl.
  apply Qle_bool_iff in Hz. rewrite Hz. reflexivity.
Qed.

(** C10. For every number z, [interpret_z_mb] returns exactly one of three
    labels: "Within analytical variability" when |z| <= 2,
    "Statistically significant mass loss" when z < -2 and
    "Statistically significant over-recovery" when z > 2. *)
Theorem interpret_z_mb_three_way (z : Q) :
  exists label advice,
    interpret_z_mb (VFloat (Fin z)) = Ok (label, advice) /\
    (label = "Within analytical variability" <-> (Qabs z <= 2)%Q) /\
    (label = "Statistically significant mass loss" <-> (z < -2)%Q) /\
    (label = "Statistically significant over-recovery" <-> (2 < z)%Q).
Proof.
  unfold interpret_z_mb. simpl.
  destruct (Qle_bool (Qabs z) 2) eqn:Habs.
  - apply Qle_bool_iff in Habs.
    pose proof (proj1 (Qabs_Qle_condition z 2) Habs) as [Hlo Hhi].
    do 2 eexists. split; [reflexivity|].
    repeat split; intros H; try discriminate H; try assumption; exfalso; lra.
  - assert (Hn : ~ (Qabs z <= 2)%Q).
    { intros Hle. apply Qle_bool_iff in Hle. congruence. }
    assert (Hout : (z < -2)%Q \/ (2 < z)%Q).
    { destruct (Qlt_le_dec z (-2)) as [Hl|Hl]; [left; exact Hl|].
      destruct (Qlt_le_dec 2 z) as [Hg|Hg]; [right; exact Hg|].
      exfalso. apply Hn. apply Qabs_Qle_condition. split; assumption. }
    destruct (Qle_bool (-2) z) eqn:Hlow; simpl.
    + apply Qle_bool_iff in Hlow.
      do 2 eexists. split; [reflexivity|].
      repeat split; intros H; try discriminate H; try contradiction;
        try (exfalso; lra).
      destruct Hout as [Hl|Hg]; [exfalso; lra | exact Hg].
    + assert (Hl : (z < -2)%Q).
      { apply Qnot_le_lt. intros Hle. apply Qle_bool_iff in Hle. congruence. }
      do 2 eexists. split; [reflexivity|].
      repeat split; intros H; try discriminate H; try contradiction;
        try assumption; exfalso; lra.
Qed.

(** C6. On every label the zone classifier returns, [recommended_action]
    gives the fixed action of the label's zone number N, with N in 1..4, so
    two labels with the same number (the two Zone 3 labels) receive the same
    action, and the fallback "Expert review required" is never produced. *)
Theorem recommended_action_by_zone_number
  (amb rmb z_mb : value) (label : string) :
  diagnostic_zone amb rmb z_mb = Ok label ->
  exists n,
    spec_zone_number label = Some n /\
    (1 <= n <= 4)%nat /\
    recommended_action label = spec_action n /\
    recommended_action label <> "Expert review required" /\
    (n = 3%nat ->
     recommended_action label = recommended_action ZONE_3_PHYSICAL /\
     recommended_action label = recommended_action ZONE_3_DEFAULT).
Proof.
  intros H. apply diagnostic_zone_labels in H. simpl in H.
  destruct H as [<-|[<-|[<-|[<-|[<-|[]]]]]].
  - exists 1%nat. repeat split; try lia; try discriminate.
  - exists 2%nat. repeat split; try lia; try discriminate.
  - exists 3%nat. repeat split; try lia; try discriminate.
  - exists 4%nat. repeat split; try lia; try discriminate.
  - exists 3%nat. repeat split; try lia; try discriminate.
Qed.

(* ------------------------------------------------------------------ *)
(** ** Column normalisation *)

Lemma dict_get_normalize_step (c d : string) (acc : dict) :
  dict_get c (normalize_step acc d)
  = if String.eqb c d
    then match renamed d with
         | Some v => Some v
         | None => dict_get c acc
         end
    else dict_get c acc.
Proof.
  unfold normalize_step, renamed, dict_set.
  destruct (Str.contains "degradant" (Str.lower (Str.strip d)));
    destruct (match_alias (Str.lower (Str.strip d)) COLUMN_ALIASES);
    simpl; destruct (String.eqb c d); reflexivity.
Qed.

Lemma dict_get_normalize_loop (cols : list string) (acc : dict) (c : string) :
  dict_get c (fold_left normalize_step cols acc)
  = if Str.mem c cols
    then match renamed c with
         | Some v => Some v
         | None => dict_get c acc
         end
    else dict_get c acc.
Proof.
  revert acc. induction cols as [|d cols IH]; intros acc; simpl.
  - reflexivity.
  - rewrite IH, dict_get_normalize_step.
    destruct (String.eqb c d) eqn:E; simpl.
    + apply String.eqb_eq in E. subst d.
      destruct (Str.mem c cols); destruct (renamed c); reflexivity.
    + reflexivity.
Qed.

Lemma normalize_columns_labels (df : DataFrame) :
  columns (normalize_columns df) = map canonical_name (columns df).
Proof.
  unfold normalize_columns, rename. simpl.
  apply map_ext_in. intros c Hc.
  rewrite dict_get_normalize_loop.
  apply mem_true_iff in Hc. rewrite Hc.
  unfold canonical_name. destruct (renamed c); reflexivity.
Qed.

(* ------------------------------------------------------------------ *)
(** ** Row validation *)

Lemma row_issues_numeric (cols : list string) (r : list value) (a t : pyfloat) :
  numeric_row cols r a t -> row_issues cols r = Ok (failed_checks a t).
Proof.
  intros [Ha Ht]. unfold row_issues. rewrite Ha, Ht. reflexivity.
Qed.

Lemma failed_checks_nonempty (a t : pyfloat) :
  failed_checks a t <> [] <->
  assay_out_of_range a = true \/ negative_degradants t = true
  \/ suspicious_mass_loss a t = true.
Proof.
  unfold failed_checks.
  destruct (assay_out_of_range a), (negative_degradants t),
    (suspicious_mass_loss a t); simpl; split; intros H;
    try discriminate; auto; try congruence;
    destruct H as [H|[H|H]]; discriminate H.
Qed.

Lemma numeric_row_unique (cols : list string) (r : list value)
  (a t a' t' : pyfloat) :
  numeric_row cols r a t -> numeric_row cols r a' t' -> a = a' /\ t = t'.
Proof.
  intros [H1 H2] [H1' H2']. split; congruence.
Qed.

Lemma collect_issues_numeric (cols : list string) (rs : list row) :
  Forall (fun r => exists a t, numeric_row cols (snd r) a t) rs ->
  exists issues,
    collect_issues cols rs = Ok issues /\
    forall idx text,
      In (idx, text) issues <->
      exists r a t,
        In r rs /\ fst r = idx /\ numeric_row cols (snd r) a t /\
        failed_checks a t <> [] /\
        text = Str.join ", " (failed_checks a t).
Proof.
  induction 1 as [|r rs [a [t Hr]] _ [issues [Hrun Hspec]]]; simpl.
  - exists []. split; [reflexivity|]. intros idx text. split.
    + intros [].
    + intros [r [a [t [[] _]]]].
  - rewrite (row_issues_numeric _ _ _ _ Hr). simpl. rewrite Hrun. simpl.
    destruct (failed_checks a t) as [|m ms] eqn:Hf.
    + exists issues. split; [reflexivity|]. intros idx text.
      rewrite Hspec. split.
      * intros [r' [a' [t' [Hin H']]]]. exists r', a', t'.
        split; [right; exact Hin | exact H'].
      * intros [r' [a' [t' [[<-|Hin] [Hidx [Hnum [Hne Htext]]]]]]].
        -- destruct (numeric_row_unique _ _ _ _ _ _ Hr Hnum) as [<- <-].
           rewrite Hf in Hne. congruence.
        -- exists r', a', t'. auto.
    + exists ((fst r, Str.join ", " (m :: ms)) :: issues).
      split; [reflexivity|]. intros idx text. split.
      * intros [Heq|Hin].
        -- injection Heq as <- <-. exists r, a, t.
           rewrite Hf. repeat split; auto; try apply Hr. discriminate.
        -- apply Hspec in Hin. destruct Hin as [r' [a' [t' [Hin H']]]].
           exists r', a', t'. split; [right; exact Hin | exact H'].
      * intros [r' [a' [t' [[<-|Hin] [Hidx [Hnum [Hne Htext]]]]]]].
        -- destruct (numeric_row_unique _ _ _ _ _ _ Hr Hnum) as [<- <-].
           left. rewrite Hf in Htext. subst. reflexivity.
        -- right. apply Hspec. exists r', a', t'. auto.
Qed.

(** C9. Row validation is advisory: on a frame whose rows carry floats in
    [api_assay] and [total_degradants], [validate_and_clean] returns the
    very frame it was given, together with one issue record per row that
    fails at least one of the three checks (assay outside [0, 100], negative
    degradants, assay plus degradants below 90) and none for the other rows;
    the record's text joins every failed check of that row. *)
Theorem validate_and_clean_advisory (df : DataFrame) :
  (forall r, In r (rows df) ->
             exists a t, numeric_row (columns df) (snd r) a t) ->
  exists issues,
    validate_and_clean df = Ok (df, issues) /\
    forall idx text,
      In (idx, text) issues <->
      exists r a t,
        In r (rows df) /\ fst r = idx /\
        numeric_row (columns df) (snd r) a t /\
        (assay_out_of_range a = true \/ negative_degradants t = true
         \/ suspicious_mass_loss a t = true) /\
        text = Str.join ", " (failed_checks a t).
Proof.
  intros Hnum. apply Forall_forall in Hnum.
  destruct (collect_issues_numeric _ _ Hnum) as [issues [Hrun Hspec]].
  exists issues. unfold validate_and_clean. rewrite Hrun. simpl.
  split; [reflexivity|]. intros idx text. rewrite Hspec.
  split; intros [r [a [t [Hin [Hidx [Hrow [Hfail Htext]]]]]]];
    exists r, a, t; repeat split; auto; try apply Hrow;
    apply failed_checks_nonempty; exact Hfail.
Qed.

(* ------------------------------------------------------------------ *)
(** ** The pipeline, step by step *)

Lemma set_label_in (cols : list string) (c : string) :
  In c cols -> set_label cols c = cols.
Proof.
  intros H. unfold set_label.
  destruct (col_pos_in _ _ H) as [i ->]. reflexivity.
Qed.

Lemma row_get_upd_same_in (cols : list string) (c : string) (v : value)
  (r : list value) :
  In c cols -> row_get cols (upd cols c v r) c = Ok v.
Proof.
  intros H. pose proof (row_get_upd_same cols c v r) as E.
  rewrite (set_label_in _ _ H) in E. exact E.
Qed.

Lemma row_get_upd_other_in (cols : list string) (c c' : string) (v : value)
  (r : list value) :
  In c cols -> c' <> c ->
  row_get cols (upd cols c v r) c' = row_get cols r c'.
Proof.
  intros H Hne. pose proof (row_get_upd_other cols c c' v r Hne) as E.
  rewrite (set_label_in _ _ H) in E. exact E.
Qed.

Lemma df_get_rows (df : DataFrame) (c : string) :
  In c (columns df) ->
  exists g : list value -> value,
    df_get df c = Ok (map (fun r => g (snd r)) (rows df)) /\
    forall r, row_get (columns df) r c = Ok (g r).
Proof.
  intros H. destruct (col_pos_in _ _ H) as [i Hi].
  exists (cell i). split.
  - apply df_get_rowwise. exact Hi.
  - intros r. unfold row_get. rewrite Hi. reflexivity.
Qed.

Section Coercion.

Variable parse_number : string -> pyfloat.

Lemma to_numeric_cell_float (v : value) :
  exists x, to_numeric_cell parse_number v = VFloat x.
Proof. destruct v; simpl; eexists; reflexivity. Qed.

Lemma coerce_columns_floats (cols : list string) :
  forall (df : DataFrame) (done : list string),
    (forall c, In c cols -> In c (columns df)) ->
    (forall c, In c cols -> label_count c (columns df) <= 1) ->
    Forall (fun r => forall c, In c done ->
              exists x, row_get (columns df) (snd r) c = Ok (VFloat x))
           (rows df) ->
    exists df',
      coerce_columns parse_number df cols = Ok df' /\
      columns df' = columns df /\
      Forall (fun r => forall c, In c done \/ In c cols ->
                exists x, row_get (columns df) (snd r) c = Ok (VFloat x))
             (rows df').
Proof.
  induction cols as [|c rest IH]; intros df done Hin Huniq Hdone; simpl.
  - exists df. repeat split; try reflexivity.
    eapply Forall_impl; [|exact Hdone].
    intros r H c' [Hc'|[]]. apply H. exact Hc'.
  - assert (Hc : In c (columns df)) by (apply Hin; left; reflexivity).
    assert (Hone : (1 <? label_count c (columns df))%nat = false).
    { apply Nat.ltb_ge. apply Huniq. left. reflexivity. }
    rewrite Hone.
    destruct (df_get_rows df c Hc) as [g [Hget Hg]].
    rewrite Hget. simpl. unfold to_numeric. rewrite map_map.
    rewrite (df_set_rowwise df c
               (fun r => to_numeric_cell parse_number (g r))).
    rewrite (set_label_in _ _ Hc).
    set (df1 := mkDF (columns df) _).
    destruct (IH df1 (c :: done)) as [df' [Hrun [Hcols Hall]]].
    + intros c' Hc'. simpl. apply Hin. right. exact Hc'.
    + intros c' Hc'. simpl. apply Huniq. right. exact Hc'.
    + subst df1. simpl. apply Forall_map. simpl.
      eapply Forall_impl; [|exact Hdone].
      intros r H c' Hc'.
      destruct (String.eqb c' c) eqn:E.
      * apply String.eqb_eq in E. subst c'.
        destruct (to_numeric_cell_float (g (snd r))) as [x Hx].
        exists x. rewrite <- Hx. apply row_get_upd_same_in. exact Hc.
      * apply String.eqb_neq in E.
        rewrite row_get_upd_other_in by assumption.
        destruct Hc' as [Hc'|Hc']; [congruence|]. apply H. exact Hc'.
    + exists df'. split; [exact Hrun|]. split; [exact Hcols|].
      eapply Forall_impl; [|exact Hall].
      intros r H c' [Hc'|[<-|Hc']]; apply H; simpl; auto.
Qed.

Lemma coerce_columns_repeated (cols : list string) :
  forall df : DataFrame,
    (forall c, In c cols -> In c (columns df)) ->
    (exists c, In c cols /\ 1 < label_count c (columns df)) ->
    coerce_columns parse_number df cols = Raise TypeError.
Proof.
  induction cols as [|c rest IH]; intros df Hin [c0 [Hc0 Hmany]].
  - destruct Hc0.
  - simpl.
    destruct (1 <? label_count c (columns df))%nat eqn:E; [reflexivity|].
    apply Nat.ltb_ge in E.
    assert (Hc : In c (columns df)) by (apply Hin; left; reflexivity).
    destruct (df_get_rows df c Hc) as [g [Hget _]].
    rewrite Hget. simpl. unfold to_numeric. rewrite map_map.
    rewrite (df_set_rowwise df c
               (fun r => to_numeric_cell parse_number (g r))).
    rewrite (set_label_in _ _ Hc).
    apply IH.
    + intros c' Hc'. simpl. apply Hin. right. exact Hc'.
    + exists c0. simpl. split; [|exact Hmany].
      destruct Hc0 as [<-|Hc0]; [lia | exact Hc0].
Qed.

End Coercion.

Lemma reset_dropna_rows (P : list value -> Prop) (df : DataFrame) :
  Forall (fun r => P (snd r)) (rows df) ->
  Forall (fun r => P (snd r)) (rows (reset_index (dropna_all df))).
Proof.
  intros H. rewrite Forall_forall in H. apply Forall_forall.
  intros [k r] Hin. simpl in *.
  apply in_combine_r in Hin. apply in_map_iff in Hin.
  destruct Hin as [r0 [<- Hin]]. apply filter_In in Hin.
  apply H. apply Hin.
Qed.

Lemma sum_skipna_floats (vs : list value) :
  Forall (fun v => is_float v = true) vs ->
  sum_skipna vs = Ok (total_of vs).
Proof.
  induction 1 as [|v vs Hv _ IH]; simpl; [reflexivity|].
  destruct v as [|x|s]; simpl in Hv; try discriminate Hv.
  simpl. rewrite IH. simpl. destruct x; reflexivity.
Qed.

Lemma mapM_label_pos (cols cs : list string) :
  (forall c, In c cs -> In c cols) ->
  exists ps,
    mapM (label_pos cols) cs = Ok ps /\
    forall r, mapM (row_get cols r) cs = Ok (map (fun i => cell i r) ps).
Proof.
  induction cs as [|c cs IH]; intros Hin; simpl.
  - exists []. split; [reflexivity|]. intros r. reflexivity.
  - destruct IH as [ps [Hps Hrows]].
    { intros c' Hc'. apply Hin. right. exact Hc'. }
    destruct (col_pos_in c cols) as [i Hi].
    { apply Hin. left. reflexivity. }
    exists (i :: ps). unfold label_pos at 1. rewrite Hi. simpl.
    rewrite Hps. simpl. split; [reflexivity|].
    intros r. unfold row_get at 1. rewrite Hi. simpl.
    rewrite Hrows. reflexivity.
Qed.

Lemma mapM_ok_in {A B : Type} (f : A -> result B) (l : list A)
  (bs : list B) (a : A) :
  mapM f l = Ok bs -> In a l -> exists b, f a = Ok b /\ In b bs.
Proof.
  revert bs. induction l as [|a' l IH]; simpl; intros bs H Hin.
  - destruct Hin.
  - destruct (f a') as [b|e] eqn:Ea; simpl in H; [|discriminate H].
    destruct (mapM f l) as [bs'|e] eqn:El; simpl in H; [|discriminate H].
    injection H as <-.
    destruct Hin as [<-|Hin].
    + exists b. split; [exact Ea | left; reflexivity].
    + destruct (IH bs' eq_refl Hin) as [b' [Hb' Hin']].
      exists b'. split; [exact Hb' | right; exact Hin'].
Qed.

Lemma mapM_ok_forall {A B : Type} (f : A -> result B) (l : list A)
  (bs : list B) (P : B -> Prop) :
  mapM f l = Ok bs ->
  (forall a b, In a l -> f a = Ok b -> P b) ->
  Forall P bs.
Proof.
  revert bs. induction l as [|a l IH]; simpl; intros bs H Hp.
  - injection H as <-. constructor.
  - destruct (f a) as [b|e] eqn:Ea; simpl in H; [|discriminate H].
    destruct (mapM f l) as [bs'|e] eqn:El; simpl in H; [|discriminate H].
    injection H as <-. constructor.
    + eapply Hp; [left; reflexivity | exact Ea].
    + apply IH; [reflexivity|]. intros a' b' Ha'. apply Hp. right. exact Ha'.
Qed.

Lemma mapM_ext_in {A B : Type} (f g : A -> result B) (l : list A) :
  (forall a, In a l -> f a = g a) -> mapM f l = mapM g l.
Proof.
  induction l as [|a l IH]; simpl; intros H; [reflexivity|].
  rewrite (H a) by (left; reflexivity).
  rewrite IH; [reflexivity|]. intros a' Ha'. apply H. right. exact Ha'.
Qed.

Lemma series_operand_numeric (v : value) :
  numeric v -> series_operand v = Ok (operand v).
Proof. destruct v; simpl; intros H; [reflexivity | reflexivity | destruct H]. Qed.

Lemma series_add_rowwise (rs : list row) (g1 g2 : list value -> value) :
  Forall (fun r => numeric (g1 (snd r)) /\ numeric (g2 (snd r))) rs ->
  series_add (map (fun r => g1 (snd r)) rs) (map (fun r => g2 (snd r)) rs)
  = Ok (map (fun r => VFloat (Float.add (operand (g1 (snd r)))
                                        (operand (g2 (snd r))))) rs).
Proof.
  intros H. unfold series_add. rewrite combine_map_same, mapM_map.
  apply mapM_pointwise. eapply Forall_impl; [|exact H].
  intros r [H1 H2]. simpl.
  rewrite !series_operand_numeric by assumption. reflexivity.
Qed.

Lemma series_sub_scalar_rowwise (rs : list row) (g : list value -> value) (q : Q) :
  Forall (fun r => numeric (g (snd r))) rs ->
  series_sub_scalar (map (fun r => g (snd r)) rs) q
  = Ok (map (fun r => VFloat (Float.sub (operand (g (snd r))) (Fin q))) rs).
Proof.
  intros H. unfold series_sub_scalar. rewrite mapM_map.
  apply mapM_pointwise. eapply Forall_impl; [|exact H].
  intros r Hr. simpl. rewrite series_operand_numeric by assumption.
  reflexivity.
Qed.

Lemma series_div_scalar_rowwise (rs : list row) (g : list value -> value) (q : Q) :
  Forall (fun r => numeric (g (snd r))) rs ->
  series_div_scalar (map (fun r => g (snd r)) rs) q
  = Ok (map (fun r => VFloat (quotient (operand (g (snd r))) q)) rs).
Proof.
  intros H. unfold series_div_scalar. rewrite mapM_map.
  apply mapM_pointwise. eapply Forall_impl; [|exact H].
  intros r Hr. simpl. rewrite series_operand_numeric by assumption.
  reflexivity.
Qed.

Lemma series_of_results_rowwise {A : Type} (f : A -> value) (l : list A) :
  exists conv : value -> value,
    (forall v, conv v = v \/ conv v = none_to_nan v) /\
    series_of_results (map f l) = map (fun a => conv (f a)) l.
Proof.
  unfold series_of_results. destruct (existsb is_float (map f l)).
  - exists none_to_nan. split; [auto|]. rewrite map_map. reflexivity.
  - exists (fun v => v). split; [auto|]. reflexivity.
Qed.

(** The guard of the [RMB] lambda keeps the division away from zero. *)
Lemma rmb_of_row_numeric (cols : list string) (r : list value)
  (a : pyfloat) (t : Q) :
  row_get cols r "api_assay" = Ok (VFloat a) ->
  row_get cols r "total_degradants" = Ok (VFloat (Fin t)) ->
  rmb_of_row cols r = Ok (rmb_formula a t).
Proof.
  intros Ha Ht. unfold rmb_of_row. rewrite Ha. simpl.
  destruct a as [q|]; simpl; [|reflexivity].
  destruct (Qle_bool (100 - q) 0) eqn:E; simpl; [reflexivity|].
  rewrite Ht. simpl.
  destruct (Qeq_bool (100 - q) 0) eqn:E0; [|reflexivity].
  apply Qeq_bool_eq in E0.
  assert (Hle : Qle_bool (100 - q) 0 = true).
  { apply Qle_bool_iff. rewrite E0. apply Qle_refl. }
  congruence.
Qed.

Lemma in_set_label_old (cols : list string) (c c' : string) :
  In c' cols -> In c' (set_label cols c).
Proof.
  intros H. unfold set_label. destruct (col_pos c cols); [exact H|].
  apply in_or_app. left. exact H.
Qed.

Lemma in_set_label_new (cols : list string) (c : string) :
  In c (set_label cols c).
Proof.
  unfold set_label. destruct (col_pos c cols) as [i|] eqn:E.
  - eapply nth_error_In. apply col_pos_some_in. exact E.
  - apply in_or_app. right. left. reflexivity.
Qed.

Lemma missing_required_nil (df : DataFrame) :
  missing_required df = [] ->
  In "api_assay" (columns df) /\ In "stress_type" (columns df)
  /\ In "time_months" (columns df).
Proof.
  unfold missing_required, required. simpl.
  destruct (Str.mem "api_assay" (columns df)) eqn:E1; simpl;
    [|discriminate].
  destruct (Str.mem "stress_type" (columns df)) eqn:E2; simpl;
    [|discriminate].
  destruct (Str.mem "time_months" (columns df)) eqn:E3; simpl;
    [|discriminate].
  intros _. rewrite <- !mem_true_iff. auto.
Qed.

(** Assigning a column that is neither [api_assay] nor a degradant column
    leaves the cells read so far where they are. *)
Lemma mapM_row_get_upd (cols degr : list string) (c : string) (v : value)
  (r : list value) :
  ~ In c degr ->
  mapM (row_get (set_label cols c) (upd cols c v r)) degr
  = mapM (row_get cols r) degr.
Proof.
  intros Hc. apply mapM_ext_in. intros d Hd.
  apply row_get_upd_other. intros ->. contradiction.
Qed.

Lemma frame_step (df : DataFrame) (c : string) (g : list value -> value)
  (I J : list value -> Prop) :
  Forall (fun r => I (snd r)) (rows df) ->
  (forall r, I r -> J (upd (columns df) c (g r) r)) ->
  Forall (fun r => J (snd r))
         (rows (df_set df c (map (fun r => g (snd r)) (rows df)))).
Proof.
  intros HI Hstep. rewrite df_set_rowwise. simpl.
  apply Forall_map. simpl.
  eapply Forall_impl; [|exact HI]. intros r Hr. apply Hstep. exact Hr.
Qed.

Lemma df_set_columns (df : DataFrame) (c : string) (g : list value -> value) :
  columns (df_set df c (map (fun r => g (snd r)) (rows df)))
  = set_label (columns df) c.
Proof. rewrite df_set_rowwise. reflexivity. Qed.

Ltac kept H := rewrite row_get_upd_other by discriminate; apply H; lia.

Section Assignments.

Variable degr : list string.
Hypothesis degr_prefix :
  forall c, In c degr -> Str.startswith c "degradant_" = true.

Lemma fresh_total : ~ In "total_degradants" degr.
Proof. intros H. apply degr_prefix in H. discriminate H. Qed.

Lemma fresh_AMB : ~ In "AMB" degr.
Proof. intros H. apply degr_prefix in H. discriminate H. Qed.

Lemma fresh_AMBD : ~ In "AMBD" degr.
Proof. intros H. apply degr_prefix in H. discriminate H. Qed.

Lemma fresh_RMB : ~ In "RMB" degr.
Proof. intros H. apply degr_prefix in H. discriminate H. Qed.

Lemma fresh_RMBD : ~ In "RMBD" degr.
Proof. intros H. apply degr_prefix in H. discriminate H. Qed.

Lemma fresh_Z_MB : ~ In "Z_MB" degr.
Proof. intros H. apply degr_prefix in H. discriminate H. Qed.

Lemma frame_after (df : DataFrame) (c : string) (g : list value -> value)
  (k : nat) :
  Forall (fun r => stage k (columns df) degr (snd r)) (rows df) ->
  (forall r, stage k (columns df) degr r ->
             stage (S k) (set_label (columns df) c) degr
                   (upd (columns df) c (g r) r)) ->
  let df' := df_set df c (map (fun r => g (snd r)) (rows df)) in
  (forall c', In c' (columns df) -> In c' (columns df')) /\
  In c (columns df') /\
  Forall (fun r => stage (S k) (columns df') degr (snd r)) (rows df').
Proof.
  intros Hk Hstep df'. subst df'. rewrite df_set_columns.
  split; [intros c' Hc'; apply in_set_label_old; exact Hc'|].
  split; [apply in_set_label_new|].
  apply (frame_step df c g (stage k (columns df) degr)); assumption.
Qed.

(** [df["total_degradants"] = df[degradant_cols].sum(axis=1)] *)
Lemma assign_total (df : DataFrame) :
  (forall c, In c degr -> In c (columns df)) ->
  Forall (fun r => stage 0 (columns df) degr (snd r)) (rows df) ->
  exists s,
    df_sum_axis1 df degr = Ok s /\
    let df' := df_set df "total_degradants" s in
    (forall c', In c' (columns df) -> In c' (columns df')) /\
    In "total_degradants" (columns df') /\
    Forall (fun r => stage 1 (columns df') degr (snd r)) (rows df').
Proof.
  intros Hin H0.
  destruct (mapM_label_pos (columns df) degr Hin) as [ps [Hps Hrows]].
  set (g := fun r : list value =>
              VFloat (Fin (total_of (map (fun i => cell i r) ps)))).
  assert (Hsum : forall r, stage 0 (columns df) degr r ->
            sum_skipna (map (fun i => cell i r) ps)
            = Ok (total_of (map (fun i => cell i r) ps))).
  { intros r (a & ds & rmb & _ & Hds & Hfl & _).
    rewrite Hrows in Hds. injection Hds as <-.
    apply sum_skipna_floats. exact Hfl. }
  exists (map (fun r => g (snd r)) (rows df)). split.
  - unfold df_sum_axis1. rewrite Hps. simpl.
    apply (mapM_pointwise _ (fun r => g (snd r))).
    eapply Forall_impl; [|exact H0]. intros r Hr. simpl.
    rewrite (Hsum _ Hr). reflexivity.
  - apply frame_after; [exact H0|].
    intros r Hr. pose proof Hr as (a & ds & rmb & Ha & Hds & Hfl & _).
    exists a, ds, rmb.
    rewrite mapM_row_get_upd by exact fresh_total.
    split; [rewrite row_get_upd_other by discriminate; exact Ha|].
    split; [exact Hds|]. split; [exact Hfl|].
    split.
    { intros _. rewrite row_get_upd_same. unfold g.
      rewrite Hrows in Hds. injection Hds as <-. reflexivity. }
    repeat split; intros; lia.
Qed.

(** [df["AMB"] = df["api_assay"] + df["total_degradants"]] *)
Lemma assign_AMB (df : DataFrame) :
  In "api_assay" (columns df) ->
  In "total_degradants" (columns df) ->
  Forall (fun r => stage 1 (columns df) degr (snd r)) (rows df) ->
  exists s1 s2 s,
    df_get df "api_assay" = Ok s1 /\
    df_get df "total_degradants" = Ok s2 /\
    series_add s1 s2 = Ok s /\
    let df' := df_set df "AMB" s in
    (forall c', In c' (columns df) -> In c' (columns df')) /\
    In "AMB" (columns df') /\
    Forall (fun r => stage 2 (columns df') degr (snd r)) (rows df').
Proof.
  intros Hc1 Hc2 Hk.
  destruct (df_get_rows df _ Hc1) as [g1 [Hs1 Hg1]].
  destruct (df_get_rows df _ Hc2) as [g2 [Hs2 Hg2]].
  set (g := fun r => VFloat (Float.add (operand (g1 r)) (operand (g2 r)))).
  exists (map (fun r => g1 (snd r)) (rows df)),
         (map (fun r => g2 (snd r)) (rows df)),
         (map (fun r => g (snd r)) (rows df)).
  split; [exact Hs1|]. split; [exact Hs2|]. split.
  - apply series_add_rowwise. eapply Forall_impl; [|exact Hk].
    intros r (a & ds & rmb & Ha & _ & _ & Ht & _).
    rewrite Hg1 in Ha. specialize (Ht ltac:(lia)). rewrite Hg2 in Ht.
    injection Ha as ->. injection Ht as ->. simpl. auto.
  - apply frame_after; [exact Hk|].
    intros r (a & ds & rmb & Ha & Hds & Hfl & H1 & H2 & H3 & H4 & H5 & H6).
    exists a, ds, rmb.
    rewrite mapM_row_get_upd by exact fresh_AMB.
    split; [rewrite row_get_upd_other by discriminate; exact Ha|].
    split; [exact Hds|]. split; [exact Hfl|].
    split; [intros _; kept H1|].
    split.
    { intros _. rewrite row_get_upd_same. unfold g.
      rewrite Hg1 in Ha. specialize (H1 ltac:(lia)). rewrite Hg2 in H1.
      injection Ha as ->. injection H1 as ->. reflexivity. }
    repeat split; intros; lia.
Qed.

(** [df["AMBD"] = df["AMB"] - 100] *)
Lemma assign_AMBD (df : DataFrame) :
  In "AMB" (columns df) ->
  Forall (fun r => stage 2 (columns df) degr (snd r)) (rows df) ->
  exists s1 s,
    df_get df "AMB" = Ok s1 /\
    series_sub_scalar s1 100 = Ok s /\
    let df' := df_set df "AMBD" s in
    (forall c', In c' (columns df) -> In c' (columns df')) /\
    In "AMBD" (columns df') /\
    Forall (fun r => stage 3 (columns df') degr (snd r)) (rows df').
Proof.
  intros Hc1 Hk.
  destruct (df_get_rows df _ Hc1) as [g1 [Hs1 Hg1]].
  set (g := fun r => VFloat (Float.sub (operand (g1 r)) (Fin 100))).
  exists (map (fun r => g1 (snd r)) (rows df)),
         (map (fun r => g (snd r)) (rows df)).
  split; [exact Hs1|]. split.
  - apply series_sub_scalar_rowwise. eapply Forall_impl; [|exact Hk].
    intros r (a & ds & rmb & _ & _ & _ & _ & Hamb & _).
    specialize (Hamb ltac:(lia)). rewrite Hg1 in Hamb. injection Hamb as ->. exact I.
  - apply frame_after; [exact Hk|].
    intros r (a & ds & rmb & Ha & Hds & Hfl & H1 & H2 & H3 & H4 & H5 & H6).
    exists a, ds, rmb.
    rewrite mapM_row_get_upd by exact fresh_AMBD.
    split; [rewrite row_get_upd_other by discriminate; exact Ha|].
    split; [exact Hds|]. split; [exact Hfl|].
    split; [intros _; kept H1|].
    split; [intros _; kept H2|].
    split.
    { intros _. rewrite row_get_upd_same. unfold g.
      specialize (H2 ltac:(lia)). rewrite Hg1 in H2. injection H2 as ->. reflexivity. }
    repeat split; intros; lia.
Qed.

(** [df["RMB"] = df.apply(lambda r: ..., axis=1)] *)
Lemma assign_RMB (df : DataFrame) :
  Forall (fun r => stage 3 (columns df) degr (snd r)) (rows df) ->
  exists s,
    df_apply_rows df rmb_of_row = Ok s /\
    let df' := df_set df "RMB" s in
    (forall c', In c' (columns df) -> In c' (columns df')) /\
    In "RMB" (columns df') /\
    Forall (fun r => stage 4 (columns df') degr (snd r)) (rows df').
Proof.
  intros Hk.
  set (h := fun r => match rmb_of_row (columns df) r with
                     | Ok v => v
                     | Raise _ => VNone
                     end).
  assert (Hh : forall r a ds,
             row_get (columns df) r "api_assay" = Ok (VFloat a) ->
             row_get (columns df) r "total_degradants"
             = Ok (VFloat (Fin (total_of ds))) ->
             rmb_of_row (columns df) r = Ok (h r)
             /\ h r = rmb_formula a (total_of ds)).
  { intros r a ds Ha Ht. unfold h.
    rewrite (rmb_of_row_numeric _ _ _ _ Ha Ht). auto. }
  destruct (series_of_results_rowwise (fun r : row => h (snd r)) (rows df))
    as [conv [Hconv Hseries]].
  exists (map (fun r => conv (h (snd r))) (rows df)). split.
  - unfold df_apply_rows.
    rewrite (mapM_pointwise _ (fun r => h (snd r))).
    + cbn [bind]. f_equal. exact Hseries.
    + eapply Forall_impl; [|exact Hk].
      intros r (a & ds & rmb & Ha & _ & _ & Ht & _).
      apply (Hh _ a ds Ha). apply Ht. lia.
  - apply (frame_after df "RMB" (fun r => conv (h r))); [exact Hk|].
    intros r (a & ds & rmb & Ha & Hds & Hfl & H1 & H2 & H3 & H4 & H5 & H6).
    exists a, ds, (conv (h r)).
    rewrite mapM_row_get_upd by exact fresh_RMB.
    split; [rewrite row_get_upd_other by discriminate; exact Ha|].
    split; [exact Hds|]. split; [exact Hfl|].
    split; [intros _; kept H1|].
    split; [intros _; kept H2|].
    split; [intros _; kept H3|].
    split.
    { intros _. split; [apply row_get_upd_same|].
      destruct (Hh r a ds Ha (H1 ltac:(lia))) as [_ ->].
      apply Hconv. }
    repeat split; intros; lia.
Qed.

Lemma rmb_cell_numeric (a : pyfloat) (t : Q) (rmb : value) :
  rmb = rmb_formula a t \/ rmb = none_to_nan (rmb_formula a t) ->
  numeric rmb.
Proof.
  unfold rmb_formula. intros [->| ->]; destruct a as [q|]; simpl;
    try exact I; destruct (negb (Qle_bool (100 - q) 0)); exact I.
Qed.

(** [df["RMBD"] = df["RMB"] - 1] *)
Lemma assign_RMBD (df : DataFrame) :
  In "RMB" (columns df) ->
  Forall (fun r => stage 4 (columns df) degr (snd r)) (rows df) ->
  exists s1 s,
    df_get df "RMB" = Ok s1 /\
    series_sub_scalar s1 1 = Ok s /\
    let df' := df_set df "RMBD" s in
    (forall c', In c' (columns df) -> In c' (columns df')) /\
    In "RMBD" (columns df') /\
    Forall (fun r => stage 5 (columns df') degr (snd r)) (rows df').
Proof.
  intros Hc1 Hk.
  destruct (df_get_rows df _ Hc1) as [g1 [Hs1 Hg1]].
  set (g := fun r => VFloat (Float.sub (operand (g1 r)) (Fin 1))).
  exists (map (fun r => g1 (snd r)) (rows df)),
         (map (fun r => g (snd r)) (rows df)).
  split; [exact Hs1|]. split.
  - apply series_sub_scalar_rowwise. eapply Forall_impl; [|exact Hk].
    intros r (a & ds & rmb & _ & _ & _ & _ & _ & _ & Hrmb & _).
    destruct Hrmb as [Hget Hval]; [lia|].
    rewrite Hg1 in Hget. injection Hget as ->.
    eapply rmb_cell_numeric. exact Hval.
  - apply frame_after; [exact Hk|].
    intros r (a & ds & rmb & Ha & Hds & Hfl & H1 & H2 & H3 & H4 & H5 & H6).
    exists a, ds, rmb.
    rewrite mapM_row_get_upd by exact fresh_RMBD.
    split; [rewrite row_get_upd_other by discriminate; exact Ha|].
    split; [exact Hds|]. split; [exact Hfl|].
    split; [intros _; kept H1|].
    split; [intros _; kept H2|].
    split; [intros _; kept H3|].
    split.
    { intros _. destruct H4 as [Hget Hval]; [lia|].
      split; [|exact Hval].
      rewrite row_get_upd_other by discriminate. exact Hget. }
    split.
    { intros _. rewrite row_get_upd_same. unfold g.
      destruct H4 as [Hget _]; [lia|].
      rewrite Hg1 in Hget. injection Hget as ->. reflexivity. }
    intros; lia.
Qed.

(** [df["Z_MB"] = (df["AMB"] - 100) / COMBINED_UNCERTAINTY] *)
Lemma assign_Z_MB (df : DataFrame) :
  In "AMB" (columns df) ->
  Forall (fun r => stage 5 (columns df) degr (snd r)) (rows df) ->
  exists s1 s2 s,
    df_get df "AMB" = Ok s1 /\
    series_sub_scalar s1 100 = Ok s2 /\
    series_div_scalar s2 COMBINED_UNCERTAINTY = Ok s /\
    let df' := df_set df "Z_MB" s in
    (forall c', In c' (columns df) -> In c' (columns df')) /\
    In "Z_MB" (columns df') /\
    Forall (fun r => stage 6 (columns df') degr (snd r)) (rows df').
Proof.
  intros Hc1 Hk.
  destruct (df_get_rows df _ Hc1) as [g1 [Hs1 Hg1]].
  set (g2 := fun r => VFloat (Float.sub (operand (g1 r)) (Fin 100))).
  set (g := fun r => VFloat (quotient (operand (g2 r)) COMBINED_UNCERTAINTY)).
  exists (map (fun r => g1 (snd r)) (rows df)),
         (map (fun r => g2 (snd r)) (rows df)),
         (map (fun r => g (snd r)) (rows df)).
  split; [exact Hs1|]. split; [|split].
  - apply series_sub_scalar_rowwise. eapply Forall_impl; [|exact Hk].
    intros r (a & ds & rmb & _ & _ & _ & _ & Hamb & _).
    specialize (Hamb ltac:(lia)). rewrite Hg1 in Hamb. injection Hamb as ->. exact I.
  - apply series_div_scalar_rowwise. apply Forall_forall.
    intros r _. exact I.
  - apply frame_after; [exact Hk|].
    intros r (a & ds & rmb & Ha & Hds & Hfl & H1 & H2 & H3 & H4 & H5 & H6).
    exists a, ds, rmb.
    rewrite mapM_row_get_upd by exact fresh_Z_MB.
    split; [rewrite row_get_upd_other by discriminate; exact Ha|].
    split; [exact Hds|]. split; [exact Hfl|].
    split; [intros _; kept H1|].
    split; [intros _; kept H2|].
    split; [intros _; kept H3|].
    split.
    { intros _. destruct H4 as [Hget Hval]; [lia|].
      split; [|exact Hval].
      rewrite row_get_upd_other by discriminate. exact Hget. }
    split; [intros _; kept H5|].
    intros _. rewrite row_get_upd_same. unfold g, g2.
    specialize (H2 ltac:(lia)). rewrite Hg1 in H2. injection H2 as ->. reflexivity.
Qed.

End Assignments.

Lemma detect_degradant_in (df : DataFrame) (c : string) :
  In c (detect_degradant_columns df) ->
  In c (columns df) /\ Str.startswith c "degradant_" = true.
Proof.
  unfold detect_degradant_columns. intros H.
  apply filter_In in H. exact H.
Qed.

Lemma stage_row_metrics (cols degr : list string) (r : list value) :
  stage 6 cols degr r -> row_metrics cols degr r.
Proof.
  intros (a & ds & rmb & Ha & Hds & Hfl & H1 & H2 & H3 & H4 & H5 & H6).
  destruct H4 as [Hget Hval]; [lia|].
  exists a, ds, rmb.
  repeat split; try assumption;
    first [apply H1 | apply H2 | apply H3 | apply H5 | apply H6]; lia.
Qed.

Lemma match_nonempty {A B : Type} (l : list A) (x y : B) :
  l <> [] ->
  match l with
  | [] => x
  | _ :: _ => y
  end = y.
Proof. destruct l; [congruence | reflexivity]. Qed.

Lemma label_count_absent (c : string) (cols : list string) :
  ~ In c cols -> label_count c cols = 0.
Proof.
  unfold label_count. induction cols as [|c' cols IH]; intros H; simpl.
  - reflexivity.
  - destruct (String.eqb c c') eqn:E.
    + apply String.eqb_eq in E. exfalso. apply H. left. symmetry. exact E.
    + apply IH. intros Hin. apply H. right. exact Hin.
Qed.

Lemma label_count_NoDup (c : string) (cols : list string) :
  NoDup cols -> label_count c cols <= 1.
Proof.
  induction 1 as [|c' cols Hnin _ IH].
  - unfold label_count. simpl. lia.
  - unfold label_count in *. simpl.
    destruct (String.eqb c c') eqn:E; [|exact IH].
    apply String.eqb_eq in E. subst c'. simpl.
    pose proof (label_count_absent c cols Hnin) as H0.
    unfold label_count in H0. rewrite H0. lia.
Qed.

Lemma NoDup_numeric_labels_unique (df : DataFrame) :
  NoDup (columns df) -> numeric_labels_unique df.
Proof. intros H c _. apply label_count_NoDup. exact H. Qed.

Lemma distinct_NoDup (l : list string) : distinct l = true -> NoDup l.
Proof.
  induction l as [|c l IH]; simpl; intros H; [constructor|].
  apply andb_true_iff in H. destruct H as [Hc Hl].
  constructor; [|apply IH; exact Hl].
  intros Hin. apply mem_true_iff in Hin.
  rewrite Hin in Hc. discriminate Hc.
Qed.

Lemma counts_unique_or_repeated (f : string -> nat) (l : list string) :
  (forall c, In c l -> f c <= 1) \/ (exists c, In c l /\ 1 < f c).
Proof.
  induction l as [|a l [IH|[c [Hc Hm]]]].
  - left. intros c [].
  - destruct (le_lt_dec (f a) 1) as [Ha|Ha].
    + left. intros c [<-|Hc]; [exact Ha | apply IH; exact Hc].
    + right. exists a. split; [left; reflexivity | exact Ha].
  - right. exists c. split; [right; exact Hc | exact Hm].
Qed.

Lemma numeric_labels_unique_or_repeated (df : DataFrame) :
  numeric_labels_unique df \/
  (exists c,
      In c ("api_assay" :: "time_months" :: detect_degradant_columns df) /\
      1 < label_count c (columns df)).
Proof. apply counts_unique_or_repeated. Qed.

(** When the schema resolves and two columns carry the label of a numeric
    column, the coercion loop raises [TypeError]. *)
Lemma preprocess_input_repeated_label (parse_number : string -> pyfloat)
  (df_raw : DataFrame) :
  missing_required (normalize_columns df_raw) = [] ->
  detect_degradant_columns (normalize_columns df_raw) <> [] ->
  ~ numeric_labels_unique (normalize_columns df_raw) ->
  preprocess_input parse_number df_raw = Raise TypeError.
Proof.
  intros Hmiss Hdeg Hrep.
  destruct (numeric_labels_unique_or_repeated (normalize_columns df_raw))
    as [Hu|Hex]; [contradiction|].
  unfold preprocess_input. cbv zeta.
  rewrite Hmiss. rewrite (match_nonempty _ _ _ Hdeg).
  destruct (missing_required_nil _ Hmiss) as [Hassay [_ Htime]].
  rewrite (coerce_columns_repeated parse_number _ _); [reflexivity| |exact Hex].
  intros c [<-|[<-|Hc]]; auto.
  apply detect_degradant_in in Hc. apply Hc.
Qed.

(** The pipeline returns a table whenever the schema resolves and no label
    of a numeric column is repeated, and every row of that table carries the
    derived metrics. *)
Lemma preprocess_input_returns (parse_number : string -> pyfloat)
  (df_raw : DataFrame) :
  missing_required (normalize_columns df_raw) = [] ->
  detect_degradant_columns (normalize_columns df_raw) <> [] ->
  numeric_labels_unique (normalize_columns df_raw) ->
  exists out issues,
    preprocess_input parse_number df_raw = Ok (out, issues) /\
    Forall (fun r =>
              row_metrics (columns out)
                (detect_degradant_columns (normalize_columns df_raw)) (snd r))
           (rows out).
Proof.
  intros Hmiss Hdeg Huniq.
  unfold preprocess_input. cbv zeta.
  remember (normalize_columns df_raw) as df0 eqn:Edf0.
  remember (detect_degradant_columns df0) as degr eqn:Edegr.
  rewrite Hmiss. rewrite (match_nonempty _ _ _ Hdeg).
  assert (Hpre : forall c, In c degr -> Str.startswith c "degradant_" = true).
  { intros c Hc. subst degr. apply detect_degradant_in in Hc. apply Hc. }
  assert (Hsub : forall c, In c degr -> In c (columns df0)).
  { intros c Hc. subst degr. apply detect_degradant_in in Hc. apply Hc. }
  destruct (missing_required_nil df0 Hmiss) as [Hassay [_ Htime]].
  destruct (coerce_columns_floats parse_number
              ("api_assay" :: "time_months" :: degr) df0 [])
    as [df1 [Hrun1 [Hcols1 Hall1]]].
  { intros c [<-|[<-|Hc]]; auto. }
  { subst degr. exact Huniq. }
  { apply Forall_forall. intros r _ c []. }
  rewrite Hrun1. cbn [bind].
  remember (reset_index (dropna_all df1)) as df2 eqn:Edf2.
  assert (Hcols2 : columns df2 = columns df0).
  { subst df2. exact Hcols1. }
  assert (H0 : Forall (fun r => stage 0 (columns df2) degr (snd r)) (rows df2)).
  { rewrite Hcols2. subst df2.
    apply (reset_dropna_rows (fun r => stage 0 (columns df0) degr r)).
    eapply Forall_impl; [|exact Hall1]. intros r H.
    destruct (H "api_assay") as [a Ha]; [right; left; reflexivity|].
    destruct (mapM_label_pos (columns df0) degr Hsub) as [ps [_ Hrows]].
    exists a, (map (fun i => cell i (snd r)) ps), VNone.
    split; [exact Ha|]. split; [apply Hrows|]. split.
    - eapply mapM_ok_forall; [apply Hrows|].
      intros c v Hc Hv.
      destruct (H c) as [x Hx]; [right; right; right; exact Hc|].
      rewrite Hx in Hv. injection Hv as <-. reflexivity.
    - repeat split; intros; lia. }
  destruct (assign_total degr Hpre df2) as [st [Et Ht]]; [|exact H0|].
  { intros c Hc. rewrite Hcols2. apply Hsub. exact Hc. }
  cbv zeta in Ht. rewrite Et. cbn [bind].
  remember (df_set df2 "total_degradants" st) as df3 eqn:Edf3.
  destruct Ht as (Hold3 & Hnew3 & Hk3).
  assert (Hassay3 : In "api_assay" (columns df3)).
  { apply Hold3. rewrite Hcols2. exact Hassay. }
  destruct (assign_AMB degr Hpre df3 Hassay3 Hnew3 Hk3)
    as (s1 & s2 & s & E1 & E2 & E & Ha).
  cbv zeta in Ha. rewrite E1. cbn [bind]. rewrite E2. cbn [bind].
  rewrite E. cbn [bind]. clear E1 E2 E s1 s2.
  remember (df_set df3 "AMB" s) as df4 eqn:Edf4.
  destruct Ha as (Hold4 & Hnew4 & Hk4).
  destruct (assign_AMBD degr Hpre df4 Hnew4 Hk4)
    as (s1 & s' & E1 & E & Ha).
  cbv zeta in Ha. rewrite E1. cbn [bind]. rewrite E. cbn [bind].
  clear E1 E s1.
  remember (df_set df4 "AMBD" s') as df5 eqn:Edf5.
  destruct Ha as (Hold5 & Hnew5 & Hk5).
  destruct (assign_RMB degr Hpre df5 Hk5) as (sr & E & Ha).
  cbv zeta in Ha. rewrite E. cbn [bind]. clear E.
  remember (df_set df5 "RMB" sr) as df6 eqn:Edf6.
  destruct Ha as (Hold6 & Hnew6 & Hk6).
  destruct (assign_RMBD degr Hpre df6 Hnew6 Hk6)
    as (s1 & sd & E1 & E & Ha).
  cbv zeta in Ha. rewrite E1. cbn [bind]. rewrite E. cbn [bind].
  clear E1 E s1.
  remember (df_set df6 "RMBD" sd) as df7 eqn:Edf7.
  destruct Ha as (Hold7 & Hnew7 & Hk7).
  assert (Hamb7 : In "AMB" (columns df7)).
  { apply Hold7, Hold6, Hold5. exact Hnew4. }
  destruct (assign_Z_MB degr Hpre df7 Hamb7 Hk7)
    as (s1 & s2 & sz & E1 & E2 & E & Ha).
  cbv zeta in Ha. rewrite E1. cbn [bind]. rewrite E2. cbn [bind].
  rewrite E. cbn [bind]. clear E1 E2 E s1 s2.
  remember (df_set df7 "Z_MB" sz) as df8 eqn:Edf8.
  destruct Ha as (Hold8 & Hnew8 & Hk8).
  destruct (collect_issues_numeric (columns df8) (rows df8))
    as [issues [Hrun _]].
  { eapply Forall_impl; [|exact Hk8].
    intros r (a & ds & rmb & Ha & _ & _ & H1 & _).
    exists a, (Fin (total_of ds)). split; [exact Ha|]. apply H1. lia. }
  exists df8, issues. split.
  - unfold validate_and_clean. rewrite Hrun. reflexivity.
  - eapply Forall_impl; [|exact Hk8].
    intros r Hr. apply stage_row_metrics. exact Hr.
Qed.

(** Headers "Time" and "Months" both become [time_months]: the schema
    resolves and the coercion loop raises. *)
Lemma repeated_time_label_raises :
  columns (normalize_columns repeated_time_table)
  = ["api_assay"; "stress_type"; "time_months"; "time_months"; "degradant_a"]
  /\ missing_required (normalize_columns repeated_time_table) = []
  /\ detect_degradant_columns (normalize_columns repeated_time_table)
     = ["degradant_a"]
  /\ preprocess_input no_number repeated_time_table = Raise TypeError.
Proof. repeat split; vm_compute; reflexivity. Qed.

Lemma preprocess_input_ok_inv (parse_number : string -> pyfloat)
  (df_raw out : DataFrame) (issues : list (nat * string)) :
  preprocess_input parse_number df_raw = Ok (out, issues) ->
  missing_required (normalize_columns df_raw) = [] /\
  detect_degradant_columns (normalize_columns df_raw) <> [] /\
  Forall (fun r =>
            row_metrics (columns out)
              (detect_degradant_columns (normalize_columns df_raw)) (snd r))
         (rows out).
Proof.
  intros H.
  destruct (missing_required (normalize_columns df_raw)) as [|m ms] eqn:Hm.
  2: { unfold preprocess_input in H. cbv zeta in H. rewrite Hm in H.
       discriminate H. }
  destruct (detect_degradant_columns (normalize_columns df_raw))
    as [|d ds] eqn:Hd.
  { unfold preprocess_input in H. cbv zeta in H. rewrite Hm, Hd in H.
    discriminate H. }
  assert (Hne : detect_degradant_columns (normalize_columns df_raw) <> []).
  { rewrite Hd. discriminate. }
  assert (Hu : numeric_labels_unique (normalize_columns df_raw)).
  { destruct (numeric_labels_unique_or_repeated (normalize_columns df_raw))
      as [Hu|Hex]; [exact Hu|].
    exfalso.
    rewrite (preprocess_input_repeated_label parse_number df_raw Hm Hne) in H.
    - discriminate H.
    - intros Hu. destruct Hex as [c [Hc Hmany]].
      specialize (Hu c Hc). lia. }
  destruct (preprocess_input_returns parse_number df_raw Hm Hne Hu)
    as [out' [issues' [E HF]]].
  rewrite E in H. injection H as <- <-.
  split; [reflexivity|]. split; [discriminate|].
  rewrite <- Hd. exact HF.
Qed.

Lemma total_of_all_na (ds : list value) :
  Forall (fun v => isna v = true) ds -> total_of ds = 0%Q.
Proof.
  induction 1 as [|v ds Hv _ IH]; simpl; [reflexivity|].
  destruct v as [|[q|]|s]; simpl in Hv; try discriminate Hv; exact IH.
Qed.

Lemma missing_required_spec (df : DataFrame) (c : string) :
  In c (missing_required df) <-> In c required /\ ~ In c (columns df).
Proof.
  unfold missing_required. rewrite filter_In, negb_true_iff.
  split; intros [Hc Hm]; split; try exact Hc.
  - intros Hin. apply mem_true_iff in Hin. congruence.
  - destruct (Str.mem c (columns df)) eqn:E; [|reflexivity].
    apply mem_true_iff in E. contradiction.
Qed.

(** C1 (amended). A column whose trimmed, lowercased name contains
    "degradant" is renamed, in place, to its trimmed, lowercased,
    space-to-underscore form, whatever the alias table holds; it is one of
    the detected degradant columns exactly when that form starts with
    "degradant_"; and in every row of every table [preprocess_input] returns,
    [total_degradants] is the sum, missing cells skipped, of the cells of the
    detected columns, the cell of this column being one of the summed cells
    when it is detected. *)
Theorem degradant_column_renamed_and_detected
  (df : DataFrame) (i : nat) (col : string) :
  nth_error (columns df) i = Some col ->
  Str.contains "degradant" (Str.lower (Str.strip col)) = true ->
  let new := Str.replace_space (Str.lower (Str.strip col)) in
  nth_error (columns (normalize_columns df)) i = Some new /\
  (In new (detect_degradant_columns (normalize_columns df))
   <-> Str.startswith new "degradant_" = true) /\
  (forall (parse_number : string -> pyfloat) (out : DataFrame)
          (issues : list (nat * string)),
      preprocess_input parse_number df = Ok (out, issues) ->
      forall r,
        In r (rows out) ->
        exists ds,
          mapM (row_get (columns out) (snd r))
               (detect_degradant_columns (normalize_columns df)) = Ok ds /\
          row_get (columns out) (snd r) "total_degradants"
          = Ok (VFloat (Fin (total_of ds))) /\
          (Str.startswith new "degradant_" = true ->
           exists v,
             row_get (columns out) (snd r) new = Ok v /\ In v ds)).
Proof.
  intros Hcol Hsub new.
  assert (Hnew : nth_error (columns (normalize_columns df)) i = Some new).
  { rewrite normalize_columns_labels.
    rewrite (map_nth_error canonical_name i (columns df) Hcol).
    unfold canonical_name, renamed. rewrite Hsub. reflexivity. }
  assert (Hdet : In new (detect_degradant_columns (normalize_columns df))
                 <-> Str.startswith new "degradant_" = true).
  { unfold detect_degradant_columns. rewrite filter_In. split.
    - intros [_ H]. exact H.
    - intros H. split; [|exact H]. eapply nth_error_In. exact Hnew. }
  split; [exact Hnew|]. split; [exact Hdet|].
  intros parse_number out issues Hrun r Hr.
  apply preprocess_input_ok_inv in Hrun. destruct Hrun as (_ & _ & HF).
  rewrite Forall_forall in HF.
  destruct (HF r Hr) as (a & ds & rmb & _ & Hds & _ & Ht & _).
  exists ds. split; [exact Hds|]. split; [exact Ht|].
  intros Hpre. apply Hdet in Hpre.
  apply (mapM_ok_in _ _ _ _ Hds Hpre).
Qed.

(** C7. [preprocess_input] raises one of its two descriptive errors, and
    returns no table, exactly when the schema does not resolve: when some of
    [api_assay], [stress_type], [time_months] is absent after normalisation
    it raises the "Missing required columns" error carrying exactly the
    absent names; when they are all present but no degradant column is
    detected it raises "No degradant columns detected"; on no other frame is
    either of the two raised.  On a frame whose normalised labels are
    pairwise distinct nothing else is raised either: the pipeline raises
    exactly in the two schema cases and returns a table in every other
    case. *)
Theorem preprocess_input_schema_failure (parse_number : string -> pyfloat)
  (df_raw : DataFrame) :
  (missing_required (normalize_columns df_raw) <> [] ->
   preprocess_input parse_number df_raw
   = Raise (ValueError "Missing required columns: "
                       (missing_required (normalize_columns df_raw)))) /\
  (forall c, In c (missing_required (normalize_columns df_raw)) <->
             In c required /\ ~ In c (columns (normalize_columns df_raw))) /\
  (missing_required (normalize_columns df_raw) = [] ->
   detect_degradant_columns (normalize_columns df_raw) = [] ->
   preprocess_input parse_number df_raw
   = Raise (ValueError "No degradant columns detected" [])) /\
  (((exists names,
        preprocess_input parse_number df_raw
        = Raise (ValueError "Missing required columns: " names))
    \/ preprocess_input parse_number df_raw
       = Raise (ValueError "No degradant columns detected" [])) <->
   missing_required (normalize_columns df_raw) <> []
   \/ detect_degradant_columns (normalize_columns df_raw) = []) /\
  (NoDup (columns (normalize_columns df_raw)) ->
   ((exists e, preprocess_input parse_number df_raw = Raise e) <->
    missing_required (normalize_columns df_raw) <> []
    \/ detect_degradant_columns (normalize_columns df_raw) = [])).
Proof.
  assert (H1 : missing_required (normalize_columns df_raw) <> [] ->
               preprocess_input parse_number df_raw
               = Raise (ValueError "Missing required columns: "
                          (missing_required (normalize_columns df_raw)))).
  { intros Hne. unfold preprocess_input. cbv zeta.
    destruct (missing_required (normalize_columns df_raw));
      [congruence | reflexivity]. }
  assert (H2 : missing_required (normalize_columns df_raw) = [] ->
               detect_degradant_columns (normalize_columns df_raw) = [] ->
               preprocess_input parse_number df_raw
               = Raise (ValueError "No degradant columns detected" [])).
  { intros Hm Hd. unfold preprocess_input. cbv zeta.
    rewrite Hm, Hd. reflexivity. }
  assert (H3 : missing_required (normalize_columns df_raw) <> []
               \/ detect_degradant_columns (normalize_columns df_raw) = [] ->
               (exists names,
                   preprocess_input parse_number df_raw
                   = Raise (ValueError "Missing required columns: " names))
               \/ preprocess_input parse_number df_raw
                  = Raise (ValueError "No degradant columns detected" [])).
  { intros [Hne|Hd].
    - left. eexists. apply H1. exact Hne.
    - destruct (missing_required (normalize_columns df_raw)) as [|m ms] eqn:Hm.
      + right. apply H2; [reflexivity | exact Hd].
      + left. eexists. apply H1. discriminate. }
  split; [exact H1|]. split; [apply missing_required_spec|].
  split; [exact H2|]. split; [split; [|exact H3]|].
  - intros Hraise.
    destruct (missing_required (normalize_columns df_raw)) as [|m ms] eqn:Hm;
      [|left; discriminate].
    destruct (detect_degradant_columns (normalize_columns df_raw))
      as [|d ds] eqn:Hd; [right; reflexivity|].
    exfalso.
    assert (Hne : detect_degradant_columns (normalize_columns df_raw) <> []).
    { rewrite Hd. discriminate. }
    destruct (numeric_labels_unique_or_repeated (normalize_columns df_raw))
      as [Hu|[c [Hc Hmany]]].
    + destruct (preprocess_input_returns parse_number df_raw Hm Hne Hu)
        as [out [issues [E _]]].
      rewrite E in Hraise.
      destruct Hraise as [[names Hr]|Hr]; discriminate Hr.
    + rewrite (preprocess_input_repeated_label parse_number df_raw Hm Hne)
        in Hraise.
      * destruct Hraise as [[names Hr]|Hr]; discriminate Hr.
      * intros Hu. specialize (Hu c Hc). lia.
  - intros Hdistinct. split.
    + intros [e He].
      destruct (missing_required (normalize_columns df_raw)) as [|m ms] eqn:Hm;
        [|left; discriminate].
      destruct (detect_degradant_columns (normalize_columns df_raw))
        as [|d ds] eqn:Hd; [right; reflexivity|].
      exfalso.
      destruct (preprocess_input_returns parse_number df_raw Hm)
        as [out [issues [E _]]].
      * rewrite Hd. discriminate.
      * apply NoDup_numeric_labels_unique. exact Hdistinct.
      * congruence.
    + intros Hcase. destruct (H3 Hcase) as [[names Hr]|Hr];
        eexists; eassumption.
Qed.

(** C8. Whenever the schema resolves, on a frame whose normalised labels are
    pairwise distinct, the pipeline returns a table, whatever the cells hold,
    and in every row of that table whose degradant cells are all missing
    after coercion [total_degradants] is the number 0. *)
Theorem total_degradants_all_missing (parse_number : string -> pyfloat)
  (df_raw : DataFrame) :
  NoDup (columns (normalize_columns df_raw)) ->
  missing_required (normalize_columns df_raw) = [] ->
  detect_degradant_columns (normalize_columns df_raw) <> [] ->
  exists out issues,
    preprocess_input parse_number df_raw = Ok (out, issues) /\
    forall r,
      In r (rows out) ->
      (forall c,
          In c (detect_degradant_columns (normalize_columns df_raw)) ->
          exists v, row_get (columns out) (snd r) c = Ok v /\ isna v = true) ->
      row_get (columns out) (snd r) "total_degradants" = Ok (VFloat (Fin 0)).
Proof.
  intros Hdistinct Hm Hd.
  destruct (preprocess_input_returns parse_number df_raw Hm Hd
              (NoDup_numeric_labels_unique _ Hdistinct))
    as [out [issues [E HF]]].
  exists out, issues. split; [exact E|].
  intros r Hr Hna. rewrite Forall_forall in HF.
  destruct (HF r Hr) as (a & ds & rmb & _ & Hds & _ & Ht & _).
  rewrite Ht. rewrite total_of_all_na; [reflexivity|].
  eapply mapM_ok_forall; [exact Hds|].
  intros c v Hc Hv. destruct (Hna c Hc) as [v' [Hv' Hisna]].
  congruence.
Qed.

(** A cell holding text that spells no number is missing after coercion. *)
Lemma to_numeric_cell_unparseable (parse_number : string -> pyfloat)
  (s : string) :
  parse_number s = NaN ->
  isna (to_numeric_cell parse_number (VStr s)) = true.
Proof. intros H. simpl. rewrite H. reflexivity. Qed.


Lemma calculate_rmb_above (q : Q) (t : pyfloat) :
  (100 <= q)%Q -> calculate_rmb (Fin q) t = Ok NaN.
Proof.
  intros Hq. unfold calculate_rmb. simpl.
  destruct (Qle_bool (100 - q) 0) eqn:E; [reflexivity|].
  assert (H : Qle_bool (100 - q) 0 = true) by (apply Qle_bool_iff; lra).
  congruence.
Qed.





(* ------------------------------------------------------------------ *)
(** ** A missing RMB in front of the zone rules *)

(** With NaN for RMB every RMB test is false and the default label is
    returned. *)
Lemma diagnostic_zone_nan_rmb (amb : pyfloat) (z : Q) :
  (2 < Qabs z)%Q ->
  diagnostic_zone (VFloat amb) (VFloat NaN) (VFloat (Fin z)) = Ok ZONE_3_DEFAULT.
Proof.
  intros Hz. unfold diagnostic_zone. simpl.
  destruct (Qle_bool (Qabs z) 2) eqn:E.
  { apply Qle_bool_iff in E. exfalso. lra. }
  unfold py_and, py_lt, py_gt, py_between. simpl.
  destruct amb as [a|]; simpl; [|reflexivity].
  destruct (Qle_bool 98 a); simpl; destruct (Qle_bool a 102); reflexivity.
Qed.

(** With [None] for RMB the first rule that reads RMB raises. *)
Lemma diagnostic_zone_none_rmb (amb z : Q) :
  (2 < Qabs z)%Q ->
  (amb < 98)%Q \/ (102 < amb)%Q ->
  diagnostic_zone (VFloat (Fin amb)) VNone (VFloat (Fin z)) = Raise TypeError.
Proof.
  intros Hz Hamb. unfold diagnostic_zone. simpl.
  destruct (Qle_bool (Qabs z) 2) eqn:E.
  { apply Qle_bool_iff in E. exfalso. lra. }
  unfold py_and, py_lt, py_gt, py_between. simpl.
  destruct (Qle_bool 98 amb) eqn:E1; simpl; [|reflexivity].
  destruct (Qle_bool amb 102) eqn:E2; simpl; [|reflexivity].
  apply Qle_bool_iff in E1. apply Qle_bool_iff in E2.
  exfalso. destruct Hamb; lra.
Qed.

(** C3. The table made of the single row api_assay = 105, degradant_A = 3
    passes preprocessing with AMB = 108, Z_MB = 16/5 and [None] stored for
    RMB; classifying that row then raises [TypeError] at the comparison
    [rmb > 1.2] instead of returning the default Zone 3 label. *)
Theorem lone_missing_rmb_row_raises (parse_number : string -> pyfloat) :
  exists out issues,
    preprocess_input parse_number lone_row_table = Ok (out, issues) /\
    map (fun r => row_get (columns out) (snd r) "AMB") (rows out)
    = [Ok (VFloat (Fin 108))] /\
    map (fun r => row_get (columns out) (snd r) "Z_MB") (rows out)
    = [Ok (VFloat (Fin (16 # 5)))] /\
    map (fun r => row_get (columns out) (snd r) "RMB") (rows out)
    = [Ok VNone] /\
    diagnostic_zones out = Raise TypeError.
Proof.
  do 2 eexists. split; [vm_compute; reflexivity|].
  repeat split; vm_compute; reflexivity.
Qed.

(** The same row among rows whose RMB is a number: RMB is stored as NaN and
    the row receives the default Zone 3 label. *)
Lemma missing_rmb_row_among_others :
  exists out issues,
    preprocess_input no_number mixed_table = Ok (out, issues) /\
    map (fun r => row_get (columns out) (snd r) "RMB") (rows out)
    = [Ok (VFloat (Fin 1)); Ok (VFloat (Fin (2 # 10))); Ok (VFloat (Fin (4 # 5)));
       Ok (VFloat NaN); Ok (VFloat (Fin (0 # 105)))] /\
    diagnostic_zones out
    = Ok [ZONE_1; ZONE_2; ZONE_1; ZONE_3_DEFAULT; ZONE_2] /\
    recommended_actions [ZONE_1; ZONE_2; ZONE_1; ZONE_3_DEFAULT; ZONE_2]
    = ["No investigation required";
       "Search for additional degradants / volatility studies";
       "No investigation required";
       "Investigate physical loss or degradation pathways";
       "Search for additional degradants / volatility studies"].
Proof.
  do 2 eexists. split; [vm_compute; reflexivity|].
  repeat split; vm_compute; reflexivity.
Qed.

(* ------------------------------------------------------------------ *)
(** ** Claims that fail as stated *)

(** C1, as stated, fails: the column "Unknown Degradant" contains
    "degradant" and is renamed to "unknown_degradant", yet it is not among
    the detected degradant columns, and its cell (7) is not part of
    [total_degradants] (1 in the first row). *)
Lemma unknown_degradant_not_detected :
  In "Unknown Degradant" (columns mixed_table) /\
  Str.contains "degradant" (Str.lower (Str.strip "Unknown Degradant")) = true /\
  nth_error (columns (normalize_columns mixed_table)) 4
  = Some "unknown_degradant" /\
  ~ In (Str.replace_space (Str.lower (Str.strip "Unknown Degradant")))
       (detect_degradant_columns (normalize_columns mixed_table)) /\
  exists out issues r,
    preprocess_input no_number mixed_table = Ok (out, issues) /\
    nth_error (rows out) 0 = Some r /\
    row_get (columns out) (snd r) "unknown_degradant" = Ok (VFloat (Fin 7)) /\
    row_get (columns out) (snd r) "total_degradants" = Ok (VFloat (Fin 1)).
Proof.
  split; [simpl; auto 6|]. split; [reflexivity|]. split; [reflexivity|].
  split.
  - vm_compute. intros [H|[]]. discriminate H.
  - do 3 eexists. split; [vm_compute; reflexivity|].
    split; [vm_compute; reflexivity|].
    split; vm_compute; reflexivity.
Qed.


(* ------------------------------------------------------------------ *)
(** ** The checks of the validator on numbers *)

Lemma assay_out_of_range_fin (q : Q) :
  assay_out_of_range (Fin q) = true <-> ~ (0 <= q /\ q <= 100)%Q.
Proof.
  unfold assay_out_of_range. simpl.
  rewrite negb_true_iff, andb_false_iff. split.
  - intros [H|H] [H0 H1].
    + apply Qle_bool_iff in H0. congruence.
    + apply Qle_bool_iff in H1. congruence.
  - intros H. destruct (Qle_bool 0 q) eqn:E0; [|left; reflexivity].
    destruct (Qle_bool q 100) eqn:E1; [|right; reflexivity].
    exfalso. apply H. split; apply Qle_bool_iff; assumption.
Qed.

Lemma assay_out_of_range_nan : assay_out_of_range NaN = true.
Proof. reflexivity. Qed.

Lemma negative_degradants_fin (q : Q) :
  negative_degradants (Fin q) = true <-> (q < 0)%Q.
Proof. apply float_lt_fin. Qed.

Lemma suspicious_mass_loss_fin (a t : Q) :
  suspicious_mass_loss (Fin a) (Fin t) = true <-> (a + t < 90)%Q.
Proof. apply float_lt_fin. Qed.

(* ------------------------------------------------------------------ *)
(** ** Instances on the sample tables *)

Lemma diagnostic_zone_rule1_first_witness :
  (Qabs (-6 # 5) <= 2)%Q /\
  diagnostic_zone (VFloat (Fin 97)) (VFloat (Fin (1 # 2)))
                  (VFloat (Fin (-6 # 5))) = Ok ZONE_1.
Proof.
  assert (H : (Qabs (-6 # 5) <= 2)%Q) by (apply Qle_bool_iff; reflexivity).
  split; [exact H|].
  apply (diagnostic_zone_rule1_first
           (VFloat (Fin 97)) (VFloat (Fin (1 # 2))) (-6 # 5) H).
Defined.

Lemma recommended_action_by_zone_number_witness :
  diagnostic_zone (VFloat (Fin 90)) (VFloat (Fin 1)) (VFloat (Fin (-4)))
  = Ok ZONE_3_PHYSICAL /\
  exists n,
    spec_zone_number ZONE_3_PHYSICAL = Some n /\
    (1 <= n <= 4)%nat /\
    recommended_action ZONE_3_PHYSICAL = spec_action n /\
    recommended_action ZONE_3_PHYSICAL <> "Expert review required" /\
    (n = 3%nat ->
     recommended_action ZONE_3_PHYSICAL = recommended_action ZONE_3_PHYSICAL /\
     recommended_action ZONE_3_PHYSICAL = recommended_action ZONE_3_DEFAULT).
Proof.
  split; [reflexivity|].
  apply (recommended_action_by_zone_number
           (VFloat (Fin 90)) (VFloat (Fin 1)) (VFloat (Fin (-4)))
           ZONE_3_PHYSICAL).
  reflexivity.
Defined.

Lemma degradant_column_renamed_and_detected_witness :
  nth_error (columns mixed_table) 3 = Some "Degradant A" /\
  Str.contains "degradant" (Str.lower (Str.strip "Degradant A")) = true /\
  nth_error (columns (normalize_columns mixed_table)) 3 = Some "degradant_a" /\
  (In "degradant_a" (detect_degradant_columns (normalize_columns mixed_table))
   <-> Str.startswith "degradant_a" "degradant_" = true) /\
  exists out issues,
    preprocess_input no_number mixed_table = Ok (out, issues) /\
    forall r,
      In r (rows out) ->
      exists ds,
        mapM (row_get (columns out) (snd r)) ["degradant_a"] = Ok ds /\
        row_get (columns out) (snd r) "total_degradants"
        = Ok (VFloat (Fin (total_of ds))) /\
        exists v, row_get (columns out) (snd r) "degradant_a" = Ok v /\ In v ds.
Proof.
  split; [reflexivity|]. split; [reflexivity|].
  destruct (degradant_column_renamed_and_detected mixed_table 3 "Degradant A")
    as (Hnew & Hdet & Hsum); [reflexivity | reflexivity |].
  split; [exact Hnew|]. split; [exact Hdet|].
  destruct (preprocess_input no_number mixed_table)
    as [[out issues]|] eqn:E; [|vm_compute in E; discriminate E].
  exists out, issues. split; [reflexivity|].
  intros r Hr.
  destruct (Hsum no_number out issues E r Hr) as (ds & Hds & Ht & Hv).
  exists ds. split; [exact Hds|]. split; [exact Ht|].
  apply Hv. reflexivity.
Defined.

Lemma validate_and_clean_advisory_witness :
  exists issues,
    validate_and_clean validation_table = Ok (validation_table, issues) /\
    forall idx text,
      In (idx, text) issues <->
      exists r a t,
        In r (rows validation_table) /\ fst r = idx /\
        numeric_row (columns validation_table) (snd r) a t /\
        (assay_out_of_range a = true \/ negative_degradants t = true
         \/ suspicious_mass_loss a t = true) /\
        text = Str.join ", " (failed_checks a t).
Proof.
  apply (validate_and_clean_advisory validation_table).
  intros r [<-|[<-|[]]]; do 2 eexists; split; reflexivity.
Defined.

Lemma total_degradants_all_missing_witness :
  NoDup (columns (normalize_columns mixed_table)) /\
  missing_required (normalize_columns mixed_table) = [] /\
  detect_degradant_columns (normalize_columns mixed_table) <> [] /\
  exists out issues r,
    preprocess_input no_number mixed_table = Ok (out, issues) /\
    nth_error (rows out) 4 = Some r /\
    row_get (columns out) (snd r) "degradant_a" = Ok (VFloat NaN) /\
    row_get (columns out) (snd r) "total_degradants" = Ok (VFloat (Fin 0)).
Proof.
  assert (Hm : missing_required (normalize_columns mixed_table) = [])
    by reflexivity.
  assert (Hd : detect_degradant_columns (normalize_columns mixed_table) <> [])
    by (vm_compute; discriminate).
  assert (Hn : NoDup (columns (normalize_columns mixed_table)))
    by (apply distinct_NoDup; reflexivity).
  split; [exact Hn|]. split; [exact Hm|]. split; [exact Hd|].
  destruct (total_degradants_all_missing no_number mixed_table Hn Hm Hd)
    as [out [issues [E H]]].
  exists out, issues.
  vm_compute in E. injection E as <- <-.
  eexists. split; [vm_compute; reflexivity|].
  split; [reflexivity|]. split; [reflexivity|].
  apply H.
  - simpl. auto 6.
  - intros c Hc. vm_compute in Hc. destruct Hc as [<-|[]].
    eexists. split; reflexivity.
Defined.



Lemma preprocess_input_schema_failure_witness :
  preprocess_input no_number no_degradant_table
  = Raise (ValueError "No degradant columns detected" []) /\
  preprocess_input no_number validation_table
  = Raise (ValueError "Missing required columns: "
                      ["stress_type"; "time_months"]) /\
  (NoDup (columns (normalize_columns mixed_table)) /\
   ~ (missing_required (normalize_columns mixed_table) <> []
      \/ detect_degradant_columns (normalize_columns mixed_table) = []) /\
   ~ exists e, preprocess_input no_number mixed_table = Raise e).
Proof.
  split; [|split].
  - apply (proj1 (proj2 (proj2
             (preprocess_input_schema_failure no_number no_degradant_table))));
      reflexivity.
  - apply (proj1 (preprocess_input_schema_failure no_number validation_table)).
    vm_compute. discriminate.
  - assert (Hn : NoDup (columns (normalize_columns mixed_table)))
      by (apply distinct_NoDup; reflexivity).
    assert (Hs : ~ (missing_required (normalize_columns mixed_table) <> []
                    \/ detect_degradant_columns (normalize_columns mixed_table)
                       = [])).
    { intros [H|H]; [apply H; reflexivity | vm_compute in H; discriminate H]. }
    split; [exact Hn|]. split; [exact Hs|].
    intros Hraise. apply Hs.
    apply (proj2 (proj2 (proj2 (proj2
             (preprocess_input_schema_failure no_number mixed_table)))) Hn).
    exact Hraise.
Defined.

Lemma interpret_z_mb_three_way_witness :
  exists label advice,
    interpret_z_mb (VFloat (Fin (-3))) = Ok (label, advice) /\
    (label = "Within analytical variability" <-> (Qabs (-3) <= 2)%Q) /\
    (label = "Statistically significant mass loss" <-> (-3 < -2)%Q) /\
    (label = "Statistically significant over-recovery" <-> (2 < -3)%Q).
Proof. exact (interpret_z_mb_three_way (-3)). Defined.

(* ================================================================== *)
(** * Further properties of the code *)

(* ------------------------------------------------------------------ *)
(** ** Shape of the table the pipeline returns *)

Lemma df_set_columns_any (df : DataFrame) (c : string) (s : list value) :
  columns (df_set df c s) = set_label (columns df) c.
Proof.
  unfold df_set, set_label. destruct (col_pos c (columns df)); reflexivity.
Qed.

Lemma assign_cells_index (i : nat) (rs : list row) (vs : list value) :
  map fst (assign_cells i rs vs) = map fst rs.
Proof.
  revert vs. induction rs as [|r rs IH]; intros vs; simpl; [reflexivity|].
  destruct vs as [|v vs]; simpl; rewrite IH; reflexivity.
Qed.

Lemma df_set_index (df : DataFrame) (c : string) (s : list value) :
  map fst (rows (df_set df c s)) = map fst (rows df).
Proof.
  unfold df_set. destruct (col_pos c (columns df)); simpl;
    apply assign_cells_index.
Qed.

Lemma coerce_columns_shape (parse_number : string -> pyfloat)
  (cols : list string) :
  forall df df',
    coerce_columns parse_number df cols = Ok df' ->
    columns df' = columns df /\ map fst (rows df') = map fst (rows df).
Proof.
  induction cols as [|c rest IH]; intros df df' H; simpl in H.
  - injection H as <-. split; reflexivity.
  - destruct (1 <? label_count c (columns df))%nat; [discriminate H|].
    unfold df_get in H. destruct (col_pos c (columns df)) as [i|] eqn:E;
      simpl in H; [|discriminate H].
    apply IH in H. destruct H as [Hc Hi].
    rewrite Hc, Hi, df_set_columns_any, df_set_index.
    unfold set_label. rewrite E. split; reflexivity.
Qed.

Lemma reset_index_labels (df : DataFrame) :
  map fst (rows (reset_index df)) = seq 0 (List.length (rows df)).
Proof.
  unfold reset_index. simpl.
  assert (H : forall (A B : Type) (l : list A) (l' : list B),
             List.length l = List.length l' -> map fst (combine l l') = l).
  { intros A B l. induction l as [|a l IH]; intros [|b l'] Hl; simpl in *;
      try reflexivity; try discriminate Hl.
    rewrite IH by congruence. reflexivity. }
  apply H. rewrite length_seq, length_map. reflexivity.
Qed.

Lemma set_label_app (cols : list string) (c : string) :
  set_label cols c = (cols ++ if Str.mem c cols then [] else [c])%list.
Proof.
  unfold set_label. destruct (col_pos c cols) as [i|] eqn:E.
  - assert (Hin : In c cols).
    { eapply nth_error_In. apply col_pos_some_in. exact E. }
    apply mem_true_iff in Hin. rewrite Hin. rewrite app_nil_r. reflexivity.
  - destruct (Str.mem c cols) eqn:Hm; [|reflexivity].
    apply mem_true_iff in Hm. apply col_pos_none_not_in in E. contradiction.
Qed.

Lemma mem_app_fresh (c d : string) (cols : list string) :
  c <> d -> Str.mem c (cols ++ [d]) = Str.mem c cols.
Proof.
  intros Hne. unfold Str.mem. rewrite existsb_app. simpl.
  destruct (String.eqb c d) eqn:E.
  - apply String.eqb_eq in E. contradiction.
  - rewrite !orb_false_r. reflexivity.
Qed.

Lemma fold_set_label_app (ls : list string) :
  NoDup ls ->
  forall cols,
    fold_left set_label ls cols
    = (cols ++ filter (fun c => negb (Str.mem c cols)) ls)%list.
Proof.
  induction 1 as [|c ls Hc _ IH]; intros cols; simpl.
  - rewrite app_nil_r. reflexivity.
  - rewrite IH, set_label_app.
    destruct (Str.mem c cols) eqn:Hm; simpl.
    + rewrite app_nil_r. reflexivity.
    + rewrite <- app_assoc. simpl. do 2 f_equal.
      apply filter_ext_in. intros d Hd.
      rewrite mem_app_fresh; [reflexivity|]. intros ->. contradiction.
Qed.

Lemma collect_issues_indices (cols : list string) (rs : list row) :
  forall issues,
    collect_issues cols rs = Ok issues ->
    (forall idx text, In (idx, text) issues -> In idx (map fst rs)) /\
    (List.length issues <= List.length rs)%nat.
Proof.
  induction rs as [|r rs IH]; intros issues H; simpl in H.
  - injection H as <-. split; [intros idx text []|apply Nat.le_refl].
  - destruct (row_issues cols (snd r)) as [ri|e]; simpl in H;
      [|discriminate H].
    destruct (collect_issues cols rs) as [rest|e]; simpl in H;
      [|discriminate H].
    destruct (IH rest eq_refl) as [Hin Hlen].
    injection H as <-. destruct ri as [|m ms]; simpl.
    + split; [|lia]. intros idx text Hi. right. eapply Hin. exact Hi.
    + split; [|lia]. intros idx text [Heq|Hi].
      * injection Heq as <- _. left. reflexivity.
      * right. eapply Hin. exact Hi.
Qed.

Ltac bind_inv H :=
  match type of H with
  | bind ?c _ = Ok _ =>
      let x := fresh "x" in
      let E := fresh "E" in
      destruct c as [x|] eqn:E; cbn [bind] in H; [|discriminate H]
  end.

(** The frames a successful run goes through, read off the result. *)
Lemma preprocess_input_trace (parse_number : string -> pyfloat)
  (df_raw out : DataFrame) (issues : list (nat * string)) :
  preprocess_input parse_number df_raw = Ok (out, issues) ->
  exists df1,
    coerce_columns parse_number (normalize_columns df_raw)
      ("api_assay" :: "time_months"
       :: detect_degradant_columns (normalize_columns df_raw)) = Ok df1 /\
    columns out
    = fold_left set_label DERIVED_COLUMNS (columns (normalize_columns df_raw)) /\
    map fst (rows out) = map fst (rows (reset_index (dropna_all df1))) /\
    collect_issues (columns out) (rows out) = Ok issues.
Proof.
  intros H. unfold preprocess_input in H. cbv zeta in H.
  destruct (missing_required (normalize_columns df_raw)); [|discriminate H].
  destruct (detect_degradant_columns (normalize_columns df_raw)) as [|d ds];
    [discriminate H|].
  bind_inv H. rename x into df1, E into Hco.
  exists df1. split; [reflexivity|].
  apply coerce_columns_shape in Hco. destruct Hco as [Hc1 _].
  repeat bind_inv H.
  unfold validate_and_clean in H. bind_inv H. injection H as <- <-.
  split; [|split].
  - rewrite !df_set_columns_any. simpl. rewrite Hc1. reflexivity.
  - rewrite !df_set_index. reflexivity.
  - assumption.
Qed.

(** X5. The table the pipeline returns is indexed 0, 1, ..., n-1, has no
    more rows than the input, and every issue record points at one of its
    rows; there are at most n records. *)
Theorem preprocess_input_dense_index (parse_number : string -> pyfloat)
  (df_raw out : DataFrame) (issues : list (nat * string)) :
  preprocess_input parse_number df_raw = Ok (out, issues) ->
  map fst (rows out) = seq 0 (List.length (rows out)) /\
  (List.length (rows out) <= List.length (rows df_raw))%nat /\
  (forall idx text,
      In (idx, text) issues -> (idx < List.length (rows out))%nat) /\
  (List.length issues <= List.length (rows out))%nat.
Proof.
  intros H. destruct (preprocess_input_trace _ _ _ _ H)
    as (df1 & Hco & _ & Hidx & Hiss).
  rewrite reset_index_labels in Hidx.
  assert (Hlen : List.length (rows out)
                 = List.length (rows (dropna_all df1))).
  { pose proof (f_equal (@List.length nat) Hidx) as L.
    rewrite length_map, length_seq in L. exact L. }
  split; [rewrite Hidx, Hlen; reflexivity|]. split.
  - rewrite Hlen. apply coerce_columns_shape in Hco. destruct Hco as [_ Hi].
    apply (f_equal (@List.length nat)) in Hi.
    assert (L : List.length (rows df1) = List.length (rows df_raw)).
    { transitivity (List.length (map fst (rows df1)));
        [symmetry; apply length_map|].
      rewrite Hi. apply length_map. }
    rewrite <- L. unfold dropna_all. simpl. apply filter_length_le.
  - destruct (collect_issues_indices _ _ _ Hiss) as [Hin Hle].
    split; [|exact Hle]. intros idx text Hi.
    apply Hin in Hi. rewrite Hidx in Hi. apply in_seq in Hi.
    rewrite <- Hlen in Hi. lia.
Qed.

(** X6. The columns of the returned table are the normalised input columns,
    in their order, followed by those of total_degradants, AMB, AMBD, RMB,
    RMBD, Z_MB that the input did not already carry; an input column with one
    of these names is overwritten where it stands. *)
Theorem preprocess_input_columns (parse_number : string -> pyfloat)
  (df_raw out : DataFrame) (issues : list (nat * string)) :
  preprocess_input parse_number df_raw = Ok (out, issues) ->
  columns out
  = (columns (normalize_columns df_raw)
     ++ filter (fun c => negb (Str.mem c (columns (normalize_columns df_raw))))
               DERIVED_COLUMNS)%list.
Proof.
  intros H. destruct (preprocess_input_trace _ _ _ _ H)
    as (df1 & _ & Hcols & _).
  rewrite Hcols. apply fold_set_label_app.
  unfold DERIVED_COLUMNS.
  repeat (constructor; [simpl; intuition discriminate|]). constructor.
Qed.

(* ------------------------------------------------------------------ *)
(** ** The standalone metric functions and the pipeline columns *)

(** X7. On the assay and the total of any row of the returned table the
    standalone functions give back the row's own columns: [calculate_amb]
    gives AMB, [calculate_z_mb] with the uncertainty 2.5 gives Z_MB,
    [calculate_rmb] gives RMB (NaN where the column is missing), and
    [calculate_ambd] gives the absolute value of the signed AMBD column. *)
Theorem standalone_metrics_match_pipeline (parse_number : string -> pyfloat)
  (df_raw out : DataFrame) (issues : list (nat * string)) :
  preprocess_input parse_number df_raw = Ok (out, issues) ->
  forall r,
    In r (rows out) ->
    exists a t amb ambd rmb z,
      row_get (columns out) (snd r) "api_assay" = Ok (VFloat a) /\
      row_get (columns out) (snd r) "total_degradants" = Ok (VFloat (Fin t)) /\
      row_get (columns out) (snd r) "AMB" = Ok (VFloat amb) /\
      row_get (columns out) (snd r) "AMBD" = Ok (VFloat ambd) /\
      row_get (columns out) (snd r) "RMB" = Ok rmb /\
      row_get (columns out) (snd r) "Z_MB" = Ok (VFloat z) /\
      calculate_amb a (Fin t) = amb /\
      ambd = Float.sub amb (Fin 100) /\
      calculate_ambd amb = Float.abs ambd /\
      calculate_z_mb amb (Fin COMBINED_UNCERTAINTY) = Ok z /\
      calculate_rmb a (Fin t) = Ok (operand rmb).
Proof.
  intros H r Hr. apply preprocess_input_ok_inv in H.
  destruct H as (_ & _ & HF). rewrite Forall_forall in HF.
  destruct (HF r Hr)
    as (a & ds & rmb & Ha & _ & _ & Ht & Hamb & Hambd & Hrmb & Hval & _ & Hz).
  exists a, (total_of ds), (Float.add a (Fin (total_of ds))),
    (Float.sub (Float.add a (Fin (total_of ds))) (Fin 100)), rmb,
    (quotient (Float.sub (Float.add a (Fin (total_of ds))) (Fin 100))
       COMBINED_UNCERTAINTY).
  repeat (split; [first [assumption | reflexivity]|]).
  split.
  - unfold calculate_z_mb.
    destruct (Float.sub (Float.add a (Fin (total_of ds))) (Fin 100));
      reflexivity.
  - unfold calculate_rmb, rmb_formula in *. destruct a as [q|]; simpl.
    + destruct (Qle_bool (100 - q) 0) eqn:E; simpl in Hval.
      * destruct Hval as [->| ->]; reflexivity.
      * destruct (Qeq_bool (100 - q) 0) eqn:E0.
        { apply Qeq_bool_eq in E0.
          assert (Hle : Qle_bool (100 - q) 0 = true).
          { apply Qle_bool_iff. rewrite E0. apply Qle_refl. }
          congruence. }
        destruct Hval as [->| ->]; reflexivity.
    + destruct Hval as [->| ->]; reflexivity.
Qed.

(** X8. The guards of [calculate_rmb] and [calculate_z_mb] keep their
    divisions away from zero: on all floats, NaN included, both return a
    float and never raise; a zero uncertainty and an assay of 100 or more
    give NaN. *)
Theorem ratio_functions_never_raise :
  (forall a t : pyfloat, exists x, calculate_rmb a t = Ok x) /\
  (forall amb u : pyfloat, exists x, calculate_z_mb amb u = Ok x) /\
  (forall (amb : pyfloat) (u : Q),
      (u == 0)%Q -> calculate_z_mb amb (Fin u) = Ok NaN) /\
  (forall (q : Q) (t : pyfloat),
      (100 <= q)%Q -> calculate_rmb (Fin q) t = Ok NaN).
Proof.
  split; [|split; [|split]].
  - intros [q|] t; unfold calculate_rmb; simpl.
    + destruct (Qle_bool (100 - q) 0) eqn:E; [eexists; reflexivity|].
      destruct (Qeq_bool (100 - q) 0) eqn:E0.
      * apply Qeq_bool_eq in E0.
        assert (Hle : Qle_bool (100 - q) 0 = true).
        { apply Qle_bool_iff. rewrite E0. apply Qle_refl. }
        congruence.
      * destruct t; eexists; reflexivity.
    + eexists; reflexivity.
  - intros amb [u|]; unfold calculate_z_mb; simpl.
    + destruct (Qeq_bool u 0); [eexists; reflexivity|].
      destruct (Float.sub amb (Fin 100)); eexists; reflexivity.
    + eexists; reflexivity.
  - intros amb u Hu. unfold calculate_z_mb. simpl.
    apply Qeq_bool_iff in Hu. rewrite Hu. reflexivity.
  - intros q t. apply calculate_rmb_above.
Qed.

(* ------------------------------------------------------------------ *)
(** ** The zone rules on numbers *)

Ltac q_bools :=
  repeat match goal with
    | H : Qle_bool _ _ = true |- _ => apply Qle_bool_iff in H
    | H : Qle_bool ?a ?b = false |- _ =>
        let HH := fresh "HH" in
        assert (b < a)%Q
          by (apply Qnot_le_lt; intro HH; apply Qle_bool_iff in HH;
              congruence);
        clear H
    end.

Ltac split_all :=
  repeat match goal with
    | |- _ /\ _ => split
    | |- _ <-> _ => split
    end.

Ltac zone_case H :=
  first
    [ discriminate H
    | reflexivity
    | solve [exfalso; decompose [and or] H; lra]
    | solve [repeat split; first [assumption | lra]]
    | solve [split; [first [assumption | lra] | left; split; lra]]
    | solve [split; [first [assumption | lra] | right; left; split; lra]]
    | solve [split; [first [assumption | lra] | right; right; split; lra]] ].

(** X9. On three numbers the classifier follows this table: Zone 1 iff
    |Z_MB| <= 2; otherwise Zone 2 iff AMB < 98 and RMB < 0.8, "Physical loss"
    Zone 3 iff AMB < 98 and 0.8 <= RMB <= 1.2, Zone 4 iff AMB > 102 and
    RMB > 1.2, and the default Zone 3 in the three remaining cases: AMB < 98
    with RMB > 1.2, AMB within [98, 102], AMB > 102 with RMB <= 1.2. *)
Theorem diagnostic_zone_decision_table (amb rmb z : Q) :
  let d :=
    diagnostic_zone (VFloat (Fin amb)) (VFloat (Fin rmb)) (VFloat (Fin z)) in
  (d = Ok ZONE_1 <-> (Qabs z <= 2)%Q) /\
  (d = Ok ZONE_2 <-> (2 < Qabs z /\ amb < 98 /\ rmb < 4 # 5)%Q) /\
  (d = Ok ZONE_3_PHYSICAL
   <-> (2 < Qabs z /\ amb < 98 /\ 4 # 5 <= rmb /\ rmb <= 6 # 5)%Q) /\
  (d = Ok ZONE_4 <-> (2 < Qabs z /\ 102 < amb /\ 6 # 5 < rmb)%Q) /\
  (d = Ok ZONE_3_DEFAULT
   <-> (2 < Qabs z)%Q /\
       ((amb < 98 /\ 6 # 5 < rmb)%Q \/ (98 <= amb /\ amb <= 102)%Q
        \/ (102 < amb /\ rmb <= 6 # 5)%Q)).
Proof.
  unfold diagnostic_zone, py_and, py_lt, py_gt, py_between,
    ZONE_1, ZONE_2, ZONE_3_PHYSICAL, ZONE_4, ZONE_3_DEFAULT.
  simpl.
  destruct (Qle_bool (Qabs z) 2) eqn:Ez; simpl;
    [|destruct (Qle_bool 98 amb) eqn:E1; simpl;
      destruct (Qle_bool (4 # 5) rmb) eqn:E2; simpl;
      destruct (Qle_bool rmb (6 # 5)) eqn:E3; simpl;
      destruct (Qle_bool amb 102) eqn:E4; simpl];
    q_bools; split_all; intros Hcase; zone_case Hcase.
Qed.

(** X10. On floats, NaN included, the classifier always returns a label;
    when |Z_MB| <= 2 fails and AMB or RMB is NaN, that label is the default
    Zone 3. *)
Theorem diagnostic_zone_total_on_floats (amb rmb z : pyfloat) :
  exists label,
    diagnostic_zone (VFloat amb) (VFloat rmb) (VFloat z) = Ok label /\
    (Float.le (Float.abs z) (Fin 2) = false ->
     amb = NaN \/ rmb = NaN -> label = ZONE_3_DEFAULT).
Proof.
  unfold diagnostic_zone, py_and, py_lt, py_gt, py_between. simpl.
  destruct (Float.le (Float.abs z) (Fin 2)) eqn:Ez.
  { eexists. split; [reflexivity|]. discriminate. }
  destruct amb as [a|], rmb as [b|]; simpl;
    repeat match goal with
      | |- context [Qle_bool ?x ?y] => destruct (Qle_bool x y); simpl
      end;
    eexists; (split; [reflexivity|]); intros _ [H|H];
    first [discriminate H | reflexivity].
Qed.

Lemma diagnostic_zone_zone1_iff (amb rmb : value) (x : pyfloat) :
  diagnostic_zone amb rmb (VFloat x) = Ok ZONE_1
  <-> Float.le (Float.abs x) (Fin 2) = true.
Proof.
  unfold diagnostic_zone. simpl.
  destruct (Float.le (Float.abs x) (Fin 2)) eqn:E.
  - split; reflexivity.
  - split; [|discriminate]. intros H.
    unfold ZONE_1, ZONE_2, ZONE_3_PHYSICAL, ZONE_4, ZONE_3_DEFAULT in H.
    repeat step_result H; discriminate H.
Qed.

(** X11. The three displays of one Z_MB agree: the classifier answers
    Zone 1 exactly when [interpret_z_mb] answers "Within analytical
    variability", and exactly when the bar of the chart is green. *)
Theorem zone1_interpretation_and_colour_agree (amb rmb : value) (x : pyfloat) :
  (diagnostic_zone amb rmb (VFloat x) = Ok ZONE_1
   <-> interpret_z_mb (VFloat x)
       = Ok ("Within analytical variability", "Acceptable")) /\
  (diagnostic_zone amb rmb (VFloat x) = Ok ZONE_1
   <-> bar_color (VFloat x) = Ok "#4CAF50").
Proof.
  rewrite diagnostic_zone_zone1_iff.
  unfold interpret_z_mb, bar_color. simpl.
  destruct (Float.le (Float.abs x) (Fin 2)) eqn:E.
  - split; split; reflexivity.
  - split; split; try discriminate.
    + destruct (Float.lt x (Fin (-2))); discriminate.
    + destruct (Float.le (Float.abs x) (Fin 3)); discriminate.
Qed.

(* ------------------------------------------------------------------ *)
(** ** The zone rules on the rows of the pipeline *)

(** X12. In the table the pipeline returns Z_MB is (AMB - 100) / 2.5, so
    the first rule decides alone inside a wider band than the thresholds 98
    and 102 suggest: a row with a numeric AMB is classified Zone 1 exactly
    when 95 <= AMB <= 105, whatever its RMB. *)
Theorem pipeline_zone1_band (parse_number : string -> pyfloat)
  (df_raw out : DataFrame) (issues : list (nat * string)) :
  preprocess_input parse_number df_raw = Ok (out, issues) ->
  forall r q,
    In r (rows out) ->
    row_get (columns out) (snd r) "AMB" = Ok (VFloat (Fin q)) ->
    (zone_of_row (columns out) (snd r) = Ok ZONE_1
     <-> (95 <= q /\ q <= 105)%Q).
Proof.
  intros H r q Hr Hq. apply preprocess_input_ok_inv in H.
  destruct H as (_ & _ & HF). rewrite Forall_forall in HF.
  destruct (HF r Hr)
    as (a & ds & rmb & _ & _ & _ & _ & Hamb & _ & Hrmb & _ & _ & Hz).
  rewrite Hq in Hamb. injection Hamb as Hamb. rewrite <- Hamb in Hz.
  unfold zone_of_row. rewrite Hq, Hrmb, Hz. cbn [bind].
  rewrite diagnostic_zone_zone1_iff.
  unfold quotient, Float.sub, Float.abs, Float.le.
  rewrite Qle_bool_iff, Qabs_Qle_condition.
  unfold COMBINED_UNCERTAINTY, Qdiv. change (/ (5 # 2))%Q with (2 # 5)%Q.
  split; intros [H1 H2]; split; lra.
Qed.

(* ------------------------------------------------------------------ *)
(** ** Edges of the validator *)

Lemma col_pos_not_in (c : string) (cols : list string) :
  ~ In c cols -> col_pos c cols = None.
Proof.
  intros H. destruct (col_pos c cols) as [i|] eqn:E; [|reflexivity].
  exfalso. apply H. eapply nth_error_In. apply col_pos_some_in. exact E.
Qed.

(** X13. On a frame without rows [validate_and_clean] returns the frame and
    no issue, whatever its columns; on a frame with at least one row and no
    [api_assay] column it raises [KeyError] for that label, and with
    [api_assay] holding a float but no [total_degradants] column it raises
    [KeyError] for the latter. *)
Theorem validate_and_clean_edges (df : DataFrame) :
  (rows df = [] -> validate_and_clean df = Ok (df, [])) /\
  (rows df <> [] -> ~ In "api_assay" (columns df) ->
   validate_and_clean df = Raise (KeyError "api_assay")) /\
  (forall r rs a,
      rows df = r :: rs ->
      row_get (columns df) (snd r) "api_assay" = Ok (VFloat a) ->
      ~ In "total_degradants" (columns df) ->
      validate_and_clean df = Raise (KeyError "total_degradants")).
Proof.
  unfold validate_and_clean. split; [|split].
  - intros ->. reflexivity.
  - intros Hne Hin. destruct (rows df) as [|r rs]; [congruence|].
    simpl. unfold row_issues, row_get.
    rewrite (col_pos_not_in _ _ Hin). reflexivity.
  - intros r rs a -> Ha Hin. simpl. unfold row_issues.
    rewrite Ha. cbn [bind as_float]. unfold row_get at 1.
    rewrite (col_pos_not_in _ _ Hin). reflexivity.
Qed.

(** X14. A row of the returned table whose assay is missing is always
    reported: its issue record starts with "API assay out of range" and
    never mentions "Suspicious mass loss". *)
Theorem missing_assay_is_reported (parse_number : string -> pyfloat)
  (df_raw out : DataFrame) (issues : list (nat * string)) :
  preprocess_input parse_number df_raw = Ok (out, issues) ->
  forall r,
    In r (rows out) ->
    row_get (columns out) (snd r) "api_assay" = Ok (VFloat NaN) ->
    exists text,
      In (fst r, text) issues /\
      Str.startswith text "API assay out of range" = true /\
      Str.contains "Suspicious mass loss" text = false.
Proof.
  intros H r Hr Hnan.
  destruct (preprocess_input_trace _ _ _ _ H) as (_ & _ & _ & _ & Hiss).
  apply preprocess_input_ok_inv in H. destruct H as (_ & _ & HF).
  destruct (collect_issues_numeric (columns out) (rows out))
    as [issues' [Hrun Hspec]].
  { eapply Forall_impl; [|exact HF].
    intros r' (a & ds & rmb & Ha & _ & _ & Ht & _).
    exists a, (Fin (total_of ds)). split; assumption. }
  rewrite Hrun in Hiss. injection Hiss as ->.
  rewrite Forall_forall in HF.
  destruct (HF r Hr) as (a & ds & rmb & Ha & _ & _ & Ht & _).
  rewrite Hnan in Ha. injection Ha as <-.
  exists (Str.join ", " (failed_checks NaN (Fin (total_of ds)))).
  split.
  - apply Hspec. exists r, NaN, (Fin (total_of ds)).
    split; [exact Hr|]. split; [reflexivity|].
    split; [split; assumption|].
    split; [|reflexivity].
    unfold failed_checks. simpl. discriminate.
  - unfold failed_checks.
    destruct (negative_degradants (Fin (total_of ds))); split; reflexivity.
Qed.

(* ------------------------------------------------------------------ *)
(** ** String methods *)

Lemma lower_smap (s : string) : Str.lower s = smap Str.lower_char s.
Proof. induction s as [|c t IH]; simpl; [reflexivity|]. rewrite IH. reflexivity. Qed.

Lemma replace_space_smap (s : string) : Str.replace_space s = smap underscore s.
Proof. induction s as [|c t IH]; simpl; [reflexivity|]. rewrite IH. reflexivity. Qed.

Ltac all_chars c :=
  destruct c as [[] [] [] [] [] [] [] []]; try reflexivity; try discriminate.

Lemma lower_char_idem (c : ascii) :
  Str.lower_char (Str.lower_char c) = Str.lower_char c.
Proof. all_chars c. Qed.

Lemma lower_char_space (c : ascii) :
  Str.is_space c = false -> Str.is_space (Str.lower_char c) = false.
Proof. all_chars c. Qed.

Lemma underscore_space (c : ascii) :
  Str.is_space c = false -> Str.is_space (underscore c) = false.
Proof. all_chars c. Qed.

Lemma underscore_idem (c : ascii) : underscore (underscore c) = underscore c.
Proof. all_chars c. Qed.

Lemma lower_underscore (c : ascii) :
  Str.lower_char (underscore c) = underscore (Str.lower_char c).
Proof. all_chars c. Qed.

Lemma smap_smap_idem (f : ascii -> ascii) (s : string) :
  (forall c, f (f c) = f c) -> smap f (smap f s) = smap f s.
Proof.
  intros Hf. induction s as [|c t IH]; simpl; [reflexivity|].
  rewrite Hf, IH. reflexivity.
Qed.

Lemma smap_commute (f g : ascii -> ascii) (s : string) :
  (forall c, f (g c) = g (f c)) -> smap f (smap g s) = smap g (smap f s).
Proof.
  intros H. induction s as [|c t IH]; simpl; [reflexivity|].
  rewrite H, IH. reflexivity.
Qed.

Lemma head_ok_lstrip (s : string) : head_ok (Str.lstrip s).
Proof.
  induction s as [|c t IH]; simpl; [exact I|].
  destruct (Str.is_space c) eqn:E; [exact IH | simpl; exact E].
Qed.

Lemma lstrip_head_ok (s : string) : head_ok s -> Str.lstrip s = s.
Proof. destruct s as [|c t]; simpl; [reflexivity|]. intros ->. reflexivity. Qed.

Lemma head_ok_rstrip (s : string) : head_ok s -> head_ok (Str.rstrip s).
Proof.
  destruct s as [|c t]; simpl; [exact (fun H => H)|]. intros Hc.
  destruct (Str.rstrip t); [rewrite Hc|]; simpl; exact Hc.
Qed.

Lemma rstrip_idem (s : string) : Str.rstrip (Str.rstrip s) = Str.rstrip s.
Proof.
  induction s as [|c t IH]; simpl; [reflexivity|].
  destruct (Str.rstrip t) as [|d u] eqn:E.
  - destruct (Str.is_space c) eqn:Ec; simpl; [reflexivity|].
    rewrite Ec. reflexivity.
  - simpl. simpl in IH. rewrite IH. reflexivity.
Qed.

Lemma head_ok_smap (f : ascii -> ascii) (s : string) :
  (forall c, Str.is_space c = false -> Str.is_space (f c) = false) ->
  head_ok s -> head_ok (smap f s).
Proof. intros Hf. destruct s as [|c t]; simpl; [auto|]. apply Hf. Qed.

Lemma rstrip_smap (f : ascii -> ascii) (s : string) :
  (forall c, Str.is_space c = false -> Str.is_space (f c) = false) ->
  Str.rstrip s = s -> Str.rstrip (smap f s) = smap f s.
Proof.
  intros Hf. induction s as [|c t IH]; simpl; [reflexivity|].
  destruct (Str.rstrip t) as [|d u] eqn:E.
  - destruct (Str.is_space c) eqn:Ec; [discriminate|].
    intros H. injection H as <-. simpl. rewrite (Hf c Ec). reflexivity.
  - intros H. injection H as H.
    rewrite (IH H). rewrite <- H. reflexivity.
Qed.

(** A string without whitespace at either end is its own [strip]. *)
Lemma strip_fixed (s : string) :
  head_ok s -> Str.rstrip s = s -> Str.strip s = s.
Proof.
  intros Hh Hr. unfold Str.strip. rewrite (lstrip_head_ok s Hh). exact Hr.
Qed.

Lemma strip_trimmed (s : string) :
  head_ok (Str.strip s) /\ Str.rstrip (Str.strip s) = Str.strip s.
Proof.
  unfold Str.strip. split.
  - apply head_ok_rstrip, head_ok_lstrip.
  - apply rstrip_idem.
Qed.

Lemma clean_trimmed (col : string) :
  head_ok (clean col) /\ Str.rstrip (clean col) = clean col.
Proof.
  unfold clean. rewrite lower_smap.
  destruct (strip_trimmed col) as [Hh Hr]. split.
  - apply head_ok_smap; [exact lower_char_space | exact Hh].
  - apply rstrip_smap; [exact lower_char_space | exact Hr].
Qed.

Lemma clean_lower (col : string) : Str.lower (clean col) = clean col.
Proof.
  unfold clean. rewrite !lower_smap.
  apply smap_smap_idem. exact lower_char_idem.
Qed.

(** The name given to a degradant column is already in clean form. *)
Lemma clean_replace_space (col : string) :
  clean (Str.replace_space (clean col)) = Str.replace_space (clean col).
Proof.
  destruct (clean_trimmed col) as [Hh Hr].
  unfold clean at 1. rewrite strip_fixed.
  - rewrite lower_smap, replace_space_smap.
    rewrite smap_commute by exact lower_underscore.
    rewrite <- lower_smap, clean_lower. reflexivity.
  - rewrite replace_space_smap.
    apply head_ok_smap; [exact underscore_space | exact Hh].
  - rewrite replace_space_smap.
    apply rstrip_smap; [exact underscore_space | exact Hr].
Qed.

Lemma startswith_smap (f : ascii -> ascii) (p : string) :
  forall s,
    Str.startswith s p = true ->
    Str.startswith (smap f s) (smap f p) = true.
Proof.
  induction p as [|a p IH]; intros s H; simpl;
    [destruct s; reflexivity|].
  destruct s as [|b s]; simpl in *; [discriminate H|].
  apply andb_true_iff in H. destruct H as [Hab Hs].
  apply Ascii.eqb_eq in Hab. subst b.
  rewrite Ascii.eqb_refl. simpl. apply IH. exact Hs.
Qed.

Lemma contains_smap (f : ascii -> ascii) (p s : string) :
  Str.contains p s = true -> Str.contains (smap f p) (smap f s) = true.
Proof.
  induction s as [|c t IH]; simpl; intros H.
  - rewrite orb_false_r in *. apply (startswith_smap f p ""). exact H.
  - apply orb_true_iff in H. apply orb_true_iff. destruct H as [H|H].
    + left. apply (startswith_smap f p (String c t)). exact H.
    + right. apply IH. exact H.
Qed.

Lemma startswith_app (p q : string) :
  forall s, Str.startswith s (p ++ q) = true -> Str.startswith s p = true.
Proof.
  induction p as [|a p IH]; intros s H; simpl in *;
    [destruct s; reflexivity|].
  destruct s as [|b s]; simpl in *; [discriminate H|].
  apply andb_true_iff in H. destruct H as [Hab Hs].
  rewrite Hab. simpl. apply IH. exact Hs.
Qed.

Lemma startswith_contains (p s : string) :
  Str.startswith s p = true -> Str.contains p s = true.
Proof.
  intros H. destruct s; cbn [Str.contains]; rewrite H; reflexivity.
Qed.

Lemma startswith_nil (s : string) : Str.startswith s "" = true.
Proof. destruct s; reflexivity. Qed.

Lemma startswith_rstrip (p : string) :
  no_space p ->
  forall s, Str.startswith s p = true -> Str.startswith (Str.rstrip s) p = true.
Proof.
  induction p as [|a p IH]; intros Hp s H; [apply startswith_nil|].
  destruct Hp as [Ha Hp].
  destruct s as [|b s]; simpl in H; [discriminate H|].
  apply andb_true_iff in H. destruct H as [Hab Hs].
  pose proof (IH Hp s Hs) as Hr.
  apply Ascii.eqb_eq in Hab. subst b. simpl.
  destruct (Str.rstrip s) as [|d u] eqn:E.
  - rewrite Ha. simpl. rewrite Ascii.eqb_refl. simpl.
    destruct p; [reflexivity | discriminate Hr].
  - simpl. rewrite Ascii.eqb_refl. simpl. exact Hr.
Qed.

(** A header that starts with "degradant_" keeps that prefix in clean
    form. *)
Lemma startswith_clean (col : string) :
  Str.startswith col "degradant_" = true ->
  Str.startswith (clean col) "degradant_" = true.
Proof.
  intros H. unfold clean, Str.strip. rewrite lower_smap.
  assert (Hh : head_ok col).
  { destruct col as [|c t]; cbn [Str.startswith] in H; [discriminate H|].
    apply andb_true_iff in H. destruct H as [Hc _].
    apply Ascii.eqb_eq in Hc. subst c. reflexivity. }
  rewrite (lstrip_head_ok col Hh).
  apply (startswith_smap Str.lower_char "degradant_").
  apply startswith_rstrip; [|exact H].
  simpl. repeat split; reflexivity.
Qed.

Lemma underscore_prefix (x : string) :
  Str.startswith (Str.replace_space x) "degradant_"
  = (Str.startswith x "degradant_" || Str.startswith x "degradant ").
Proof.
  do 9 (destruct x as [|c x]; [reflexivity|];
        cbn [Str.replace_space Str.startswith];
        destruct (Ascii.eqb c " ") eqn:Es;
        [apply Ascii.eqb_eq in Es; subst c; reflexivity|];
        match goal with
        | |- context [Ascii.eqb ?a c] =>
            destruct (Ascii.eqb a c); [|reflexivity]
        end;
        cbn [andb]; clear Es c).
  destruct x as [|c x]; [reflexivity|].
  cbn [Str.replace_space Str.startswith].
  rewrite !startswith_nil, !andb_true_r.
  destruct (Ascii.eqb c " ") eqn:Es.
  - apply Ascii.eqb_eq in Es. subst c. reflexivity.
  - rewrite (Ascii.eqb_sym " " c), Es, orb_false_r. reflexivity.
Qed.

(* ------------------------------------------------------------------ *)
(** ** More on column normalisation *)

Lemma renamed_clean (col : string) :
  renamed col
  = if Str.contains "degradant" (clean col)
    then Some (Str.replace_space (clean col))
    else match_alias (clean col) COLUMN_ALIASES.
Proof. reflexivity. Qed.

Lemma match_alias_in_table (x std : string) (table : list (string * list string)) :
  match_alias x table = Some std -> In std (map fst table).
Proof.
  induction table as [|[s al] table IH]; simpl; intros H; [discriminate H|].
  destruct (Str.mem x al).
  - injection H as ->. left. reflexivity.
  - right. apply IH. exact H.
Qed.

Lemma match_alias_none (x : string) (table : list (string * list string)) :
  (forall std aliases, In (std, aliases) table -> ~ In x aliases) ->
  match_alias x table = None.
Proof.
  induction table as [|[s al] table IH]; simpl; intros H; [reflexivity|].
  destruct (Str.mem x al) eqn:E.
  - apply mem_true_iff in E. exfalso.
    apply (H s al); [left; reflexivity | exact E].
  - apply IH. intros std aliases Hin. apply (H std aliases). right. exact Hin.
Qed.

(** The alias lists do not overlap and hold no degradant name. *)
Lemma match_alias_sound (x std : string) (aliases : list string) :
  In (std, aliases) COLUMN_ALIASES ->
  In x aliases ->
  match_alias x COLUMN_ALIASES = Some std /\
  Str.contains "degradant" x = false.
Proof.
  intros Ht Ha. unfold COLUMN_ALIASES in Ht. simpl in Ht.
  repeat (destruct Ht as [Ht|Ht];
          [injection Ht as <- <-; simpl in Ha;
           repeat (destruct Ha as [<-|Ha]; [split; reflexivity|]);
           destruct Ha|]).
  destruct Ht.
Qed.

Lemma canonical_name_idem (col : string) :
  canonical_name (canonical_name col) = canonical_name col.
Proof.
  pose proof (renamed_clean col) as R.
  destruct (Str.contains "degradant" (clean col)) eqn:Hc.
  - assert (E : canonical_name col = Str.replace_space (clean col)).
    { unfold canonical_name. rewrite R. reflexivity. }
    rewrite E. unfold canonical_name.
    rewrite renamed_clean, clean_replace_space.
    assert (H : Str.contains "degradant" (Str.replace_space (clean col)) = true).
    { rewrite replace_space_smap.
      apply (contains_smap underscore "degradant"). exact Hc. }
    rewrite H. rewrite !replace_space_smap.
    rewrite smap_smap_idem by exact underscore_idem. reflexivity.
  - destruct (match_alias (clean col) COLUMN_ALIASES) as [std|] eqn:Hm.
    + assert (E : canonical_name col = std).
      { unfold canonical_name. rewrite R. reflexivity. }
      rewrite E.
      apply match_alias_in_table in Hm. simpl in Hm.
      destruct Hm as [<-|[<-|[<-|[<-|[<-|[]]]]]]; reflexivity.
    + assert (E : canonical_name col = col).
      { unfold canonical_name. rewrite R. reflexivity. }
      rewrite E. exact E.
Qed.

(** X1. A column whose trimmed, lowercased name is in the alias list of a
    standard name is renamed to that standard name, at its position: the
    alias lists do not overlap and none of their entries is taken for a
    degradant. *)
Theorem alias_column_resolved (df : DataFrame) (i : nat)
  (col std : string) (aliases : list string) :
  nth_error (columns df) i = Some col ->
  In (std, aliases) COLUMN_ALIASES ->
  In (clean col) aliases ->
  nth_error (columns (normalize_columns df)) i = Some std.
Proof.
  intros Hcol Ht Ha.
  destruct (match_alias_sound _ _ _ Ht Ha) as [Hm Hc].
  rewrite normalize_columns_labels.
  rewrite (map_nth_error canonical_name i (columns df) Hcol).
  unfold canonical_name. rewrite renamed_clean, Hc, Hm. reflexivity.
Qed.

(** X2. A column whose trimmed, lowercased name contains no "degradant" and
    is in no alias list keeps its name exactly as written; normalisation
    changes neither the number of columns nor any row. *)
Theorem unmatched_column_kept (df : DataFrame) (i : nat) (col : string) :
  nth_error (columns df) i = Some col ->
  Str.contains "degradant" (clean col) = false ->
  (forall std aliases,
      In (std, aliases) COLUMN_ALIASES -> ~ In (clean col) aliases) ->
  nth_error (columns (normalize_columns df)) i = Some col /\
  List.length (columns (normalize_columns df)) = List.length (columns df) /\
  rows (normalize_columns df) = rows df.
Proof.
  intros Hcol Hc Hal. rewrite normalize_columns_labels. split; [|split].
  - rewrite (map_nth_error canonical_name i (columns df) Hcol).
    unfold canonical_name.
    rewrite renamed_clean, Hc, (match_alias_none _ _ Hal). reflexivity.
  - apply length_map.
  - reflexivity.
Qed.

(** X3. Normalising twice is the same as normalising once. *)
Theorem normalize_columns_idempotent (df : DataFrame) :
  normalize_columns (normalize_columns df) = normalize_columns df.
Proof.
  assert (E : forall d, normalize_columns d
                        = mkDF (map canonical_name (columns d)) (rows d)).
  { intros d. pose proof (normalize_columns_labels d) as H.
    unfold normalize_columns, rename in *. simpl in *. rewrite H.
    reflexivity. }
  rewrite (E (normalize_columns df)), (E df). simpl.
  rewrite map_map. f_equal.
  apply map_ext. intros c. apply canonical_name_idem.
Qed.

Lemma canonical_name_prefix (col : string) :
  Str.startswith (canonical_name col) "degradant_" = true ->
  canonical_name col = Str.replace_space (clean col) /\
  (Str.startswith (clean col) "degradant_" = true
   \/ Str.startswith (clean col) "degradant " = true).
Proof.
  unfold canonical_name. rewrite renamed_clean.
  destruct (Str.contains "degradant" (clean col)) eqn:Hc.
  - rewrite underscore_prefix. intros H. split; [reflexivity|].
    apply orb_true_iff. exact H.
  - destruct (match_alias (clean col) COLUMN_ALIASES) as [std|] eqn:Hm.
    + apply match_alias_in_table in Hm. simpl in Hm.
      destruct Hm as [<-|[<-|[<-|[<-|[<-|[]]]]]]; discriminate.
    + intros H. apply startswith_clean in H.
      apply (startswith_app "degradant" "_") in H.
      apply startswith_contains in H. congruence.
Qed.

(** X4. The detected degradant columns are exactly the renamed forms of the
    headers whose trimmed, lowercased name starts with "degradant" followed
    by an underscore or a space. *)
Theorem detected_degradant_headers (df : DataFrame) (new : string) :
  In new (detect_degradant_columns (normalize_columns df)) <->
  exists col,
    In col (columns df) /\
    new = Str.replace_space (clean col) /\
    (Str.startswith (clean col) "degradant_" = true
     \/ Str.startswith (clean col) "degradant " = true).
Proof.
  unfold detect_degradant_columns.
  rewrite filter_In, normalize_columns_labels, in_map_iff. split.
  - intros [[col [<- Hin]] Hp].
    destruct (canonical_name_prefix col Hp) as [Hn Hor].
    exists col. split; [exact Hin|]. split; assumption.
  - intros [col [Hin [-> Hor]]].
    assert (Hc : Str.contains "degradant" (clean col) = true).
    { apply startswith_contains.
      destruct Hor as [H|H].
      - apply (startswith_app "degradant" "_"). exact H.
      - apply (startswith_app "degradant" " "). exact H. }
    split.
    + exists col. split; [|exact Hin].
      unfold canonical_name. rewrite renamed_clean, Hc. reflexivity.
    + rewrite underscore_prefix. apply orb_true_iff. exact Hor.
Qed.

(* ------------------------------------------------------------------ *)
(** ** app.py: the interpretation columns and the result table *)

Lemma in_fold_set_label (ls : list string) :
  forall cols c,
    In c (fold_left set_label ls cols) <-> In c cols \/ In c ls.
Proof.
  induction ls as [|l ls IH]; intros cols c; simpl.
  - tauto.
  - rewrite IH, set_label_app, in_app_iff.
    destruct (Str.mem l cols) eqn:E; simpl.
    + apply mem_true_iff in E. split; [tauto|].
      intros [H|[<-|H]]; auto.
    + split; [intros [[H|[H|[]]]|H]; auto | intros [H|[H|H]]; auto].
Qed.

Lemma mapM_length {A B : Type} (f : A -> result B) (l : list A) :
  forall bs, mapM f l = Ok bs -> List.length bs = List.length l.
Proof.
  induction l as [|a l IH]; simpl; intros bs H.
  - injection H as <-. reflexivity.
  - destruct (f a); simpl in H; [|discriminate H].
    destruct (mapM f l) as [bs'|]; simpl in H; [|discriminate H].
    injection H as <-. simpl. rewrite (IH bs' eq_refl). reflexivity.
Qed.

Lemma assign_cells_other (i j : nat) (rs : list row) (vs : list value) :
  i <> j ->
  map (fun r => cell j (snd r)) (assign_cells i rs vs)
  = map (fun r => cell j (snd r)) rs.
Proof.
  intros Hne. revert vs. induction rs as [|r rs IH]; intros vs; simpl;
    [reflexivity|].
  destruct vs as [|v vs]; simpl; rewrite IH,
    (cell_set_cell_other i j _ (snd r) Hne); reflexivity.
Qed.

Lemma assign_cells_same (i : nat) (rs : list row) (vs : list value) :
  List.length vs = List.length rs ->
  map (fun r => cell i (snd r)) (assign_cells i rs vs) = vs.
Proof.
  revert vs. induction rs as [|r rs IH]; intros [|v vs] H; simpl in *;
    try reflexivity; try discriminate H.
  rewrite cell_set_cell_same, IH by congruence. reflexivity.
Qed.

Lemma df_set_length (df : DataFrame) (c : string) (s : list value) :
  List.length (rows (df_set df c s)) = List.length (rows df).
Proof.
  transitivity (List.length (map fst (rows (df_set df c s))));
    [symmetry; apply length_map|].
  rewrite df_set_index. apply length_map.
Qed.

(** Reading back the column just assigned. *)
Lemma df_get_df_set_same (df : DataFrame) (c : string) (s : list value) :
  List.length s = List.length (rows df) ->
  df_get (df_set df c s) c = Ok s.
Proof.
  intros H. unfold df_get. rewrite df_set_columns_any.
  rewrite col_pos_set_label_same. f_equal.
  unfold df_set, set_pos. destruct (col_pos c (columns df)); simpl;
    apply assign_cells_same; exact H.
Qed.

(** Reading another column after an assignment. *)
Lemma df_get_df_set_other (df : DataFrame) (c c' : string) (s : list value) :
  c' <> c -> df_get (df_set df c s) c' = df_get df c'.
Proof.
  intros Hne. unfold df_get. rewrite df_set_columns_any.
  rewrite col_pos_set_label_other by exact Hne.
  destruct (col_pos c' (columns df)) as [j|] eqn:Ej; [|reflexivity].
  f_equal.
  assert (Hrows : rows (df_set df c s)
                  = assign_cells (set_pos (columns df) c) (rows df) s).
  { unfold df_set, set_pos. destruct (col_pos c (columns df)); reflexivity. }
  rewrite Hrows. apply assign_cells_other.
  eapply set_pos_fresh; eassumption.
Qed.

(** A function of the cells that ignores the assigned label sees the same
    rows after the assignment. *)
Lemma mapM_rows_df_set {B : Type}
  (F : list string -> list value -> result B)
  (df : DataFrame) (c : string) (s : list value) :
  (forall v r, F (set_label (columns df) c) (upd (columns df) c v r)
               = F (columns df) r) ->
  mapM (fun r => F (columns (df_set df c s)) (snd r)) (rows (df_set df c s))
  = mapM (fun r => F (columns df) (snd r)) (rows df).
Proof.
  intros HF. rewrite df_set_columns_any.
  assert (Hrows : rows (df_set df c s)
                  = assign_cells (set_pos (columns df) c) (rows df) s).
  { unfold df_set, set_pos. destruct (col_pos c (columns df)); reflexivity. }
  rewrite Hrows. clear Hrows. revert s.
  induction (rows df) as [|r rs IH]; intros s; simpl; [reflexivity|].
  destruct s as [|v s]; simpl; rewrite IH;
    change (set_cell (set_pos (columns df) c) ?v (snd r))
      with (upd (columns df) c v (snd r));
    rewrite HF; reflexivity.
Qed.

Lemma zone_of_row_upd (cols : list string) (c : string) (v : value)
  (r : list value) :
  c <> "AMB" -> c <> "RMB" -> c <> "Z_MB" ->
  zone_of_row (set_label cols c) (upd cols c v r) = zone_of_row cols r.
Proof.
  intros H1 H2 H3. unfold zone_of_row.
  rewrite !row_get_upd_other by congruence. reflexivity.
Qed.

Lemma interpret_z_mb_float (x : pyfloat) :
  exists label advice, interpret_z_mb (VFloat x) = Ok (label, advice).
Proof.
  unfold interpret_z_mb. simpl.
  destruct (Float.le (Float.abs x) (Fin 2)); [do 2 eexists; reflexivity|].
  destruct (Float.lt x (Fin (-2))); do 2 eexists; reflexivity.
Qed.

Lemma z_mb_interpretations_ok (parse_number : string -> pyfloat)
  (df_raw out : DataFrame) (issues : list (nat * string)) :
  preprocess_input parse_number df_raw = Ok (out, issues) ->
  exists s,
    z_mb_interpretations out = Ok s /\
    List.length s = List.length (rows out).
Proof.
  intros H.
  destruct (preprocess_input_trace _ _ _ _ H) as (_ & _ & Hcols & _ & _).
  apply preprocess_input_ok_inv in H. destruct H as (_ & _ & HF).
  assert (Hin : In "Z_MB" (columns out)).
  { rewrite Hcols. apply in_fold_set_label. right. simpl. auto 7. }
  destruct (df_get_rows out "Z_MB" Hin) as [g [Hget Hg]].
  unfold z_mb_interpretations. rewrite Hget. cbn [bind].
  set (h := fun r : row =>
              match interpret_z_mb (g (snd r)) with
              | Ok p => VStr (fst p)
              | Raise _ => VNone
              end).
  exists (map h (rows out)). split; [|apply length_map].
  rewrite mapM_map. apply mapM_pointwise.
  eapply Forall_impl; [|exact HF].
  intros r (a & ds & rmb & _ & _ & _ & _ & _ & _ & _ & _ & _ & Hz).
  rewrite Hg in Hz. injection Hz as Hz. unfold h. rewrite Hz.
  match goal with
  | |- context [interpret_z_mb (VFloat ?x)] =>
      destruct (interpret_z_mb_float x) as [l [ad ->]]
  end.
  reflexivity.
Qed.

Lemma recommended_action_labels (amb rmb z_mb : value) (label : string) :
  diagnostic_zone amb rmb z_mb = Ok label ->
  In label [ZONE_1; ZONE_2; ZONE_3_PHYSICAL; ZONE_4; ZONE_3_DEFAULT] /\
  recommended_action label <> "Expert review required".
Proof.
  intros H. apply diagnostic_zone_labels in H. split; [exact H|].
  simpl in H. destruct H as [<-|[<-|[<-|[<-|[<-|[]]]]]]; discriminate.
Qed.

Lemma mapM_action_of_cell (zones : list string) :
  mapM action_of_cell (map VStr zones)
  = Ok (map (fun z => VStr (recommended_action z)) zones).
Proof.
  rewrite mapM_map. apply mapM_pointwise. apply Forall_forall.
  intros z _. reflexivity.
Qed.

(** X15. On a table returned by the pipeline the interpretation block of
    the dashboard fails exactly when the zone classification fails, with the
    same exception; when classification returns the zones, the block
    returns a table whose "Diagnostic Zone" column holds them and whose
    "Recommended Action" column holds the action of each, none of which is
    "Expert review required". *)
Theorem interpretation_columns_follow_zones (parse_number : string -> pyfloat)
  (df_raw out : DataFrame) (issues : list (nat * string)) :
  preprocess_input parse_number df_raw = Ok (out, issues) ->
  (forall e, diagnostic_zones out = Raise e ->
             interpretation_columns out = Raise e) /\
  (forall zones,
      diagnostic_zones out = Ok zones ->
      exists df,
        interpretation_columns out = Ok df /\
        df_get df "Diagnostic Zone" = Ok (map VStr zones) /\
        df_get df "Recommended Action"
        = Ok (map (fun z => VStr (recommended_action z)) zones) /\
        Forall (fun z => recommended_action z <> "Expert review required")
               zones).
Proof.
  intros H.
  destruct (z_mb_interpretations_ok _ _ _ _ H) as [s [Hs Hlen]].
  assert (Hz : diagnostic_zones (df_set out "Z_MB Interpretation" s)
               = diagnostic_zones out).
  { unfold diagnostic_zones.
    apply (mapM_rows_df_set zone_of_row out "Z_MB Interpretation" s).
    intros v r. apply zone_of_row_upd; discriminate. }
  unfold interpretation_columns. rewrite Hs. cbn [bind]. rewrite Hz.
  split.
  - intros e He. rewrite He. reflexivity.
  - intros zones Hzones. rewrite Hzones. cbn [bind].
    assert (Hl : List.length (map VStr zones)
                 = List.length
                     (rows (df_set out "Z_MB Interpretation" s))).
    { rewrite length_map, df_set_length.
      unfold diagnostic_zones in Hzones.
      apply (mapM_length _ _ _ Hzones). }
    rewrite (df_get_df_set_same _ "Diagnostic Zone" _ Hl). cbn [bind].
    rewrite mapM_action_of_cell. cbn [bind].
    eexists. split; [reflexivity|]. split; [|split].
    + rewrite df_get_df_set_other by discriminate.
      apply df_get_df_set_same. exact Hl.
    + apply df_get_df_set_same.
      rewrite length_map, !df_set_length.
      unfold diagnostic_zones in Hzones.
      apply (mapM_length _ _ _ Hzones).
    + unfold diagnostic_zones in Hzones.
      eapply mapM_ok_forall; [exact Hzones|].
      intros r z _ Hr. unfold zone_of_row in Hr.
      repeat step_result Hr.
      destruct (recommended_action_labels _ _ _ _ Hr) as [_ Hne]. exact Hne.
Qed.

Lemma interpretation_columns_shape (out df : DataFrame) :
  interpretation_columns out = Ok df ->
  columns df
  = fold_left set_label
      ["Z_MB Interpretation"; "Diagnostic Zone"; "Recommended Action"]
      (columns out) /\
  map fst (rows df) = map fst (rows out).
Proof.
  unfold interpretation_columns. intros H.
  repeat bind_inv H. injection H as <-.
  split.
  - rewrite !df_set_columns_any. reflexivity.
  - rewrite !df_set_index. reflexivity.
Qed.

Lemma all_pos_length (c : string) (cols : list string) :
  List.length (all_pos c cols) = label_count c cols.
Proof.
  unfold label_count. induction cols as [|c' cols IH]; simpl; [reflexivity|].
  destruct (String.eqb c c'); simpl; rewrite length_map; rewrite IH;
    reflexivity.
Qed.

Lemma label_count_present (c : string) (cols : list string) :
  In c cols -> 1 <= label_count c cols.
Proof.
  unfold label_count. induction cols as [|c' cols IH]; intros H.
  - destruct H.
  - simpl. destruct (String.eqb c c') eqn:E; simpl; [lia|].
    destruct H as [H|H]; [|apply IH; exact H].
    apply String.eqb_neq in E. congruence.
Qed.

Lemma select_label_absent (cols : list string) (c : string) :
  ~ In c cols -> select_label cols c = Raise (KeyError c).
Proof.
  intros H. unfold select_label.
  pose proof (all_pos_length c cols) as Hl.
  rewrite (label_count_absent c cols H) in Hl.
  destruct (all_pos c cols); [reflexivity | discriminate Hl].
Qed.

Lemma select_label_present (cols : list string) (c : string) :
  In c cols -> exists sel, select_label cols c = Ok sel.
Proof.
  intros H. unfold select_label.
  pose proof (all_pos_length c cols) as Hl.
  pose proof (label_count_present c cols H) as Hp.
  destruct (all_pos c cols); [simpl in Hl; lia|].
  eexists. reflexivity.
Qed.

Lemma select_label_unique (cols : list string) (c : string) :
  NoDup cols -> In c cols -> exists i, select_label cols c = Ok [(c, i)].
Proof.
  intros Hn H. unfold select_label.
  pose proof (all_pos_length c cols) as Hl.
  pose proof (label_count_present c cols H) as Hp.
  pose proof (label_count_NoDup c cols Hn) as Hu.
  destruct (all_pos c cols) as [|i [|j ps]]; simpl in Hl; try lia.
  exists i. reflexivity.
Qed.

Lemma mapM_select_unique (cols cs : list string) :
  NoDup cols ->
  (forall c, In c cs -> In c cols) ->
  exists sel,
    mapM (select_label cols) cs = Ok sel /\
    map fst (List.concat sel) = cs.
Proof.
  intros Hn. induction cs as [|c cs IH]; intros Hin.
  - exists []. split; reflexivity.
  - destruct IH as [sel [Hsel Hfst]].
    { intros c' Hc'. apply Hin. right. exact Hc'. }
    destruct (select_label_unique cols c Hn) as [i Hi].
    { apply Hin. left. reflexivity. }
    exists ([(c, i)] :: sel). cbn [mapM]. rewrite Hi. cbn [bind].
    rewrite Hsel. cbn [bind]. split; [reflexivity|].
    simpl. rewrite Hfst. reflexivity.
Qed.

Lemma set_label_NoDup (cols : list string) (c : string) :
  NoDup cols -> NoDup (set_label cols c).
Proof.
  intros Hn. unfold set_label.
  destruct (col_pos c cols) as [i|] eqn:E; [exact Hn|].
  assert (Hc : ~ In c cols).
  { intros Hin. destruct (col_pos_in _ _ Hin) as [i Hi]. congruence. }
  clear E. induction Hn as [|a l Ha _ IH]; simpl.
  - constructor; [intros []|constructor].
  - constructor.
    + rewrite in_app_iff. intros [H|[H|[]]]; [contradiction|].
      apply Hc. left. symmetry. exact H.
    + apply IH. intros H. apply Hc. right. exact H.
Qed.

Lemma fold_set_label_NoDup (cs cols : list string) :
  NoDup cols -> NoDup (fold_left set_label cs cols).
Proof.
  revert cols. induction cs as [|c cs IH]; intros cols Hn; simpl.
  - exact Hn.
  - apply IH. apply set_label_NoDup. exact Hn.
Qed.

(** X16. The result table of the dashboard selects [api_name] and
    [api_code], which the pipeline does not require: after a successful
    pipeline run and classification, building the table raises [KeyError]
    when the input had no column resolving to [api_name], or none resolving
    to [api_code]; when both are there and the normalised labels are
    pairwise distinct it returns the fourteen display columns over the same
    rows. *)
Theorem result_table_needs_api_columns (parse_number : string -> pyfloat)
  (df_raw out df : DataFrame) (issues : list (nat * string)) :
  preprocess_input parse_number df_raw = Ok (out, issues) ->
  interpretation_columns out = Ok df ->
  (~ In "api_name" (columns (normalize_columns df_raw)) ->
   result_table df = Raise (KeyError "api_name")) /\
  (In "api_name" (columns (normalize_columns df_raw)) ->
   ~ In "api_code" (columns (normalize_columns df_raw)) ->
   result_table df = Raise (KeyError "api_code")) /\
  (NoDup (columns (normalize_columns df_raw)) ->
   In "api_name" (columns (normalize_columns df_raw)) ->
   In "api_code" (columns (normalize_columns df_raw)) ->
   exists t,
     result_table df = Ok t /\
     columns t
     = ["API Name"; "API Code"; "Stress Type"; "Time (Months)";
        "API Assay (%)"; "Total Degradants (%)"; "AMB"; "AMBD"; "RMB";
        "RMBD"; "Z_MB"; "Z_MB Interpretation"; "Diagnostic Zone";
        "Recommended Action"] /\
     map fst (rows t) = map fst (rows out)).
Proof.
  intros H Hdf.
  destruct (preprocess_input_trace _ _ _ _ H) as (_ & _ & Hcols & _ & _).
  apply preprocess_input_ok_inv in H. destruct H as (Hm & _ & _).
  destruct (missing_required_nil _ Hm) as (Hassay & Hstress & Htime).
  destruct (interpretation_columns_shape _ _ Hdf) as [Hc Hi].
  assert (Hin : forall c,
             In c (columns df) <->
             In c (columns (normalize_columns df_raw))
             \/ In c DERIVED_COLUMNS
             \/ In c ["Z_MB Interpretation"; "Diagnostic Zone";
                      "Recommended Action"]).
  { intros c. rewrite Hc, in_fold_set_label, Hcols, in_fold_set_label.
    tauto. }
  assert (Hout : forall c,
             ~ In c (columns (normalize_columns df_raw)) ->
             c = "api_name" \/ c = "api_code" ->
             ~ In c (columns df)).
  { intros c Hn Hc'. rewrite Hin.
    intros [Hx|[Hx|Hx]]; [contradiction| |];
      simpl in Hx; destruct Hc' as [-> | ->];
      repeat (destruct Hx as [Hx|Hx]; [discriminate Hx|]); exact Hx. }
  unfold result_table, df_select, RESULT_COLUMNS.
  split; [|split].
  - intros Hn. cbn [mapM].
    rewrite (select_label_absent _ _ (Hout _ Hn (or_introl eq_refl))).
    reflexivity.
  - intros Hy Hn. cbn [mapM].
    destruct (select_label_present (columns df) "api_name") as [sel Hsel].
    { apply Hin. left. exact Hy. }
    rewrite Hsel. cbn [bind].
    rewrite (select_label_absent _ _ (Hout _ Hn (or_intror eq_refl))).
    reflexivity.
  - intros Hdistinct Hn Hcode.
    destruct (mapM_select_unique (columns df)
                ["api_name"; "api_code"; "stress_type"; "time_months";
                 "api_assay"; "total_degradants"; "AMB"; "AMBD"; "RMB";
                 "RMBD"; "Z_MB"; "Z_MB Interpretation"; "Diagnostic Zone";
                 "Recommended Action"])
      as [sel [Hsel Hfst]].
    { rewrite Hc, Hcols. apply fold_set_label_NoDup, fold_set_label_NoDup.
      exact Hdistinct. }
    { intros c Hc'. apply Hin. simpl in Hc'. unfold DERIVED_COLUMNS. simpl.
      repeat (destruct Hc' as [<-|Hc']; [tauto|]). destruct Hc'. }
    rewrite Hsel. cbn [bind]. eexists. split; [reflexivity|].
    split.
    + unfold rename. cbn [columns]. rewrite Hfst. reflexivity.
    + unfold rename. cbn [rows]. rewrite map_map. simpl. exact Hi.
Qed.

(** Headers "API" and "API Name" both become [api_name]: the selection keeps
    both columns, and the result table has fifteen of them. *)
Lemma repeated_api_label_selected_twice :
  exists out issues df t,
    preprocess_input no_number repeated_api_table = Ok (out, issues) /\
    interpretation_columns out = Ok df /\
    result_table df = Ok t /\
    columns t
    = ["API Name"; "API Name"; "API Code"; "Stress Type"; "Time (Months)";
       "API Assay (%)"; "Total Degradants (%)"; "AMB"; "AMBD"; "RMB";
       "RMBD"; "Z_MB"; "Z_MB Interpretation"; "Diagnostic Zone";
       "Recommended Action"].
Proof.
  do 4 eexists. split; [vm_compute; reflexivity|].
  split; [vm_compute; reflexivity|].
  split; vm_compute; reflexivity.
Qed.

(* ------------------------------------------------------------------ *)
(** ** app.py: the share of rows within analytical variability *)

Lemma filter_map_length {A : Type} (f : A -> bool) (l : list A) :
  List.length (filter (fun b : bool => b) (map f l))
  = List.length (filter f l).
Proof.
  induction l as [|a l IH]; simpl; [reflexivity|].
  destruct (f a); simpl; rewrite IH; reflexivity.
Qed.

Lemma zone_of_row_within (cols : list string) (r : list value) (i : nat)
  (label : string) :
  col_pos "Z_MB" cols = Some i ->
  zone_of_row cols r = Ok label ->
  exists x,
    cell i r = VFloat x /\
    String.eqb ZONE_1 label = Float.le (Float.abs x) (Fin 2).
Proof.
  intros Hi H. unfold zone_of_row in H.
  bind_inv H. bind_inv H.
  unfold row_get at 1 in H. rewrite Hi in H. cbn [bind] in H.
  destruct (cell i r) as [|y|s] eqn:Ec; try discriminate H.
  exists y. split; [reflexivity|].
  destruct (Float.le (Float.abs y) (Fin 2)) eqn:Ey.
  - apply (diagnostic_zone_zone1_iff x x0 y) in Ey.
    rewrite Ey in H. injection H as <-. apply String.eqb_refl.
  - apply String.eqb_neq. intros <-.
    apply diagnostic_zone_zone1_iff in H. congruence.
Qed.

Lemma within_flags (cols : list string) (i : nat) (rs : list row) :
  col_pos "Z_MB" cols = Some i ->
  forall zones,
    mapM (fun r => zone_of_row cols (snd r)) rs = Ok zones ->
    mapM (fun v => x <- series_operand v ;;
                   Ok (Float.le (Float.abs x) (Fin 2)))
         (map (fun r => cell i (snd r)) rs)
    = Ok (map (String.eqb ZONE_1) zones).
Proof.
  intros Hi. induction rs as [|r rs IH]; intros zones H; simpl in H.
  - injection H as <-. reflexivity.
  - destruct (zone_of_row cols (snd r)) as [z|] eqn:Ez; simpl in H;
      [|discriminate H].
    destruct (mapM (fun r => zone_of_row cols (snd r)) rs) as [zs|] eqn:Ezs;
      simpl in H; [|discriminate H].
    injection H as <-.
    destruct (zone_of_row_within _ _ _ _ Hi Ez) as [x [Hc Hb]].
    cbn [map mapM]. rewrite Hc. cbn [series_operand bind].
    rewrite (IH zs eq_refl). cbn [bind]. rewrite Hb. reflexivity.
Qed.

Lemma share_in_range (k n : nat) :
  (k <= S n)%nat ->
  (0 <= inject_Z (Z.of_nat k) / inject_Z (Z.of_nat (S n)) * 100 /\
   inject_Z (Z.of_nat k) / inject_Z (Z.of_nat (S n)) * 100 <= 100)%Q.
Proof.
  intros Hk.
  assert (Hn : (0 < inject_Z (Z.of_nat (S n)))%Q).
  { change 0%Q with (inject_Z 0). rewrite <- Zlt_Qlt. lia. }
  assert (H0 : (0 <= inject_Z (Z.of_nat k))%Q).
  { change 0%Q with (inject_Z 0). rewrite <- Zle_Qle. lia. }
  assert (H1 : (inject_Z (Z.of_nat k) <= inject_Z (Z.of_nat (S n)))%Q).
  { rewrite <- Zle_Qle. lia. }
  assert (Hlo : (0 <= inject_Z (Z.of_nat k) / inject_Z (Z.of_nat (S n)))%Q).
  { apply Qle_shift_div_l; [exact Hn|]. rewrite Qmult_0_l. exact H0. }
  assert (Hhi : (inject_Z (Z.of_nat k) / inject_Z (Z.of_nat (S n)) <= 1)%Q).
  { apply Qle_shift_div_r; [exact Hn|]. rewrite Qmult_1_l. exact H1. }
  split; lra.
Qed.

(** X17. On a table with at least one row that the classifier accepts, the
    share shown as "Results Within Analytical Variability" is the percentage
    of rows classified Zone 1, a number between 0 and 100. *)
Theorem false_positive_rate_is_zone1_share (df : DataFrame)
  (zones : list string) :
  diagnostic_zones df = Ok zones ->
  rows df <> [] ->
  exists q,
    false_positive_rate df = Ok (Fin q) /\
    q = (inject_Z (Z.of_nat (List.length (filter (String.eqb ZONE_1) zones)))
         / inject_Z (Z.of_nat (List.length zones)) * 100)%Q /\
    (0 <= q /\ q <= 100)%Q.
Proof.
  intros Hz Hne. unfold diagnostic_zones in Hz.
  pose proof (mapM_length _ _ _ Hz) as Hlen.
  destruct (col_pos "Z_MB" (columns df)) as [i|] eqn:Hi.
  2: { destruct (rows df) as [|r rs]; [congruence|].
       cbn [mapM] in Hz. bind_inv Hz. clear Hz.
       unfold zone_of_row in E. bind_inv E. bind_inv E.
       unfold row_get at 1 in E. rewrite Hi in E. discriminate E. }
  pose proof (within_flags _ _ _ Hi _ Hz) as Hflags.
  unfold false_positive_rate, df_get. rewrite Hi. cbn [bind].
  unfold count_within. rewrite Hflags. cbn [bind].
  rewrite filter_map_length.
  assert (Hlen' : List.length (rows df) = List.length zones)
    by (symmetry; exact Hlen).
  rewrite Hlen'.
  destruct (List.length zones) as [|n] eqn:En.
  { destruct (rows df); [congruence | discriminate Hlen']. }
  eexists. split; [reflexivity|]. split; [reflexivity|].
  apply share_in_range.
  rewrite <- En. apply filter_length_le.
Qed.

(* ------------------------------------------------------------------ *)
(** ** Instances of the further properties *)

Lemma alias_column_resolved_witness :
  nth_error (columns mixed_table) 0 = Some " API Assay " /\
  nth_error (columns (normalize_columns mixed_table)) 0 = Some "api_assay".
Proof.
  split; [reflexivity|].
  apply (alias_column_resolved mixed_table 0 " API Assay " "api_assay"
           ["api assay"; "api_assay"; "api_assay_percent";
            "api assay percent"; "assay"; "assay_percent"]).
  - reflexivity.
  - simpl. auto 6.
  - left. reflexivity.
Defined.

Lemma unmatched_column_kept_witness :
  nth_error (columns (normalize_columns gaps_table)) 0 = Some "Batch" /\
  List.length (columns (normalize_columns gaps_table))
  = List.length (columns gaps_table) /\
  rows (normalize_columns gaps_table) = rows gaps_table.
Proof.
  apply (unmatched_column_kept gaps_table 0 "Batch").
  - reflexivity.
  - reflexivity.
  - intros std aliases Ht Ha. unfold COLUMN_ALIASES in Ht. simpl in Ht.
    repeat (destruct Ht as [Ht|Ht];
            [injection Ht as <- <-; simpl in Ha;
             repeat (destruct Ha as [Ha|Ha]; [discriminate Ha|]);
             exact Ha|]).
    exact Ht.
Defined.

Lemma preprocess_input_dense_index_witness :
  exists out issues,
    preprocess_input no_number mixed_table = Ok (out, issues) /\
    map fst (rows out) = seq 0 (List.length (rows out)) /\
    (List.length (rows out) <= List.length (rows mixed_table))%nat /\
    (forall idx text,
        In (idx, text) issues -> (idx < List.length (rows out))%nat) /\
    (List.length issues <= List.length (rows out))%nat.
Proof.
  do 2 eexists. split; [vm_compute; reflexivity|].
  eapply (preprocess_input_dense_index no_number mixed_table).
  vm_compute. reflexivity.
Defined.

Lemma preprocess_input_columns_witness :
  exists out issues,
    preprocess_input no_number mixed_table = Ok (out, issues) /\
    columns out
    = (columns (normalize_columns mixed_table)
       ++ filter (fun c => negb (Str.mem c (columns
                                              (normalize_columns mixed_table))))
                 DERIVED_COLUMNS)%list.
Proof.
  do 2 eexists. split; [vm_compute; reflexivity|].
  eapply (preprocess_input_columns no_number mixed_table).
  vm_compute. reflexivity.
Defined.

Lemma standalone_metrics_match_pipeline_witness :
  exists out issues,
    preprocess_input no_number mixed_table = Ok (out, issues) /\
    forall r,
      In r (rows out) ->
      exists a t amb ambd rmb z,
        row_get (columns out) (snd r) "api_assay" = Ok (VFloat a) /\
        row_get (columns out) (snd r) "total_degradants"
        = Ok (VFloat (Fin t)) /\
        row_get (columns out) (snd r) "AMB" = Ok (VFloat amb) /\
        row_get (columns out) (snd r) "AMBD" = Ok (VFloat ambd) /\
        row_get (columns out) (snd r) "RMB" = Ok rmb /\
        row_get (columns out) (snd r) "Z_MB" = Ok (VFloat z) /\
        calculate_amb a (Fin t) = amb /\
        ambd = Float.sub amb (Fin 100) /\
        calculate_ambd amb = Float.abs ambd /\
        calculate_z_mb amb (Fin COMBINED_UNCERTAINTY) = Ok z /\
        calculate_rmb a (Fin t) = Ok (operand rmb).
Proof.
  do 2 eexists. split; [vm_compute; reflexivity|].
  eapply (standalone_metrics_match_pipeline no_number mixed_table).
  vm_compute. reflexivity.
Defined.

Lemma pipeline_zone1_band_witness :
  exists out issues,
    preprocess_input no_number gaps_table = Ok (out, issues) /\
    forall r q,
      In r (rows out) ->
      row_get (columns out) (snd r) "AMB" = Ok (VFloat (Fin q)) ->
      (zone_of_row (columns out) (snd r) = Ok ZONE_1
       <-> (95 <= q /\ q <= 105)%Q).
Proof.
  do 2 eexists. split; [vm_compute; reflexivity|].
  eapply (pipeline_zone1_band no_number gaps_table).
  vm_compute. reflexivity.
Defined.

Lemma missing_assay_is_reported_witness :
  exists out issues r text,
    preprocess_input no_number gaps_table = Ok (out, issues) /\
    nth_error (rows out) 1 = Some r /\
    row_get (columns out) (snd r) "api_assay" = Ok (VFloat NaN) /\
    In (fst r, text) issues /\
    Str.startswith text "API assay out of range" = true /\
    Str.contains "Suspicious mass loss" text = false.
Proof.
  destruct (preprocess_input no_number gaps_table)
    as [[out issues]|] eqn:E; [|vm_compute in E; discriminate E].
  pose proof (missing_assay_is_reported no_number gaps_table out issues E)
    as H.
  vm_compute in E. injection E as <- <-.
  match type of H with
  | forall r, In r (rows ?o) -> _ =>
      destruct (nth_error (rows o) 1) as [r|] eqn:Er;
      [|vm_compute in Er; discriminate Er]
  end.
  vm_compute in Er. injection Er as <-.
  edestruct H as [text [Hin [Hs Hc]]].
  - simpl. right. left. reflexivity.
  - reflexivity.
  - do 3 eexists. exists text. split; [reflexivity|].
    split; [reflexivity|]. split; [reflexivity|].
    split; [exact Hin|]. split; assumption.
Defined.

Lemma interpretation_columns_follow_zones_witness :
  exists out issues,
    preprocess_input no_number mixed_table = Ok (out, issues) /\
    (forall e, diagnostic_zones out = Raise e ->
               interpretation_columns out = Raise e) /\
    (forall zones,
        diagnostic_zones out = Ok zones ->
        exists df,
          interpretation_columns out = Ok df /\
          df_get df "Diagnostic Zone" = Ok (map VStr zones) /\
          df_get df "Recommended Action"
          = Ok (map (fun z => VStr (recommended_action z)) zones) /\
          Forall (fun z => recommended_action z <> "Expert review required")
                 zones).
Proof.
  do 2 eexists. split; [vm_compute; reflexivity|].
  eapply (interpretation_columns_follow_zones no_number mixed_table).
  vm_compute. reflexivity.
Defined.

Lemma result_table_needs_api_columns_witness :
  (exists out issues df,
      preprocess_input no_number mixed_table = Ok (out, issues) /\
      interpretation_columns out = Ok df /\
      In "api_name" (columns (normalize_columns mixed_table)) /\
      ~ In "api_code" (columns (normalize_columns mixed_table)) /\
      result_table df = Raise (KeyError "api_code")) /\
  (exists out issues df t,
      preprocess_input no_number full_table = Ok (out, issues) /\
      interpretation_columns out = Ok df /\
      NoDup (columns (normalize_columns full_table)) /\
      result_table df = Ok t /\
      List.length (columns t) = 14 /\
      map fst (rows t) = map fst (rows out)).
Proof.
  split.
  - assert (Hn : In "api_name" (columns (normalize_columns mixed_table)))
      by (vm_compute; auto 7).
    assert (Hc : ~ In "api_code" (columns (normalize_columns mixed_table))).
    { vm_compute. intros H.
      repeat (destruct H as [H|H]; [discriminate H|]). exact H. }
    destruct (preprocess_input no_number mixed_table)
      as [[out issues]|] eqn:E; [|vm_compute in E; discriminate E].
    destruct (interpretation_columns out) as [df|] eqn:E2.
    2: { exfalso. vm_compute in E. injection E as <- <-.
         vm_compute in E2. discriminate E2. }
    exists out, issues, df.
    split; [reflexivity|]. split; [exact E2|].
    split; [exact Hn|]. split; [exact Hc|].
    exact (proj1 (proj2 (result_table_needs_api_columns
                           no_number mixed_table out df issues E E2)) Hn Hc).
  - assert (Hd : NoDup (columns (normalize_columns full_table)))
      by (apply distinct_NoDup; reflexivity).
    assert (Hn : In "api_name" (columns (normalize_columns full_table)))
      by (vm_compute; auto 7).
    assert (Hc : In "api_code" (columns (normalize_columns full_table)))
      by (vm_compute; auto 7).
    destruct (preprocess_input no_number full_table)
      as [[out issues]|] eqn:E; [|vm_compute in E; discriminate E].
    destruct (interpretation_columns out) as [df|] eqn:E2.
    2: { exfalso. vm_compute in E. injection E as <- <-.
         vm_compute in E2. discriminate E2. }
    destruct (proj2 (proj2 (result_table_needs_api_columns
                              no_number full_table out df issues E E2))
                Hd Hn Hc) as (t & Ht & Hcols & Hidx).
    exists out, issues, df, t.
    split; [reflexivity|]. split; [exact E2|]. split; [exact Hd|].
    split; [exact Ht|]. split; [rewrite Hcols; reflexivity | exact Hidx].
Defined.

Lemma false_positive_rate_is_zone1_share_witness :
  exists out issues zones,
    preprocess_input no_number mixed_table = Ok (out, issues) /\
    diagnostic_zones out = Ok zones /\
    rows out <> [] /\
    exists q,
      false_positive_rate out = Ok (Fin q) /\
      q = (inject_Z (Z.of_nat (List.length
                                 (filter (String.eqb ZONE_1) zones)))
           / inject_Z (Z.of_nat (List.length zones)) * 100)%Q /\
      (0 <= q /\ q <= 100)%Q.
Proof.
  do 3 eexists. split; [vm_compute; reflexivity|].
  split; [vm_compute; reflexivity|].
  split; [vm_compute; discriminate|].
  eapply false_positive_rate_is_zone1_share;
    [vm_compute; reflexivity | vm_compute; discriminate].
Defined.
